(** * CrossIDE command-line builder: a shallow embedding and its properties

    The development follows the Python sources
    [crosside_cli.py], [ide_utils/native_build.py],
    [ide_utils/android_native_build.py] and [ide_utils/android_pipeline.py].

    Conventions of the embedding:
    - a Python [str] is a [string]; its characters are the code points below
      256, so [ascii] is read as Latin-1;
    - a [Dict[str, ModuleSpec]] is a [gmap string ModuleSpec], a [set[str]] is
      a [gset string], a [List[str]] is a [list string];
    - a modification time is a rational number of seconds since the epoch;
    - the file system and the external tools are explicit inputs: either an
      argument ([path_exists]) or a world that is threaded through the calls;
    - a file that holds text is the string of its characters, and reading
      it in text mode gives [Py.universal_newlines] of that string;
    - an exception that a function raises is the answer [None];
    - the calls of [runProcess] that a function makes are kept in a list
      beside the world, so that the properties can speak of them. *)

From Stdlib Require Import ZArith QArith Qround Ascii String List Lia DecimalString.
From stdpp Require Import gmap strings list.

Local Open Scope Z_scope.
Local Open Scope stdpp_scope.

#[local] Set Warnings "-clear-no-such-hyp".

(** ** Python string primitives *)

Module Py.

Definition code (c : ascii) : N := N_of_ascii c.

Definition in_range (lo hi : N) (c : ascii) : bool :=
  ((lo <=? code c) && (code c <=? hi))%N.

(** [str.isspace] on one character, for the code points below 256. *)
Definition isspace (c : ascii) : bool :=
  in_range 9 13 c || in_range 28 32 c || (code c =? 133)%N || (code c =? 160)%N.

(** The ten ASCII digits, as in the regular-expression class [0-9]. *)
Definition is_ascii_digit (c : ascii) : bool := in_range 48 57 c.

(** [str.isdigit] on one character: the ASCII digits and the superscript
    digits of Latin-1. *)
Definition isdigit (c : ascii) : bool :=
  is_ascii_digit c || (code c =? 178)%N || (code c =? 179)%N || (code c =? 185)%N.

(** The regular-expression class [A-Za-z0-9_]. *)
Definition is_word (c : ascii) : bool :=
  in_range 65 90 c || in_range 97 122 c || is_ascii_digit c || (code c =? 95)%N.

Definition is_dot (c : ascii) : bool := (code c =? 46)%N.

Fixpoint filter (keep : ascii -> bool) (s : string) : string :=
  match s with
  | EmptyString => EmptyString
  | String c s' => if keep c then String c (filter keep s') else filter keep s'
  end.

Fixpoint all (p : ascii -> bool) (s : string) : bool :=
  match s with
  | EmptyString => true
  | String c s' => p c && all p s'
  end.

Definition is_empty (s : string) : bool :=
  match s with EmptyString => true | _ => false end.

Fixpoint lstrip_by (p : ascii -> bool) (s : string) : string :=
  match s with
  | EmptyString => EmptyString
  | String c s' => if p c then lstrip_by p s' else s
  end.

Fixpoint rstrip_by (p : ascii -> bool) (s : string) : string :=
  match s with
  | EmptyString => EmptyString
  | String c s' =>
      let r := rstrip_by p s' in
      if is_empty r && p c then EmptyString else String c r
  end.

(** [s.strip(chars)] where [p] decides membership in [chars]. *)
Definition strip_by (p : ascii -> bool) (s : string) : string :=
  rstrip_by p (lstrip_by p s).

(** [s.strip()]. *)
Definition strip (s : string) : string := strip_by isspace s.

(** [s.startswith(pre)]. *)
Definition startswith (s pre : string) : bool := String.prefix pre s.

(** [s.split(sep)] for a one-character separator. *)
Fixpoint split (sep : ascii) (s : string) : list string :=
  match s with
  | EmptyString => [EmptyString]
  | String c s' =>
      if Ascii.eqb c sep then EmptyString :: split sep s'
      else match split sep s' with
           | h :: t => String c h :: t
           | [] => [String c EmptyString]
           end
  end.

(** [sep.join(parts)]. *)
Definition join (sep : string) (parts : list string) : string :=
  String.concat sep parts.

(** [s.replace(old, new)] for a non-empty [old]: occurrences are replaced
    from left to right and do not overlap; [skip] counts the characters of
    the occurrence just replaced that are still to be passed over. *)
Fixpoint replace_go (old new : string) (skip : nat) (s : string) : string :=
  match s with
  | EmptyString => EmptyString
  | String c s' =>
      match skip with
      | S k => replace_go old new k s'
      | O =>
          if String.prefix old s
          then new +:+ replace_go old new (String.length old - 1) s'
          else String c (replace_go old new 0 s')
      end
  end.

Definition replace (old new s : string) : string := replace_go old new 0 s.

Definition is_cr (c : ascii) : bool := (code c =? 13)%N.
Definition is_lf (c : ascii) : bool := (code c =? 10)%N.

(** What [read] gives for the characters that a file holds, when the file
    was opened in text mode without a [newline] argument (universal
    newlines): a carriage return, with the line feed that follows it when
    there is one, is read as one line feed. *)
Fixpoint universal_newlines (s : string) : string :=
  match s with
  | EmptyString => EmptyString
  | String c s' =>
      if is_cr c then
        String (ascii_of_nat 10)
               match s' with
               | String c' s'' =>
                   if is_lf c' then universal_newlines s'' else universal_newlines s'
               | EmptyString => EmptyString
               end
      else String c (universal_newlines s')
  end.

(** [re.sub(r"\.+", ".", s)]: every maximal run of dots becomes one dot. *)
Fixpoint collapse_dots_go (in_run : bool) (s : string) : string :=
  match s with
  | EmptyString => EmptyString
  | String c s' =>
      if is_dot c
      then (if in_run then collapse_dots_go true s'
            else String c (collapse_dots_go true s'))
      else String c (collapse_dots_go false s')
  end.

Definition collapse_dots (s : string) : string := collapse_dots_go false s.

(** Truthiness of a string: [if s]. *)
Definition truthy (s : string) : bool := negb (is_empty s).

(** [str.lower] on one character, for the code points below 256: the ASCII
    capitals and the Latin-1 capitals, which leave out the multiplication
    sign, move up by 32. *)
Definition lower_char (c : ascii) : ascii :=
  if in_range 65 90 c || (in_range 192 222 c && negb (code c =? 215)%N)
  then ascii_of_N (code c + 32) else c.

Fixpoint lower (s : string) : string :=
  match s with
  | EmptyString => EmptyString
  | String c s' => String (lower_char c) (lower s')
  end.

End Py.

(** ** Android package names ([sanitize_android_package_name],
       [_sanitize_android_package]) *)

Definition default_package : string := "com.djokersoft.game".

(** The body of the loop over [parts]: the part is cleaned, dropped when
    nothing is left, and prefixed by [p] when it starts with a digit. *)
Definition clean_part (part : string) : option string :=
  let cleaned := Py.filter Py.is_word part in
  match cleaned with
  | EmptyString => None
  | String c _ => Some (if Py.isdigit c then "p" +:+ cleaned else cleaned)
  end.

Definition clean_parts (parts : list string) : list string :=
  omap clean_part parts.

Definition sanitize_android_package_name (package_name fallback : string) : string :=
  let value := Py.replace "/" "." (Py.strip package_name) in
  let value := Py.filter (fun c => Py.is_word c || Py.is_dot c) value in
  let value := Py.strip_by Py.is_dot (Py.collapse_dots value) in
  let parts := List.filter Py.truthy (Py.split "."%char value) in
  let cleaned := clean_parts parts in
  if (length cleaned <? 2)%nat then fallback else Py.join "." cleaned.

(** [ide_utils/android_pipeline.py] carries a second copy of the function,
    with the same body. *)
Definition _sanitize_android_package (package_name fallback : string) : string :=
  sanitize_android_package_name package_name fallback.

(** The shape of a package name: at least two segments separated by dots,
    each a non-empty word that does not start with a digit. *)
Definition valid_segment (s : string) : Prop :=
  match s with
  | EmptyString => False
  | String c _ => Py.is_ascii_digit c = false /\ Py.all Py.is_word s = true
  end.

Definition valid_package (p : string) : Prop :=
  exists segments : list string,
    (2 <= length segments)%nat /\ Forall valid_segment segments /\
    p = Py.join "." segments.

(** ** Flag lists *)

Definition append_unique (items : list string) (value : string) : list string :=
  if Py.truthy value && negb (bool_decide (value ∈ items))
  then items ++ [value] else items.

(** [for value in values: append_unique(items, value)]. *)
Definition extend_unique (items values : list string) : list string :=
  foldl append_unique items values.

(** The three lists that the composition functions return. *)
Definition cc_of (flags : list string * list string * list string) : list string :=
  fst (fst flags).
Definition cpp_of (flags : list string * list string * list string) : list string :=
  snd (fst flags).
Definition ld_of (flags : list string * list string * list string) : list string :=
  snd flags.

(** ** Desktop mode filter ([apply_desktop_mode_to_flags]) *)

Definition debug_flags : list string :=
  ["-O0"; "-g3"; "-DDEBUG"; "-fno-omit-frame-pointer"].

Definition release_flags : list string := ["-O2"; "-DNDEBUG"].

(** One iteration of the loop of [filter_compile_flags]: [None] stands for
    [continue], [Some value] for [out.append(value)]. *)
Definition compile_flag_kept (flag : string) : option string :=
  let value := Py.strip flag in
  if Py.is_empty value then None
  else if bool_decide (value ∈ ["-DDEBUG"; "-DNDEBUG"; "-s"]) then None
  else if Py.startswith value "-O" then None
  else if Py.startswith value "-g" then None
  else Some value.

Definition filter_compile_flags (flags : list string) : list string :=
  omap compile_flag_kept flags.

Definition link_flag_kept (mode : string) (flag : string) : option string :=
  let value := Py.strip flag in
  if Py.is_empty value then None
  else if bool_decide (value ∈ ["-s"; "-Wl,-s"]) && bool_decide (mode = "debug")
  then None
  else Some value.

Definition filter_link_flags (mode : string) (flags : list string) : list string :=
  omap (link_flag_kept mode) flags.

Definition apply_desktop_mode_to_flags
    (cc_args cpp_args ld_args : list string) (mode : string)
  : list string * list string * list string :=
  let cc := filter_compile_flags cc_args in
  let cpp := filter_compile_flags cpp_args in
  let ld := filter_link_flags mode ld_args in
  if bool_decide (mode = "debug")
  then (cc ++ debug_flags, cpp ++ debug_flags, ld)
  else (cc ++ release_flags, cpp ++ release_flags, ld).

(** C4 as the specification states it, for the two compile lists: the debug
    lists hold no release flag and the release lists no debug flag. *)
Definition desktop_mode_claim (cc_args cpp_args : list string) : Prop :=
  (forall flag, flag ∈ release_flags ->
     (flag ∉ cc_of (apply_desktop_mode_to_flags cc_args cpp_args [] "debug")) /\
     (flag ∉ cpp_of (apply_desktop_mode_to_flags cc_args cpp_args [] "debug"))) /\
  (forall flag, flag ∈ debug_flags ->
     (flag ∉ cc_of (apply_desktop_mode_to_flags cc_args cpp_args [] "release")) /\
     (flag ∉ cpp_of (apply_desktop_mode_to_flags cc_args cpp_args [] "release"))).

(** ** Web link arguments (the non-static branch of [web_build]) *)

(** [if len(value) > n: out.append(value)]. *)
Definition keep_longer (n : nat) (value : string) : list string :=
  if (n <? String.length value)%nat then [value] else [].

(** The [while index < len(ldargs)] loop; the argument is the part of
    [ldargs] from [index] on, and the result is what the loop appends to
    [normalized_ldargs] from there. *)
Fixpoint normalize_ldargs (ldargs : list string) : list string :=
  match ldargs with
  | [] => []
  | arg :: rest =>
      let value := Py.strip arg in
      if bool_decide (value = "-s") then
        match rest with
        | next :: rest' =>
            let setting := Py.strip next in
            (if (0 <? String.length setting)%nat then ["-s" +:+ setting] else [])
            ++ normalize_ldargs rest'
        | [] => keep_longer 1 value ++ normalize_ldargs rest
        end
      else keep_longer 1 value ++ normalize_ldargs rest
  end.

Definition asyncify_prefix : string := "-sASYNCIFY".
Definition exported_prefix : string := "-sEXPORTED_RUNTIME_METHODS=".
Definition exported_runtime_methods : string :=
  "-sEXPORTED_RUNTIME_METHODS=['HEAP8','HEAPU8','HEAP16','HEAPU16','HEAP32','HEAPU32','HEAPF32','HEAPF64','ccall','cwrap']".

Definition has_flag_with_prefix (pre : string) (args : list string) : bool :=
  existsb (fun arg => Py.startswith arg pre) args.

(** The flags that [web_build] appends after the loop. *)
Definition forced_web_flags (normalized : list string) : list string :=
  (if has_flag_with_prefix asyncify_prefix normalized then [] else [asyncify_prefix])
  ++ (if has_flag_with_prefix exported_prefix normalized then []
      else [exported_runtime_methods]).

(** The value of [normalized_ldargs] when the linker is called. *)
Definition web_link_args (ldargs : list string) : list string :=
  let normalized := normalize_ldargs ldargs in
  normalized ++ forced_web_flags normalized.

(** ** Time stamps and [time.ctime] *)

Module Ctime.

(** Proleptic Gregorian date of a day number counted from 1970-01-01. *)
Definition civil_from_days (days : Z) : Z * Z * Z :=
  let z := days + 719468 in
  let era := z / 146097 in
  let doe := z - era * 146097 in
  let yoe := (doe - doe / 1460 + doe / 36524 - doe / 146096) / 365 in
  let doy := doe - (365 * yoe + yoe / 4 - yoe / 100) in
  let mp := (5 * doy + 2) / 153 in
  let d := doy - (153 * mp + 2) / 5 + 1 in
  let m := if mp <? 10 then mp + 3 else mp - 9 in
  let y := yoe + era * 400 + (if m <=? 2 then 1 else 0) in
  (y, m, d).

Definition day_names : list string :=
  ["Sun"; "Mon"; "Tue"; "Wed"; "Thu"; "Fri"; "Sat"].

Definition month_names : list string :=
  ["Jan"; "Feb"; "Mar"; "Apr"; "May"; "Jun";
   "Jul"; "Aug"; "Sep"; "Oct"; "Nov"; "Dec"].

Definition digit (d : Z) : ascii := ascii_of_N (48 + Z.to_N d).

(** Two columns, the first filled with [pad] below ten. *)
Definition two (pad : ascii) (n : Z) : string :=
  String (if n <? 10 then pad else digit (n / 10))
         (String (digit (n mod 10)) EmptyString).

Definition decimal (n : Z) : string :=
  DecimalString.NilZero.string_of_int (Z.to_int n).

(** [time.ctime(secs)] in a zone [utc_offset] seconds east of Greenwich:
    the text [Www Mmm dd hh:mm:ss yyyy] of the second that holds [secs]. *)
Definition ctime (utc_offset : Z) (secs : Q) : string :=
  let t := Qfloor secs + utc_offset in
  let days := t / 86400 in
  let rem := t mod 86400 in
  let '(y, m, d) := civil_from_days days in
  nth (Z.to_nat ((days + 4) mod 7)) day_names "" +:+ " " +:+
  nth (Z.to_nat (m - 1)) month_names "" +:+ " " +:+
  two " " d +:+ " " +:+
  two "0" (rem / 3600) +:+ ":" +:+
  two "0" (rem mod 3600 / 60) +:+ ":" +:+
  two "0" (rem mod 60) +:+ " " +:+ decimal y.

End Ctime.

(** ** Incremental build decision *)

Inductive decision : Set := Recompile | Skip.

(** [desktop_compile], lines 48 to 66; [web_compile] has the same test.
    [obj_mtime] is [None] when [os.path.exists(obj_name)] is false. *)
Definition desktop_decision
    (utc_offset : Z) (full_build : bool) (src_mtime : Q) (obj_mtime : option Q)
  : decision :=
  let src_convert_time := Ctime.ctime utc_offset src_mtime in
  if negb full_build then
    match obj_mtime with
    | Some obj_modified_time =>
        let obj_convert_time := Ctime.ctime utc_offset obj_modified_time in
        if String.ltb src_convert_time obj_convert_time then Skip else Recompile
    | None => Recompile
    end
  else Recompile.

(** [android_compile], lines 374 to 385. *)
Definition android_decision
    (full_build : bool) (src_mtime : Q) (obj_mtime : option Q) : decision :=
  if negb full_build then
    match obj_mtime with
    | Some obj_modified_time =>
        if Qle_bool src_mtime obj_modified_time then Skip else Recompile
    | None => Recompile
    end
  else Recompile.

(** ** Descriptors *)

Module PlatformBlock.
Record t : Type := Build {
  src : list string;
  include : list string;
  cpp_args : list string;
  cc_args : list string;
  ld_args : list string;
  template : string
}.
Definition empty : t := Build [] [] [] [] [] "".
End PlatformBlock.

Module ModuleSpec.
(** [directory] is the text of the resolved [Path]. *)
Record t : Type := Build {
  name : string;
  directory : string;
  static : bool;
  depends : list string;
  system : list string;
  main_src : list string;
  main_include : list string;
  main_cpp_args : list string;
  main_cc_args : list string;
  main_ld_args : list string;
  desktop : PlatformBlock.t;
  android : PlatformBlock.t;
  web : PlatformBlock.t
}.
End ModuleSpec.

(** The module registry, [Dict[str, ModuleSpec]]. *)
Abbreviation registry := (gmap string ModuleSpec.t).

(** ** Dependency graph resolver ([topological_modules]) *)

(** The three local variables of [topological_modules] that the nested
    [visit] updates, and the lines given to [ctx.trace]. *)
Record visit_state : Type := VisitState {
  order : list string;
  visited : gset string;
  stack : gset string;
  traced : list string
}.

Definition initial_visit_state : visit_state := VisitState [] ∅ ∅ [].

Definition trace_line (line : string) (st : visit_state) : visit_state :=
  VisitState (order st) (visited st) (stack st) (traced st ++ [line]).

Definition push_stack (name : string) (st : visit_state) : visit_state :=
  VisitState (order st) (visited st) ({[name]} ∪ stack st) (traced st).

(** The state after [stack.remove(name); visited.add(name);
    order.append(name)]. *)
Definition finished (name : string) (st : visit_state) : visit_state :=
  VisitState (order st ++ [name]) ({[name]} ∪ visited st)
             (stack st ∖ {[name]}) (traced st).

(** [set.remove] raises [KeyError] on a missing element: no state then. *)
Definition finish (name : string) (st : visit_state) : option visit_state :=
  if decide (name ∈ stack st) then Some (finished name st) else None.

(** A [for] loop whose body may fail to produce a state. *)
Fixpoint for_each {A S : Type} (body : A -> S -> option S)
    (items : list A) (s : S) : option S :=
  match items with
  | [] => Some s
  | x :: rest =>
      match body x s with
      | Some s' => for_each body rest s'
      | None => None
      end
  end.

(** The dependency names that the loop of [visit] follows for a module
    registered as [name]: stripped, non-empty and different from [name]. *)
Definition followed (name : string) (dep : string) : option string :=
  let dep_name := Py.strip dep in
  if Py.is_empty dep_name || bool_decide (dep_name = name) then None
  else Some dep_name.

(** [visit]; [fuel] bounds the depth of the recursion, and [None] is the
    answer of a call that ran out of it or that raised. *)
Fixpoint visit (all_modules : registry) (fuel : nat) (name : string)
    (st : visit_state) : option visit_state :=
  match fuel with
  | O => None
  | S fuel' =>
      if decide (name ∈ visited st) then Some st
      else if decide (name ∈ stack st) then
        Some (trace_line ("Warn: circular module dependency detected on " +:+ name) st)
      else
        match all_modules !! name with
        | None => Some (trace_line ("Warn: module dependency not found: " +:+ name) st)
        | Some module =>
            match
              for_each
                (fun dep st =>
                   match followed name dep with
                   | None => Some st
                   | Some dep_name => visit all_modules fuel' dep_name st
                   end)
                (ModuleSpec.depends module) (push_stack name st)
            with
            | Some st' => finish name st'
            | None => None
            end
        end
  end.

Definition topological_run (fuel : nat) (module_name : string)
    (all_modules : registry) : option visit_state :=
  visit all_modules fuel module_name initial_visit_state.

(** The recursion never goes deeper than the number of registered modules
    plus one, which is the fuel given here. *)
Definition resolver_fuel (all_modules : registry) : nat := S (size all_modules).

Definition topological_modules (module_name : string) (all_modules : registry)
  : list string :=
  match topological_run (resolver_fuel all_modules) module_name all_modules with
  | Some st => order st
  | None => []
  end.

Definition closure_for_modules (module_names : list string)
    (all_modules : registry) : list string :=
  foldl
    (fun ordered name =>
       foldl (fun ordered item =>
                if bool_decide (item ∈ ordered) then ordered else ordered ++ [item])
             ordered (topological_modules name all_modules))
    [] module_names.

(** [d] is a dependency that [visit] follows from the registered module [m]
    and that is itself registered. *)
Definition edge (all_modules : registry) (m d : string) : Prop :=
  exists module dep,
    all_modules !! m = Some module /\ dep ∈ ModuleSpec.depends module /\
    followed m dep = Some d /\ is_Some (all_modules !! d).

(** The registered modules reachable from a registered start. *)
Inductive reachable (all_modules : registry) (start : string) : string -> Prop :=
  | reachable_start :
      is_Some (all_modules !! start) -> reachable all_modules start start
  | reachable_step m d :
      reachable all_modules start m -> edge all_modules m d ->
      reachable all_modules start d.

(** [x] occurs in [l] at a position strictly before one of [y]. *)
Definition appears_before (l : list string) (x y : string) : Prop :=
  exists i j : nat, l !! i = Some x /\ l !! j = Some y /\ (i < j)%nat.

(** A small module descriptor with only a name and dependencies. *)
Definition plain_module (name : string) (depends : list string) : ModuleSpec.t :=
  ModuleSpec.Build name ("/repo/modules/" +:+ name) true depends [] [] [] [] [] []
                   PlatformBlock.empty PlatformBlock.empty PlatformBlock.empty.

(** The registry of the two-module cycle: [A] depends on [B] and [B] on [A]. *)
Definition cycle_registry : registry :=
  <["A" := plain_module "A" ["B"]]> (<["B" := plain_module "B" ["A"]]> ∅).

(** ** Flag composition engine *)

(** The environment of the composition: [joinpath dir rel] is the text of
    the path [dir / rel], [os_nt] says whether [os.name] is [nt], and
    [path_exists] answers [Path.exists]. *)
Section Composition.
Variable joinpath : string -> string -> string.
Variable os_nt : bool.
Variable path_exists : string -> bool.

Definition module_platform_block (module : ModuleSpec.t) (target : string)
  : PlatformBlock.t :=
  if bool_decide (target = "desktop") then ModuleSpec.desktop module
  else if bool_decide (target = "android") then ModuleSpec.android module
  else ModuleSpec.web module.

Definition module_system_name (target : string) : string :=
  if bool_decide (target = "desktop") then (if os_nt then "windows" else "linux")
  else if bool_decide (target = "android") then "android"
  else "emscripten".

Definition include_suffix_for_target (target : string) : string :=
  if bool_decide (target = "desktop") then (if os_nt then "windows" else "linux")
  else if bool_decide (target = "android") then "android"
  else "web".

Definition abi_name (abi : Z) : string :=
  if (abi =? 1)%Z then "arm64-v8a" else "armeabi-v7a".

Definition library_dir_for_module (module : ModuleSpec.t) (target : string)
    (abi : Z) : string :=
  if bool_decide (target = "desktop")
  then joinpath (ModuleSpec.directory module) (if os_nt then "Windows" else "Linux")
  else if bool_decide (target = "web")
  then joinpath (ModuleSpec.directory module) "Web"
  else joinpath (joinpath (ModuleSpec.directory module) "Android") (abi_name abi).

Definition library_file_for_module (module : ModuleSpec.t) (target : string)
    (abi : Z) : string :=
  let extension :=
    if ModuleSpec.static module || bool_decide (target = "web") then ".a" else ".so" in
  joinpath (library_dir_for_module module target abi)
           ("lib" +:+ ModuleSpec.name module +:+ extension).

(** The include flags of a module, in the order of [include_candidates]. *)
Definition module_include_flags (module : ModuleSpec.t) (block : PlatformBlock.t)
    (target : string) : list string :=
  let dir := ModuleSpec.directory module in
  let suffix := include_suffix_for_target target in
  let include_candidates :=
    [joinpath dir "src"; joinpath dir "include";
     joinpath (joinpath dir "include") suffix]
    ++ List.map (joinpath dir) (ModuleSpec.main_include module)
    ++ List.map (joinpath dir) (PlatformBlock.include block) in
  List.map (fun include_path => "-I" +:+ include_path) include_candidates.

(** [add_module_include_flags] updates the two lists it is given. *)
Definition add_module_include_flags (module : ModuleSpec.t) (block : PlatformBlock.t)
    (target : string) (cc_args cpp_args : list string)
  : list string * list string :=
  let flags := module_include_flags module block target in
  (extend_unique cc_args flags, extend_unique cpp_args flags).

(** [add_module_link_flags]: only the search path goes through
    [append_unique]; the library and the declared flags are appended. *)
Definition add_module_link_flags (module : ModuleSpec.t) (block : PlatformBlock.t)
    (target : string) (abi : Z) (ld_args : list string) : list string :=
  let ld_args :=
    append_unique ld_args ("-L" +:+ library_dir_for_module module target abi) in
  let ld_args :=
    if path_exists (library_file_for_module module target abi)
    then ld_args ++ ["-l" +:+ ModuleSpec.name module] else ld_args in
  let ld_args := ld_args ++ List.filter Py.truthy (ModuleSpec.main_ld_args module) in
  ld_args ++ List.filter Py.truthy (PlatformBlock.ld_args block).

(** One turn of the loop over [module.depends] in
    [collect_module_build_flags]; the warning for an unknown dependency is
    not recorded. *)
Definition add_dependency_flags (module : ModuleSpec.t) (target : string) (abi : Z)
    (all_modules : registry)
    (flags : list string * list string * list string) (dep_name : string)
  : list string * list string * list string :=
  match followed (ModuleSpec.name module) dep_name with
  | None => flags
  | Some name =>
      match all_modules !! name with
      | None => flags
      | Some dep =>
          let dep_block := module_platform_block dep target in
          let '(cc_args, cpp_args) :=
            add_module_include_flags dep dep_block target (cc_of flags) (cpp_of flags) in
          (cc_args, cpp_args,
           add_module_link_flags dep dep_block target abi (ld_of flags))
      end
  end.

(** The statements of [collect_module_build_flags] that come after the
    three lists are created, lines 604 to 631, run on the lists [flags]. *)
Definition compose_module_flags (module : ModuleSpec.t) (target : string)
    (abi : Z) (all_modules : registry)
    (flags : list string * list string * list string)
  : list string * list string * list string :=
  let block := module_platform_block module target in
  let '(cc_args, cpp_args) :=
    add_module_include_flags module block target (cc_of flags) (cpp_of flags) in
  let cc_args := extend_unique cc_args (ModuleSpec.main_cc_args module) in
  let cc_args := extend_unique cc_args (PlatformBlock.cc_args block) in
  let cpp_args := extend_unique cpp_args (ModuleSpec.main_cpp_args module) in
  let cpp_args := extend_unique cpp_args (PlatformBlock.cpp_args block) in
  let flags :=
    foldl (add_dependency_flags module target abi all_modules)
          (cc_args, cpp_args, ld_of flags) (ModuleSpec.depends module) in
  let ld_args := extend_unique (ld_of flags) (ModuleSpec.main_ld_args module) in
  let ld_args := extend_unique ld_args (PlatformBlock.ld_args block) in
  (cc_of flags, cpp_of flags, ld_args).

(** [collect_module_build_flags]: the three lists are created empty, lines
    600 to 602, and the statements that follow fill them. *)
Definition collect_module_build_flags (module : ModuleSpec.t) (target : string)
    (abi : Z) (all_modules : registry)
  : list string * list string * list string :=
  compose_module_flags module target abi all_modules ([], [], []).

(** The dependencies that the loop over [module.depends] takes: the
    registered ones, in the order of the list and as often as it names
    them. *)
Definition resolved_dependencies (module : ModuleSpec.t) (all_modules : registry)
  : list ModuleSpec.t :=
  omap (fun dep_name =>
          match followed (ModuleSpec.name module) dep_name with
          | Some name => all_modules !! name
          | None => None
          end)
       (ModuleSpec.depends module).

(** What [add_module_link_flags] appends for a module whatever the list
    holds: the library, when its file exists, and the link flags that the
    module declares. *)
Definition module_link_block (module : ModuleSpec.t) (target : string) (abi : Z)
  : list string :=
  (if path_exists (library_file_for_module module target abi)
   then ["-l" +:+ ModuleSpec.name module] else [])
  ++ List.filter Py.truthy (ModuleSpec.main_ld_args module)
  ++ List.filter Py.truthy (PlatformBlock.ld_args (module_platform_block module target)).

(** The search path of the library of a module. *)
Definition module_search_path (module : ModuleSpec.t) (target : string) (abi : Z)
  : string :=
  "-L" +:+ library_dir_for_module module target abi.

(** C5 as the specification states it: three duplicate-free lists. *)
Definition duplicate_free_claim (module : ModuleSpec.t) (target : string)
    (abi : Z) (all_modules : registry) : Prop :=
  let flags := collect_module_build_flags module target abi all_modules in
  NoDup (cc_of flags) /\ NoDup (cpp_of flags) /\ NoDup (ld_of flags).

End Composition.

(** [dir / rel] for a relative [rel] made of plain names. *)
Definition posix_join (dir rel : string) : string := dir +:+ "/" +:+ rel.

(** A module with a name, dependencies and common link flags only. *)
Definition linking_module (name : string) (depends main_ld_args : list string)
  : ModuleSpec.t :=
  ModuleSpec.Build name ("/repo/modules/" +:+ name) true depends [] [] [] [] []
                   main_ld_args
                   PlatformBlock.empty PlatformBlock.empty PlatformBlock.empty.

(** An application module over two libraries that both link [-lpthread]. *)
Definition threads_registry : registry :=
  <["app" := linking_module "app" ["net"; "audio"] []]>
    (<["net" := linking_module "net" [] ["-lpthread"]]>
       (<["audio" := linking_module "audio" [] ["-lpthread"]]> ∅)).

(** ** Compile and link orchestrator: the Android loops *)

(** A call of [android_compile] or [android_build] for an ABI, with its
    answer. *)
Inductive call : Set :=
  | Compiled (abi : Z) (ok : bool)
  | Linked (abi : Z) (ok : bool).

Definition failed (c : call) : bool :=
  match c with Compiled _ ok | Linked _ ok => negb ok end.

(** The external tool chain is a world that the two functions of
    [android_native_build.py] read and change. *)
Section Orchestrator.
Variable joinpath : string -> string -> string.
Variable os_nt : bool.
Variable World : Type.
Variable path_exists : World -> string -> bool.
(** [android_compile folder_root name srcs cargs cppargs arm full_build]. *)
Variable android_compile :
  string -> string -> list string -> list string -> list string -> Z -> bool ->
  World -> bool * World.
(** [android_build folder_root name use_cpp ldargs build_type arm]. *)
Variable android_build :
  string -> string -> bool -> list string -> Z -> Z -> World -> bool * World.

(** The variable [ok] of the loop, the world, and the calls made so far. *)
Record loop_state : Type := LoopState {
  loop_ok : bool;
  loop_world : World;
  loop_calls : list call
}.

(** The body of [for abi in abi_list]: a failed compile sets [ok] to false
    and goes on with the next ABI ([continue]); a failed link sets [ok] to
    false. [flags_for] yields the three lists composed for the ABI. *)
Definition android_abi_turn
    (flags_for : World -> Z -> list string * list string * list string)
    (folder_root name : string) (srcs : list string) (use_cpp : bool)
    (build_type : Z) (full_build : bool) (st : loop_state) (abi : Z) : loop_state :=
  let flags := flags_for (loop_world st) abi in
  let '(compiled, w) :=
    android_compile folder_root name srcs (cc_of flags) (cpp_of flags) abi
                    full_build (loop_world st) in
  if negb compiled then
    LoopState false w (loop_calls st ++ [Compiled abi false])
  else
    let '(linked, w) :=
      android_build folder_root name use_cpp (ld_of flags) build_type abi w in
    LoopState (if linked then loop_ok st else false) w
              (loop_calls st ++ [Compiled abi true; Linked abi linked]).

(** The Android branch of [build_module_target], lines 712 to 740; [srcs]
    and [use_cpp] are the values computed before the branch. The value of
    [loop_ok] is what the function returns. *)
Definition build_module_target_android (module : ModuleSpec.t)
    (srcs : list string) (use_cpp : bool) (abi_list : list Z) (full_build : bool)
    (all_modules : registry) (w : World) : loop_state :=
  foldl
    (android_abi_turn
       (fun w abi =>
          collect_module_build_flags joinpath os_nt (path_exists w)
                                     module "android" abi all_modules)
       (ModuleSpec.directory module) (ModuleSpec.name module) srcs use_cpp
       (if ModuleSpec.static module then 2 else 1) full_build)
    (LoopState true w []) abi_list.

(** The loop of the Android branch of [build_project_target], lines 1090 to
    1131, for a project rooted at [root]; [project_flags] yields the lists
    [abi_cc], [abi_cpp] and [abi_ld] of an ABI. When [loop_ok] is false the
    function returns false before any packaging. *)
Definition build_project_target_android
    (project_flags : World -> Z -> list string * list string * list string)
    (root name : string) (source_files : list string) (use_cpp : bool)
    (abi_list : list Z) (full_build : bool) (w : World) : loop_state :=
  foldl (android_abi_turn project_flags root name source_files use_cpp 0 full_build)
        (LoopState true w []) abi_list.

End Orchestrator.

Arguments LoopState {World}.
Arguments loop_ok {World}.
Arguments loop_world {World}.
Arguments loop_calls {World}.

(** C7 as the specification states it: nothing is called after a failed
    call. *)
Definition halts_at_failure (calls : list call) : Prop :=
  forall before c after,
    calls = before ++ c :: after -> failed c = true -> after = [].

(** The calls that the loop makes for a list of ABIs: each ABI is compiled,
    in the order of the list, and linked when its compile succeeded. *)
Inductive abi_calls : list Z -> list call -> Prop :=
  | abi_calls_nil : abi_calls [] []
  | abi_calls_compile_failed abi rest calls :
      abi_calls rest calls ->
      abi_calls (abi :: rest) (Compiled abi false :: calls)
  | abi_calls_linked abi linked rest calls :
      abi_calls rest calls ->
      abi_calls (abi :: rest) (Compiled abi true :: Linked abi linked :: calls).

(** A tool chain without state whose compiler fails for the first ABI
    (32-bit ARM) only. *)
Definition arm7_compile_fails
    (folder_root name : string) (srcs cargs cppargs : list string) (arm : Z)
    (full_build : bool) (w : unit) : bool * unit :=
  (negb (arm =? 0)%Z, w).

Definition link_succeeds
    (folder_root name : string) (use_cpp : bool) (ldargs : list string)
    (build_type arm : Z) (w : unit) : bool * unit :=
  (true, w).

(** ** Android manifest *)

(** The double quote, the line feed and the carriage return, as
    one-character strings. *)
Definition dq : string := String (ascii_of_nat 34) EmptyString.
Definition nl : string := String (ascii_of_nat 10) EmptyString.
Definition cr : string := String (ascii_of_nat 13) EmptyString.

(** [NATIVE_MANIFEST_TEMPLATE], line by line. *)
Definition NATIVE_MANIFEST_TEMPLATE : string :=
  Py.join nl
  ["<?xml version=" +:+ dq +:+ "1.0" +:+ dq +:+ " encoding=" +:+ dq +:+ "utf-8" +:+ dq +:+ "?>";
   "<manifest xmlns:android=" +:+ dq +:+ "http://schemas.android.com/apk/res/android" +:+ dq;
   "          package=" +:+ dq +:+ "@apppkg@" +:+ dq;
   "          android:versionCode=" +:+ dq +:+ "1" +:+ dq;
   "          android:versionName=" +:+ dq +:+ "1.0" +:+ dq +:+ ">";
   "";
   "           <uses-sdk  android:compileSdkVersion=" +:+ dq +:+ "30" +:+ dq +:+ "     android:minSdkVersion=" +:+ dq +:+ "16" +:+ dq +:+ "  android:targetSdkVersion=" +:+ dq +:+ "23" +:+ dq +:+ " />";
   "";
   "  <application";
   "      android:allowBackup=" +:+ dq +:+ "false" +:+ dq;
   "      android:fullBackupContent=" +:+ dq +:+ "false" +:+ dq;
   "      android:icon=" +:+ dq +:+ "@mipmap/ic_launcher" +:+ dq;
   "      android:label=" +:+ dq +:+ "@applbl@" +:+ dq;
   "      android:hasCode=" +:+ dq +:+ "false" +:+ dq +:+ ">";
   "";
   "";
   "    <activity android:name=" +:+ dq +:+ "@appact@" +:+ dq;
   "              android:label=" +:+ dq +:+ "@applbl@" +:+ dq;
   "              android:configChanges=" +:+ dq +:+ "orientation|keyboardHidden|screenSize" +:+ dq;
   "             android:screenOrientation=" +:+ dq +:+ "landscape" +:+ dq +:+ " android:launchMode=" +:+ dq +:+ "singleTask" +:+ dq;
   "             android:clearTaskOnLaunch=" +:+ dq +:+ "true" +:+ dq +:+ ">";
   "";
   "      <meta-data android:name=" +:+ dq +:+ "android.app.lib_name" +:+ dq;
   "                 android:value=" +:+ dq +:+ "@appLIBNAME@" +:+ dq +:+ " />";
   "      <intent-filter>";
   "        <action android:name=" +:+ dq +:+ "android.intent.action.MAIN" +:+ dq +:+ " />";
   "        <category android:name=" +:+ dq +:+ "android.intent.category.LAUNCHER" +:+ dq +:+ " />";
   "      </intent-filter>";
   "    </activity>";
   "  </application>";
   "";
   "</manifest>"].

Definition build_native_manifest
    (template package_name label activity lib_name : string) : string :=
  let data := template in
  let data := Py.replace "@apppkg@" package_name data in
  let data := Py.replace "@applbl@" label data in
  let data := Py.replace "@appact@" activity data in
  Py.replace "@appLIBNAME@" lib_name data.

(** What lies at a path: nothing, a file that cannot be read as text
    ([open] or the decoding raises), or a file with the characters it
    holds, line ends as they are stored. The pipeline is modelled on a
    POSIX system (its paths are joined with a slash), where [os.linesep] is
    the line feed: [write] on a file opened in text mode stores the
    characters as they are, and [read] gives
    [Py.universal_newlines] of what is stored. *)
Inductive file : Type :=
  | Missing
  | Unreadable
  | Text (content : string).

Module Re.

Fixpoint drop (n : nat) (s : string) : string :=
  match n, s with
  | O, _ => s
  | S _, EmptyString => EmptyString
  | S n', String _ s' => drop n' s'
  end.

(** The longest prefix without a double quote, and the rest. *)
Fixpoint span_unquoted (s : string) : string * string :=
  match s with
  | EmptyString => (EmptyString, EmptyString)
  | String c s' =>
      if Ascii.eqb c (ascii_of_nat 34) then (EmptyString, s)
      else let '(run, rest) := span_unquoted s' in (String c run, rest)
  end.

(** A match, at the start of [text], of [prefix], then a non-empty run of
    characters other than the double quote (group 1), then a double quote:
    the group and the text that follows it. The run is greedy and holds no
    character that the closing quote would accept, so that giving back does
    not help. *)
Definition match_quoted_here (prefix text : string) : option (string * string) :=
  if String.prefix prefix text then
    let '(run, rest) := span_unquoted (drop (String.length prefix) text) in
    match run, rest with
    | String _ _, String _ _ => Some (run, rest)
    | _, _ => None
    end
  else None.

(** [re.search] for that pattern: the text before group 1, the group, and
    the text after it, for the leftmost match. *)
Fixpoint search_quoted (prefix text : string) : option (string * string * string) :=
  match match_quoted_here prefix text with
  | Some (group, rest) => Some (prefix, group, rest)
  | None =>
      match text with
      | EmptyString => None
      | String c text' =>
          match search_quoted prefix text' with
          | Some (before, group, rest) => Some (String c before, group, rest)
          | None => None
          end
      end
  end.

Definition group_of (found : option (string * string * string)) : string :=
  match found with
  | Some (_, group, _) => group
  | None => EmptyString
  end.

(** The text after the leftmost occurrence of [literal]. *)
Fixpoint after_literal (literal text : string) : option string :=
  if String.prefix literal text then Some (drop (String.length literal) text)
  else match text with
       | EmptyString => None
       | String _ text' => after_literal literal text'
       end.

End Re.

(** Group 1 of the search for a quoted [package=] attribute, or the empty
    string. *)
Definition existing_package (manifest : string) : string :=
  Re.group_of (Re.search_quoted ("package=" +:+ dq) manifest).

(** Group 1 of the search for a quoted [<activity android:name=] attribute,
    or the empty string. *)
Definition existing_activity (manifest : string) : string :=
  Re.group_of (Re.search_quoted ("<activity android:name=" +:+ dq) manifest).

(** Group 1 of the search for the [android.app.lib_name] meta-data: the
    first quoted [android:value] after the first occurrence of the name (the
    gap between the two is matched lazily), or the empty string. *)
Definition existing_lib (manifest : string) : string :=
  match Re.after_literal ("android:name=" +:+ dq +:+ "android.app.lib_name" +:+ dq)
                         manifest with
  | Some rest => Re.group_of (Re.search_quoted ("android:value=" +:+ dq) rest)
  | None => EmptyString
  end.

(** The search for a quoted [android:icon=] attribute whose value starts
    with [@] and has a character more: the text before the group, the group
    and the text after it. *)
Definition search_icon (manifest : string) : option (string * string * string) :=
  match Re.search_quoted ("android:icon=" +:+ dq +:+ "@") manifest with
  | Some (before, run, rest) =>
      Some (String.substring 0 (String.length before - 1) before,
            "@" +:+ run, rest)
  | None => None
  end.

(** The resource tree below [res_root]: [None] when [res_root] is not a
    directory; otherwise its entries, each with the names it holds when it
    is a directory itself. *)
Definition res_tree : Type := option (list (string * option (list string))).

(** The text before the last character of [s] that satisfies [sep], when
    there is one. *)
Fixpoint before_last (sep : ascii -> bool) (s : string) : option string :=
  match s with
  | EmptyString => None
  | String c s' =>
      match before_last sep s' with
      | Some root => Some (String c root)
      | None => if sep c then Some EmptyString else None
      end
  end.

(** [os.path.splitext(filename)[0]] for a name without separators: leading
    dots do not start an extension. *)
Definition splitext_root (filename : string) : string :=
  match before_last Py.is_dot filename with
  | Some root => if Py.all Py.is_dot root then filename else root
  | None => filename
  end.

(** [value.split("/", 1)] when [value] holds a slash. *)
Fixpoint split_first_slash (value : string) : option (string * string) :=
  match value with
  | EmptyString => None
  | String c value' =>
      if Ascii.eqb c "/" then Some (EmptyString, value')
      else match split_first_slash value' with
           | Some (head, tail) => Some (String c head, tail)
           | None => None
           end
  end.

Definition _has_android_resource (res_root : res_tree) (resource_ref : string) : bool :=
  if Py.is_empty resource_ref || negb (Py.startswith resource_ref "@") then true
  else if Py.startswith resource_ref "@android:" then true
  else
    match split_first_slash (Re.drop 1 resource_ref) with
    | None => false
    | Some (res_type, res_name) =>
        if Py.is_empty res_type || Py.is_empty res_name then false
        else
          match res_root with
          | None => false
          | Some entries =>
              existsb
                (fun entry =>
                   match snd entry with
                   | None => false
                   | Some filenames =>
                       (bool_decide (fst entry = res_type)
                        || Py.startswith (fst entry) (res_type +:+ "-"))
                       && existsb (fun filename =>
                                     bool_decide (splitext_root filename = res_name))
                                  filenames
                   end)
                entries
          end
    end.

Definition icon_fallback : string := "@android:drawable/sym_def_app_icon".

(** [_ensure_manifest_icon_fallback]: the manifest file after the call. A
    manifest that cannot be read is left alone (the exception is caught).
    What is written is the patched text that was read, so that a file that
    is written has line feeds for line ends. *)
Definition _ensure_manifest_icon_fallback (manifest : file) (res_root : res_tree)
  : file :=
  match manifest with
  | Text stored =>
      let manifest_data := Py.universal_newlines stored in
      match search_icon manifest_data with
      | None => manifest
      | Some (before, icon_ref, rest) =>
          if _has_android_resource res_root icon_ref then manifest
          else Text (before +:+ icon_fallback +:+ rest)
      end
  | _ => manifest
  end.

(** The first half of lines 198 to 239 of [android_compile_java_native]:
    whether the manifest is written. *)
Definition should_write_manifest
    (android_pack android_activity app_name : string) (manifest : file) : bool :=
  match manifest with
  | Missing => true
  | Unreadable => true
  | Text stored =>
      let existing_manifest := Py.universal_newlines stored in
      negb (bool_decide (existing_package existing_manifest = android_pack)
            && bool_decide (existing_activity existing_manifest = android_activity)
            && bool_decide (existing_lib existing_manifest = app_name))
  end.

(** Lines 198 to 239: the manifest file after the synthesis step and the
    icon check. *)
Definition manifest_step
    (app_type : Z) (native_manifest_template : string)
    (android_pack android_label android_activity app_name : string)
    (manifest : file) (res_root : res_tree) : file :=
  let manifest :=
    if (app_type =? 0)%Z then
      if should_write_manifest android_pack android_activity app_name manifest
      then Text (build_native_manifest native_manifest_template android_pack
                                       android_label android_activity app_name)
      else manifest
    else manifest in
  _ensure_manifest_icon_fallback manifest res_root.

(** The manifest that the template gives for the application [game]. *)
Definition game_manifest : string :=
  build_native_manifest NATIVE_MANIFEST_TEMPLATE "com.djokersoft.game" "game"
                        "android.app.NativeActivity" "game".

(** The same manifest as an editor on Windows saves it: every line ends
    with a carriage return and a line feed. *)
Definition crlf_manifest : string := Py.replace nl (cr +:+ nl) game_manifest.

(** The manifest that the template gives for the package [game], a name
    that the sanitizer does not let through. *)
Definition short_package_manifest : string :=
  build_native_manifest NATIVE_MANIFEST_TEMPLATE "game" "game"
                        "android.app.NativeActivity" "game".

(** A resource tree with empty icon folders, and one with the launcher
    icon. *)
Definition res_without_icon : res_tree :=
  Some [("mipmap-hdpi", Some []); ("mipmap-mdpi", Some [])].

Definition res_with_icon : res_tree :=
  Some [("mipmap-hdpi", Some ["ic_launcher.png"]); ("mipmap-mdpi", Some [])].

(** *** Vocabulary of the resolver proofs *)

(** What holds of the three variables between any two steps of [visit]. *)
Record resolver_inv (all_modules : registry) (st : visit_state) : Prop := {
  inv_nodup : NoDup (order st);
  inv_visited : forall x, x ∈ visited st <-> x ∈ order st;
  inv_disjoint : forall x, x ∈ stack st -> x ∉ visited st;
  inv_closed : forall m d,
    m ∈ order st -> edge all_modules m d -> d ∈ visited st \/ d ∈ stack st;
  inv_before : forall m d,
    m ∈ order st -> edge all_modules m d ->
    appears_before (order st) d m \/ tc (edge all_modules) d m
}.

(** Every module on the active stack reaches the module about to be visited. *)
Definition ancestors (all_modules : registry) (st : visit_state) (name : string) : Prop :=
  is_Some (all_modules !! name) ->
  forall s, s ∈ stack st -> tc (edge all_modules) s name.

(** What a call [visit name] that starts in [st] and ends in [st'] achieves. *)
Record visit_post (all_modules : registry) (name : string)
    (st st' : visit_state) : Prop := {
  post_inv : resolver_inv all_modules st';
  post_stack : stack st' = stack st;
  post_order : exists new, order st' = order st ++ new /\
    forall x, x ∈ new ->
      is_Some (all_modules !! name) /\ rtc (edge all_modules) name x;
  post_done : is_Some (all_modules !! name) ->
    name ∈ visited st' \/ name ∈ stack st'
}.

(** C1 as the specification states it: no duplicates, every reachable module
    present, and every module after each of its dependencies that is in the
    order. *)
Definition resolver_order_claim (all_modules : registry) (start : string) : Prop :=
  let l := topological_modules start all_modules in
  NoDup l /\
  (forall m, reachable all_modules start m -> m ∈ l) /\
  (forall m d, m ∈ l -> d ∈ l -> edge all_modules m d -> appears_before l d m).

(** The measure that bounds the depth of [visit]: the registered modules
    that are not on the stack. *)
Definition room (all_modules : registry) (st : visit_state) : nat :=
  size (dom all_modules ∖ stack st).

(** ** Vocabulary for the further properties *)

(** What the web link loop hands on: at least two characters, and no white
    space around them. *)
Definition web_token (t : string) : Prop :=
  (2 <= String.length t)%nat /\ Py.strip t = t.

(** ** Targets and ABIs of the command line ([normalize_target],
       [normalize_targets], [normalize_abis]) *)

Definition TARGET_ALIASES : gmap string string :=
  list_to_map
    [("desktop", "desktop"); ("linux", "desktop"); ("native", "desktop");
     ("android", "android"); ("web", "web"); ("emscripten", "web")].

(** [None] stands for the [ValueError] that the function raises. *)
Definition normalize_target (token : string) : option string :=
  TARGET_ALIASES !! Py.lower (Py.strip token).

(** The loop shared by [normalize_targets] and [normalize_abis]: every token
    is looked up, a missing one raises, and what is found is appended unless
    it is in [out] already. *)
Fixpoint append_found {A : Type} `{EqDecision A}
    (find : string -> option A) (tokens : list string) (out : list A)
  : option (list A) :=
  match tokens with
  | [] => Some out
  | token :: rest =>
      match find token with
      | None => None
      | Some found =>
          append_found find rest
            (if bool_decide (found ∈ out) then out else out ++ [found])
      end
  end.

Definition normalize_targets (tokens : list string) (default_target : string)
  : option (list string) :=
  match tokens with
  | [] => Some [default_target]
  | _ => append_found normalize_target tokens []
  end.

Definition abi_aliases : gmap string Z :=
  list_to_map
    [("arm7", 0); ("armeabi-v7a", 0); ("armeabi", 0);
     ("arm64", 1); ("arm64-v8a", 1); ("aarch64", 1)].

(** The list comprehension that opens [normalize_abis]. *)
Definition requested_abis (raw : string) : list string :=
  omap (fun token =>
          let stripped := Py.strip token in
          if Py.truthy stripped then Some (Py.lower stripped) else None)
       (Py.split "," raw).

Definition normalize_abis (raw : string) : option (list Z) :=
  match requested_abis raw with
  | [] => Some [0; 1]
  | requested => append_found (fun token => abi_aliases !! token) requested []
  end.

(** ** The manifest that the template gives, piece by piece *)

Definition quote : ascii := ascii_of_nat 34.

(** The template up to the package attribute. *)
Definition before_package : string :=
  "<?xml version=" +:+ dq +:+ "1.0" +:+ dq +:+ " encoding=" +:+ dq +:+ "utf-8" +:+
  dq +:+ "?>" +:+ nl +:+ "<manifest xmlns:android=" +:+ dq +:+
  "http://schemas.android.com/apk/res/android" +:+ dq +:+ nl +:+ "          ".

(** From the quote that closes the package to the icon attribute. *)
Definition after_package : string :=
  dq +:+ nl +:+ "          android:versionCode=" +:+ dq +:+ "1" +:+ dq +:+ nl +:+
  "          android:versionName=" +:+ dq +:+ "1.0" +:+ dq +:+ ">" +:+ nl +:+ nl +:+
  "           <uses-sdk  android:compileSdkVersion=" +:+ dq +:+ "30" +:+ dq +:+
  "     android:minSdkVersion=" +:+ dq +:+ "16" +:+ dq +:+
  "  android:targetSdkVersion=" +:+ dq +:+ "23" +:+ dq +:+ " />" +:+ nl +:+ nl +:+
  "  <application" +:+ nl +:+ "      android:allowBackup=" +:+ dq +:+ "false" +:+
  dq +:+ nl +:+ "      android:fullBackupContent=" +:+ dq +:+ "false" +:+ dq +:+ nl +:+
  "      ".

(** From the quote that closes the icon to the label of the application. *)
Definition after_icon : string :=
  dq +:+ nl +:+ "      android:label=" +:+ dq.

(** From the quote that closes that label to the activity tag. *)
Definition after_label : string :=
  dq +:+ nl +:+ "      android:hasCode=" +:+ dq +:+ "false" +:+ dq +:+ ">" +:+ nl +:+
  nl +:+ nl +:+ "    ".

(** From the quote that closes the activity name to its label. *)
Definition after_activity : string :=
  dq +:+ nl +:+ "              android:label=" +:+ dq.

(** From the quote that closes that label to the name of the library meta-data. *)
Definition after_activity_label : string :=
  dq +:+ nl +:+ "              android:configChanges=" +:+ dq +:+
  "orientation|keyboardHidden|screenSize" +:+ dq +:+ nl +:+
  "             android:screenOrientation=" +:+ dq +:+ "landscape" +:+ dq +:+
  " android:launchMode=" +:+ dq +:+ "singleTask" +:+ dq +:+ nl +:+
  "             android:clearTaskOnLaunch=" +:+ dq +:+ "true" +:+ dq +:+ ">" +:+ nl +:+
  nl +:+ "      <meta-data ".

(** Between the name of the meta-data and its value. *)
Definition after_lib_name : string :=
  nl +:+ "                 ".

(** From the quote that closes the value to the end. *)
Definition after_lib_value : string :=
  dq +:+ " />" +:+ nl +:+ "      <intent-filter>" +:+ nl +:+
  "        <action android:name=" +:+ dq +:+ "android.intent.action.MAIN" +:+ dq +:+
  " />" +:+ nl +:+ "        <category android:name=" +:+ dq +:+
  "android.intent.category.LAUNCHER" +:+ dq +:+ " />" +:+ nl +:+
  "      </intent-filter>" +:+ nl +:+ "    </activity>" +:+ nl +:+
  "  </application>" +:+ nl +:+ nl +:+ "</manifest>".

Definition package_attribute : string := "package=" +:+ dq.
Definition icon_attribute : string := "android:icon=" +:+ dq.
Definition activity_attribute : string := "<activity android:name=" +:+ dq.
Definition lib_name_attribute : string :=
  "android:name=" +:+ dq +:+ "android.app.lib_name" +:+ dq.
Definition value_attribute : string := "android:value=" +:+ dq.

(** The icon that the template names. *)
Definition template_icon : string := "@mipmap/ic_launcher".

(** The template with [icon] as the icon and the four values in the place
    of the four markers. *)
Definition manifest_text (icon package_name label activity lib_name : string)
  : string :=
  before_package +:+ package_attribute +:+ package_name +:+
  after_package +:+ icon_attribute +:+ icon +:+
  after_icon +:+ label +:+
  after_label +:+ activity_attribute +:+ activity +:+
  after_activity +:+ label +:+
  after_activity_label +:+ lib_name_attribute +:+
  after_lib_name +:+ value_attribute +:+ lib_name +:+
  after_lib_value.

(** Letters, digits, the underscore and the dot: what package, activity and
    library names are made of. *)
Definition plain_char (c : ascii) : bool := Py.is_word c || Py.is_dot c.

Definition plain (s : string) : Prop := Py.all plain_char s = true.

Definition plain_name (s : string) : Prop := s <> "" /\ plain s.

Definition unquoted (s : string) : Prop :=
  Py.all (fun c => negb (Ascii.eqb c quote)) s = true.

Definition starts_quote (s : string) : bool :=
  match s with
  | String c _ => Ascii.eqb c quote
  | EmptyString => false
  end.

(** [pat] and [t] differ at a place that both have. *)
Fixpoint mismatch (pat t : string) : bool :=
  match pat, t with
  | String a pat', String b t' => if Ascii.eqb a b then mismatch pat' t' else true
  | _, _ => false
  end.

(** [pat] differs from the text at every place of [chunk], when [next]
    follows the chunk. *)
Fixpoint misses (pat chunk next : string) : bool :=
  match chunk with
  | EmptyString => true
  | String _ chunk' => mismatch pat (chunk +:+ next) && misses pat chunk' next
  end.

(** The first character of [pat] that is not plain is no quote. *)
Fixpoint guard (pat : string) : bool :=
  match pat with
  | EmptyString => false
  | String c pat' => if plain_char c then guard pat' else negb (Ascii.eqb c quote)
  end.

(** No occurrence of [pat] starts in [chunk] when [rest] follows it. *)
Fixpoint passes (pat chunk rest : string) : Prop :=
  match chunk with
  | EmptyString => True
  | String _ chunk' =>
      String.prefix pat (chunk +:+ rest) = false /\ passes pat chunk' rest
  end.

(** What a search that skips [chunk] reports. *)
Definition prepend (chunk : string) (found : option (string * string * string))
  : option (string * string * string) :=
  match found with
  | Some (before, group, rest) => Some (chunk +:+ before, group, rest)
  | None => None
  end.

(** ** The Android template of a project ([ensure_android_native_template]) *)

Definition default_activity : string := "android.app.NativeActivity".

(** Lines 852 to 858: the activity that the function returns. The last
    test is [. not in activity]. *)
Definition qualified_activity (package_name activity : string) : string :=
  let activity := if Py.truthy activity then activity else default_activity in
  if Py.startswith activity "." then package_name +:+ activity
  else if Py.all (fun c => negb (Py.is_dot c)) activity
  then package_name +:+ "." +:+ activity
  else activity.

(** The manifest file after the call, and the package, the label and the
    activity that the call returns. The folders and the icons that the
    function also creates below [res] have no part in either. *)
Definition ensure_android_native_template
    (app_name package_name label activity : string) (manifest : file)
  : file * (string * string * string) :=
  let package_name := sanitize_android_package_name package_name default_package in
  let label := if Py.truthy label then label else app_name in
  let activity := qualified_activity package_name activity in
  let manifest :=
    match manifest with
    | Missing =>
        Text (build_native_manifest NATIVE_MANIFEST_TEMPLATE package_name label
                                    activity app_name)
    | _ => manifest
    end in
  (manifest, (package_name, label, activity)).

(** ** The module flags of a project ([collect_project_module_flags]) *)

(** What a part of the composition may do to the three lists: each grows
    at its end, and the two compile lists stay without duplicates. *)
Definition grows (flags flags' : list string * list string * list string) : Prop :=
  (exists added, cc_of flags' = cc_of flags ++ added) /\
  (exists added, cpp_of flags' = cpp_of flags ++ added) /\
  (exists added, ld_of flags' = ld_of flags ++ added) /\
  (NoDup (cc_of flags) -> NoDup (cc_of flags')) /\
  (NoDup (cpp_of flags) -> NoDup (cpp_of flags')).

Section ProjectComposition.
Variable joinpath : string -> string -> string.
Variable os_nt : bool.
Variable path_exists : string -> bool.

(** The turn of the loop for a name that the registry holds. *)
Definition add_registered_module_flags (module : ModuleSpec.t) (target : string)
    (abi : Z) (flags : list string * list string * list string)
  : list string * list string * list string :=
  let block := module_platform_block module target in
  let '(cc_args, cpp_args) :=
    add_module_include_flags joinpath os_nt module block target
                             (cc_of flags) (cpp_of flags) in
  (cc_args, cpp_args,
   add_module_link_flags joinpath os_nt path_exists module block target abi
                         (ld_of flags)).

(** The turn of the loop for a name that the registry does not hold: the
    folder of that name below [modules_root] is taken for the module. *)
Definition add_fallback_module_flags (modules_root module_name target : string)
    (abi : Z) (flags : list string * list string * list string)
  : list string * list string * list string :=
  let fallback_dir := joinpath modules_root module_name in
  let include_dir := joinpath fallback_dir "include" in
  let suffix := include_suffix_for_target os_nt target in
  let includes := ["-I" +:+ include_dir; "-I" +:+ joinpath include_dir suffix] in
  let lib_dir :=
    if bool_decide (target = "android")
    then joinpath (joinpath fallback_dir "Android")
                  (if (abi =? 1)%Z then "arm64-v8a" else "armeabi-v7a")
    else if bool_decide (target = "web") then joinpath fallback_dir "Web"
    else joinpath fallback_dir (if os_nt then "Windows" else "Linux") in
  (extend_unique (cc_of flags) includes,
   extend_unique (cpp_of flags) includes,
   extend_unique (ld_of flags) ["-L" +:+ lib_dir; "-l" +:+ module_name]).

Definition add_project_module_flags (modules_root target : string) (abi : Z)
    (all_modules : registry)
    (flags : list string * list string * list string) (module_name : string)
  : list string * list string * list string :=
  match all_modules !! module_name with
  | Some module => add_registered_module_flags module target abi flags
  | None => add_fallback_module_flags modules_root module_name target abi flags
  end.

(** The three lists after the call, from the three lists before it. *)
Definition collect_project_module_flags (target : string) (abi : Z)
    (active_modules : list string) (all_modules : registry) (modules_root : string)
    (flags : list string * list string * list string)
  : list string * list string * list string :=
  foldl (add_project_module_flags modules_root target abi all_modules) flags
        (closure_for_modules active_modules all_modules).

End ProjectComposition.

(** ** Flags of a descriptor ([split_flags], [list_text]) *)

(** What a descriptor holds under a key of flags: a list, a text, or
    something else. The members of a list are strings. *)
Inductive flag_value : Type :=
  | FlagList (parts : list string)
  | FlagText (text : string)
  | FlagOther.

(** [part.strip()] for the parts whose stripped text is not empty. *)
Definition stripped_parts (parts : list string) : list string :=
  omap (fun part =>
          let stripped := Py.strip part in
          if Py.truthy stripped then Some stripped else None)
       parts.

Definition split_flags (value : flag_value) : list string :=
  match value with
  | FlagList parts => stripped_parts parts
  | FlagText text => stripped_parts (Py.split " " text)
  | FlagOther => []
  end.

Definition list_text (values : flag_value) : list string :=
  match values with
  | FlagList parts => stripped_parts parts
  | _ => []
  end.

(** A flag as the command line takes it: not empty and without white
    space. *)
Definition flag_token (t : string) : Prop :=
  t <> "" /\ Py.all (fun c => negb (Py.isspace c)) t = true.

(** ** Cleaning ([remove_path], [clean_module_target],
       [clean_project_target]) *)

Module Clean.

Section Targets.
Variable World : Type.
Variable path_exists : World -> string -> bool.
(** The removal of a file or of a tree: whether it went through, and the
    world afterwards. *)
Variable try_remove : string -> World -> bool * World.
Variable os_nt : bool.

(** The number that [remove_path] returns, and the world afterwards. *)
Definition remove_path (path : string) (dry_run : bool) (w : World) : nat * World :=
  if negb (path_exists w path) then (0%nat, w)
  else if dry_run then (1%nat, w)
  else let '(removed, w') := try_remove path w in ((if removed then 1 else 0)%nat, w').

(** [removed += remove_path(ctx, path, dry_run)] for the paths in turn. *)
Definition remove_all (paths : list string) (dry_run : bool) (w : World)
  : nat * World :=
  foldl (fun state path =>
           let '(count, w') := remove_path path dry_run (snd state) in
           ((fst state + count)%nat, w'))
        (0%nat, w) paths.

Definition os_name : string := if os_nt then "Windows" else "Linux".

Definition abi_folder (abi : Z) : string :=
  if (abi =? 1)%Z then "arm64-v8a" else "armeabi-v7a".

(** The paths that [clean_module_target] hands to [remove_path], in its
    order. *)
Definition module_paths (directory name target : string) (abi_list : list Z)
  : list string :=
  if bool_decide (target = "desktop") then
    [posix_join (posix_join (posix_join directory "obj") os_name) name;
     posix_join (posix_join directory os_name) ("lib" +:+ name +:+ ".a");
     posix_join (posix_join directory os_name) ("lib" +:+ name +:+ ".so");
     posix_join (posix_join directory os_name) ("lib" +:+ name +:+ ".dll")]
  else if bool_decide (target = "web") then
    let web_root := posix_join directory "Web" in
    [posix_join (posix_join (posix_join directory "obj") "Web") name;
     posix_join web_root ("lib" +:+ name +:+ ".a");
     posix_join web_root ("lib" +:+ name +:+ ".so");
     posix_join web_root (name +:+ ".html");
     posix_join web_root (name +:+ ".js");
     posix_join web_root (name +:+ ".wasm");
     posix_join web_root (name +:+ ".data");
     posix_join web_root (name +:+ ".worker.js")]
  else if bool_decide (target = "android") then
    posix_join (posix_join (posix_join directory "obj") "Android") name
    :: flat_map
         (fun abi =>
            let abi_root := posix_join (posix_join directory "Android") (abi_folder abi) in
            [posix_join abi_root ("lib" +:+ name +:+ ".a");
             posix_join abi_root ("lib" +:+ name +:+ ".so")])
         abi_list
  else [].

Definition clean_module_target (module : ModuleSpec.t) (target : string)
    (abi_list : list Z) (dry_run : bool) (w : World) : nat * World :=
  remove_all (module_paths (ModuleSpec.directory module) (ModuleSpec.name module)
                           target abi_list)
             dry_run w.

(** The paths that [clean_project_target] hands to [remove_path] for a
    project with the folder [root] and the name [name]. *)
Definition project_paths (root name target : string) (abi_list : list Z)
  : list string :=
  if bool_decide (target = "desktop") then
    [posix_join (posix_join (posix_join root "obj") os_name) name;
     posix_join root name;
     posix_join root (name +:+ ".exe")]
  else if bool_decide (target = "web") then
    let web_root := posix_join root "Web" in
    [posix_join (posix_join (posix_join root "obj") "Web") name;
     posix_join web_root (name +:+ ".html");
     posix_join web_root (name +:+ ".js");
     posix_join web_root (name +:+ ".wasm");
     posix_join web_root (name +:+ ".data");
     posix_join web_root (name +:+ ".worker.js");
     posix_join web_root name]
  else if bool_decide (target = "android") then
    let android_root := posix_join root "Android" in
    posix_join (posix_join (posix_join root "obj") "Android") name
    :: flat_map
         (fun abi =>
            [posix_join (posix_join android_root (abi_folder abi))
                        ("lib" +:+ name +:+ ".so");
             posix_join (posix_join android_root (abi_folder abi))
                        ("lib" +:+ name +:+ ".a")])
         abi_list
    ++ [posix_join android_root name]
  else [].

Definition clean_project_target (root name target : string) (abi_list : list Z)
    (dry_run : bool) (w : World) : nat * World :=
  remove_all (project_paths root name target abi_list) dry_run w.

End Targets.

End Clean.

(** Every module of [l] stands after each of its registered dependencies. *)
Definition dependencies_before (all_modules : registry) (l : list string) : Prop :=
  forall m d, m ∈ l -> edge all_modules m d -> appears_before l d m.

(** ** A world for examples *)

(** A world without state: every tool ends with code 0, every path exists
    and is a directory, no directory holds a file, and the resource tree is
    empty. A project in it has no Java source and no class file. *)
Definition quiet_run (command : string) (args : list string) (w : unit) : Z * unit :=
  (0%Z, w).
Definition every_path (w : unit) (path : string) : bool := true.
Definition epoch_mtime (w : unit) (path : string) : Q := 0%Q.
Definition no_files (w : unit) (dir : string) : list string := [].
Definition empty_resources (w : unit) (res_root : string) : res_tree := Some [].
Definition no_change (path : string) (w : unit) : unit := w.
Definition icon_resources (w : unit) (res_root : string) : res_tree := res_with_icon.


(** A world that is the list of the files it holds: a listing gives the
    files below a folder, a removal takes a file out of the list, a path
    exists when it is a file of the list or a folder above one, and the
    tools end with code 0 and leave the files alone. *)
Definition listed_files (w : list string) (dir : string) : list string :=
  omap (fun path =>
          if String.prefix (dir +:+ "/") path
          then Some (Re.drop (String.length (dir +:+ "/")) path) else None)
       w.

Definition delete_file (path : string) (w : list string) : list string :=
  List.filter (fun held => negb (String.eqb held path)) w.

Definition listed (w : list string) (path : string) : bool :=
  bool_decide (path ∈ w) || existsb (String.prefix (path +:+ "/")) w.

Definition quiet_tool (command : string) (args : list string) (w : list string)
  : Z * list string := (0%Z, w).

(** The files of a project [game] without Java sources, after an earlier
    build that had some: a native library, an asset, and a translated class
    in the dex folder. *)
Definition stale_build : list string :=
  ["/repo/projects/game/Android/arm64-v8a/libgame.so";
   "/repo/projects/game/Android/game/dex/classes.dex";
   "/repo/projects/game/assets/logo.png"].

(** ** Android packaging pipeline ([android_compile_java_native]) *)

Module Path.

Definition is_slash (c : ascii) : bool := Ascii.eqb c "/".

(** [os.path.dirname] and [os.path.basename] of a normalized POSIX path. *)
Definition dirname (path : string) : string :=
  match before_last is_slash path with
  | Some head => head
  | None => EmptyString
  end.

Definition basename (path : string) : string :=
  match before_last is_slash path with
  | Some head => Re.drop (S (String.length head)) path
  | None => path
  end.

Definition endswith (s suffix : string) : bool :=
  (String.length suffix <=? String.length s)%nat
  && String.eqb (Re.drop (String.length s - String.length suffix) s) suffix.

Fixpoint insert_descending (x : string) (l : list string) : list string :=
  match l with
  | [] => [x]
  | y :: l' => if String.ltb y x then x :: l else y :: insert_descending x l'
  end.

(** [l.sort(reverse=True)]. *)
Definition sort_descending (l : list string) : list string :=
  foldr insert_descending [] l.

End Path.

(** ** Compiling the sources of one ABI ([android_compile]) *)

Module AndroidNative.

Definition _ndk_prebuilt_root (android_ndk : string) : string :=
  android_ndk +:+ "/toolchains/llvm/prebuilt/linux-x86_64".

Definition _ndk_cpp_include_dir (android_ndk : string) : string :=
  _ndk_prebuilt_root android_ndk +:+ "/sysroot/usr/include/c++/v1".

(** [os.path.splitext(src)[1]]: what follows the root in the last component
    of the path. *)
Definition splitext_ext (src : string) : string :=
  Re.drop (String.length (splitext_root (Path.basename src))) (Path.basename src).

(** One call of [runProcess] by [android_compile]. *)
Record compile_run : Type := CompileRun {
  run_source : string;
  run_compiler : string;
  run_arguments : list string;
  run_exit : Z
}.

(** [for arg in flags: if len(arg.strip()) >= 2: args.append(arg)]. *)
Definition user_flags (flags : list string) : list string :=
  List.filter (fun arg => (2 <=? String.length (Py.strip arg))%nat) flags.

(** The value of [args] at the call of [runProcess]. *)
Definition compile_args
    (android_ndk folder_root src_folder : string) (arm : Z) (use_cpp : bool)
    (cargs cppargs : list string) (src obj_name : string) : list string :=
  ["-target";
   (if (arm =? 1)%Z then "aarch64-linux-android21" else "armv7a-linux-androideabi21");
   "-fdata-sections"; "-ffunction-sections"; "-fstack-protector-strong";
   "-funwind-tables"; "-no-canonical-prefixes"; "--sysroot";
   android_ndk +:+ "/toolchains/llvm/prebuilt/linux-x86_64/sysroot";
   "-g"; "-Wno-invalid-command-line-argument"; "-Wno-unused-command-line-argument";
   "-D_FORTIFY_SOURCE=2"; "-fno-exceptions"; "-fno-rtti"; "-fpic"]
  ++ (if (arm =? 0)%Z then ["-march=armv7-a"; "-mthumb"; "-Oz"]
      else if (arm =? 1)%Z then ["-O2"] else [])
  ++ ["-DNDEBUG"]
  ++ (if (arm =? 0)%Z
      then ["-I" +:+ android_ndk
            +:+ "/toolchains/llvm/prebuilt/linux-x86_64/sysroot/usr/include/arm-linux-androideabi"]
      else if (arm =? 1)%Z
      then ["-I" +:+ android_ndk
            +:+ "/toolchains/llvm/prebuilt/linux-x86_64/sysroot/usr/include/aarch64-linux-android"]
      else [])
  ++ ["-I" +:+ android_ndk
      +:+ "/toolchains/llvm/prebuilt/linux-x86_64/sysroot/usr/include";
      "-I" +:+ folder_root; "-I" +:+ src_folder; "-DANDROID"]
  ++ (if use_cpp then ["-nostdinc++"; "-I" +:+ _ndk_cpp_include_dir android_ndk]
      else [])
  ++ ["-Wformat"; "-Werror=format-security"; "-fno-strict-aliasing";
      "-DPLATFORM_ANDROID"]
  ++ user_flags (if use_cpp then cppargs else cargs)
  ++ ["-c"; src; "-o"; obj_name].

(** The world of [android_compile]: the file system and the compilers. A
    source path is absolute and normalized, so that [os.path.abspath]
    leaves it as it is. *)
Section Compile.
Variable World : Type.
Variable runProcess : string -> list string -> World -> Z * World.
Variable path_isfile : World -> string -> bool.
Variable path_exists : World -> string -> bool.
Variable getmtime : World -> string -> Q.
Variable createFolderTree : string -> World -> World.

Variables (folder_root name : string) (cargs cppargs : list string).
Variable arm : Z.
Variable full_build : bool.
Variable android_ndk : string.

Definition out_folder : string :=
  folder_root +:+ "/obj/Android/" +:+ name +:+ "/"
  +:+ (if (arm =? 1)%Z then "arm64-v8a" else "armeabi-v7a").

Definition object_of (src : string) : string :=
  out_folder +:+ "/" +:+ splitext_root (Path.basename src) +:+ ".o".

(** [file_extension in cpp_extencions], with the list as the source has
    it: its second entry has no dot. *)
Definition is_cpp (src : string) : bool :=
  bool_decide (splitext_ext src ∈ [".cpp"; "xpp"]).

Definition compiler_of (src : string) : string :=
  if is_cpp src then _ndk_prebuilt_root android_ndk +:+ "/bin/clang++"
  else _ndk_prebuilt_root android_ndk +:+ "/bin/clang".

(** The loop over [srcs], from the sources still to come: whether the
    function returns true, the world, and the calls made so far. *)
Fixpoint compile_sources (srcs : list string) (w : World) (log : list compile_run)
  : bool * World * list compile_run :=
  match srcs with
  | [] => (true, w, log)
  | src :: rest =>
      if negb (path_isfile w src) then compile_sources rest w log
      else
        let w := createFolderTree out_folder w in
        let obj_name := object_of src in
        let obj_mtime :=
          if path_exists w obj_name then Some (getmtime w obj_name) else None in
        match android_decision full_build (getmtime w src) obj_mtime with
        | Skip => compile_sources rest w log
        | Recompile =>
            let args :=
              compile_args android_ndk folder_root (Path.dirname src) arm
                           (is_cpp src) cargs cppargs src obj_name in
            let '(code, w) := runProcess (compiler_of src) args w in
            let log := log ++ [CompileRun src (compiler_of src) args code] in
            if negb (code =? 0)%Z then (false, w, log)
            else compile_sources rest w log
        end
  end.

(** What a call recorded for a source looks like: the C++ compiler and the
    C++ flags exactly for the extension [.cpp], and the source and its
    object at the end of the arguments. *)
Definition compile_run_shape (r : compile_run) : Prop :=
  let src := run_source r in
  let cpp := bool_decide (splitext_ext src = ".cpp") in
  run_compiler r
  = _ndk_prebuilt_root android_ndk
    +:+ (if cpp then "/bin/clang++" else "/bin/clang") /\
  exists fixed,
    run_arguments r
    = fixed ++ user_flags (if cpp then cppargs else cargs)
      ++ ["-c"; src; "-o"; object_of src].

Definition android_compile (srcs : list string) (w : World)
  : bool * World * list compile_run :=
  compile_sources srcs (createFolderTree out_folder w) [].

End Compile.

End AndroidNative.

(** ** Compiling the sources for the desktop and the web ([desktop_compile],
       [web_compile]) *)

Module NativeBuild.

(** [len(file_extension) >= 3]: the test that picks the C++ compiler. *)
Definition long_extension (src : string) : bool :=
  (3 <=? String.length (AndroidNative.splitext_ext src))%nat.

(** The loop that the two functions share, up to the two compilers, the
    arguments that close the command and the folder of the objects. The
    context of the command line never sets [IsDone], so that the tests of
    it are left out. *)
Section Compile.
Variable World : Type.
Variable runProcess : string -> list string -> World -> Z * World.
Variable path_isfile : World -> string -> bool.
Variable path_exists : World -> string -> bool.
Variable getmtime : World -> string -> Q.
Variable createFolderTree : string -> World -> World.
Variable utc_offset : Z.

Variables (c_compiler cpp_compiler : string) (closing : list string).
Variables (folder_root out_folder : string) (cargs cppargs : list string).
Variable full_build : bool.

(** [out_folder + src_folder.replace(folder_root, )]. *)
Definition object_folder (src : string) : string :=
  out_folder
  +:+ (if Py.is_empty folder_root then Path.dirname src
       else Py.replace folder_root "" (Path.dirname src)).

Definition object_of (src : string) : string :=
  object_folder src +:+ "/" +:+ splitext_root (Path.basename src) +:+ ".o".

Definition compile_args (src : string) (use_cpp : bool) : list string :=
  ["-c"; src; "-o"; object_of src]
  ++ AndroidNative.user_flags (if use_cpp then cppargs else cargs)
  ++ closing.

(** [use_cpp] is the variable of that name: it is set before the loop and
    by every source with a long extension, and never cleared. *)
Fixpoint compile_loop (srcs : list string) (use_cpp : bool) (w : World)
    (log : list AndroidNative.compile_run)
  : bool * World * list AndroidNative.compile_run :=
  match srcs with
  | [] => (true, w, log)
  | src :: rest =>
      if negb (path_isfile w src) then compile_loop rest use_cpp w log
      else
        let w := createFolderTree (object_folder src) w in
        let obj_name := object_of src in
        let src_mtime := getmtime w src in
        let ctype := if long_extension src then cpp_compiler else c_compiler in
        let use_cpp := use_cpp || long_extension src in
        let obj_mtime :=
          if path_exists w obj_name then Some (getmtime w obj_name) else None in
        match desktop_decision utc_offset full_build src_mtime obj_mtime with
        | Skip => compile_loop rest use_cpp w log
        | Recompile =>
            let args := compile_args src use_cpp in
            let '(code, w) := runProcess ctype args w in
            let log := log ++ [AndroidNative.CompileRun src ctype args code] in
            if negb (code =? 0)%Z then (false, w, log)
            else compile_loop rest use_cpp w log
        end
  end.

(** What the calls show of [use_cpp]: each call has the compiler of its
    own extension, and the C++ flags once a call for a long extension has
    been made, itself included. [seen] tells whether one was made before. *)
Fixpoint sticky_flags (seen : bool) (log : list AndroidNative.compile_run) : Prop :=
  match log with
  | [] => True
  | r :: rest =>
      let src := AndroidNative.run_source r in
      let seen := seen || long_extension src in
      AndroidNative.run_compiler r
      = (if long_extension src then cpp_compiler else c_compiler) /\
      (exists use_cpp,
         AndroidNative.run_arguments r = compile_args src use_cpp /\
         (seen = true -> use_cpp = true)) /\
      sticky_flags seen rest
  end.

(** What a run of the loop over [srcs] shows: it returns false exactly at
    a call that fails, which is then the last one; the calls follow the
    order of [srcs]; they carry the flags as [sticky_flags] tells; and
    without any long extension among [srcs] every call has the C flags. *)
Definition compile_outcome (srcs : list string)
    (result : bool * World * list AndroidNative.compile_run) : Prop :=
  let ok := fst (fst result) in
  let log := snd result in
  (ok = true -> Forall (fun r => AndroidNative.run_exit r = 0) log) /\
  (ok = false ->
   exists before r, log = before ++ [r] /\
     Forall (fun r => AndroidNative.run_exit r = 0) before /\
     AndroidNative.run_exit r <> 0) /\
  List.map AndroidNative.run_source log `sublist_of` srcs /\
  sticky_flags false log /\
  (Forall (fun src => long_extension src = false) srcs ->
   Forall (fun r => AndroidNative.run_arguments r
                    = compile_args (AndroidNative.run_source r) false) log).

End Compile.

Section Functions.
Variable World : Type.
Variable runProcess : string -> list string -> World -> Z * World.
Variable path_isfile : World -> string -> bool.
Variable path_exists : World -> string -> bool.
Variable getmtime : World -> string -> Q.
Variable createFolderTree : string -> World -> World.
Variable utc_offset : Z.
Variable sys_platform : string.

Definition desktop_out_folder (folder_root name : string) : string :=
  folder_root +:+ "/obj/"
  +:+ (if Py.startswith sys_platform "windows" then "Windows" else "Linux")
  +:+ "/" +:+ name.

Definition desktop_compile (folder_root name : string) (srcs cargs cppargs : list string)
    (full_build : bool) (w : World)
  : bool * World * list AndroidNative.compile_run :=
  let out_folder := desktop_out_folder folder_root name in
  compile_loop World runProcess path_isfile path_exists getmtime createFolderTree
    utc_offset "gcc" "g++" ["-fPIC"] folder_root out_folder cargs cppargs full_build
    srcs false (createFolderTree out_folder w) [].

Definition web_out_folder (folder_root name : string) : string :=
  folder_root +:+ "/obj/Web/" +:+ name.

Definition web_compile (folder_root name : string) (srcs cargs cppargs : list string)
    (emcc emcpp : string) (full_build : bool) (w : World)
  : bool * World * list AndroidNative.compile_run :=
  let out_folder := web_out_folder folder_root name in
  compile_loop World runProcess path_isfile path_exists getmtime createFolderTree
    utc_offset emcc emcpp [] folder_root out_folder cargs cppargs full_build
    srcs false (createFolderTree out_folder w) [].

End Functions.

End NativeBuild.

(** ** Linking ([desktop_build], [web_build], [android_build]) *)

Module Link.

(** One call of [runProcess] by a link function. *)
Record link_run : Type := LinkRun {
  link_command : string;
  link_arguments : list string;
  link_exit : Z
}.

(** [for arg in ldargs: value = arg.strip(); if len(value) > 1:
    args.append(value)]. *)
Definition link_flags (ldargs : list string) : list string :=
  omap (fun arg =>
          let value := Py.strip arg in
          if (1 <? String.length value)%nat then Some value else None)
       ldargs.

(** The world of the link functions: the tools, the file system and the
    working directory. [object_files w root] stands for the walk below
    [root] that collects the files with the extension [.o], as paths;
    [glob_last w pattern] is the last of the sorted matches of a pattern. *)
Section Build.
Variable World : Type.
Variable runProcess : string -> list string -> World -> Z * World.
Variable object_files : World -> string -> list string.
Variable path_exists : World -> string -> bool.
Variable getsize : World -> string -> Z.
Variable glob_last : World -> string -> option string.
Variable remove_file : string -> World -> World.
Variable createFolderTree : string -> World -> World.
Variable getcwd : string.
Variable sys_platform : string.

(** A state of a link function: whether it still goes on, the world and
    the calls made. *)
Definition state : Type := bool * World * list link_run.

(** [code, out, err = runProcess(command, args); if code != 0: return
    False], skipped when the function has returned already. *)
Definition run (command : string) (args : list string) (s : state) : state :=
  let '(ok, w, log) := s in
  if ok then
    let '(code, w) := runProcess command args w in
    ((code =? 0)%Z, w, log ++ [LinkRun command args code])
  else s.

(** What holds of a state that only [run] has made: the function goes on
    when every call ended with code 0, and has returned at the first call
    that did not, which is then the last one. *)
Definition halted (s : state) : Prop :=
  let '(ok, _, log) := s in
  (ok = true -> Forall (fun r => link_exit r = 0) log) /\
  (ok = false ->
   exists before r, log = before ++ [r] /\
     Forall (fun r => link_exit r = 0) before /\ link_exit r <> 0).

Definition os_name : string :=
  if Py.startswith sys_platform "windows" then "Windows" else "Linux".

(** The value of [export] in [desktop_build], for the three build types. *)
Definition desktop_export (folder_root app_name : string) (build_type : Z) : string :=
  if (build_type =? 0)%Z then folder_root +:+ "/" +:+ app_name
  else if (build_type =? 1)%Z
  then folder_root +:+ "/" +:+ os_name +:+ "/" +:+ app_name +:+ ".so"
  else folder_root +:+ "/" +:+ os_name +:+ "/" +:+ "lib" +:+ app_name +:+ ".a".

Definition desktop_build (folder_root app_name : string) (use_cpp : bool)
    (ldargs : list string) (build_type : Z) (w : World) : state :=
  let ctype := if use_cpp then "g++" else "gcc" in
  let list_objs :=
    object_files w (folder_root +:+ "/obj/" +:+ os_name +:+ "/" +:+ app_name) in
  let export := desktop_export folder_root app_name build_type in
  if (build_type =? 0)%Z then
    run ctype (["-o"; export] ++ list_objs ++ link_flags ldargs) (true, w, [])
  else if (build_type =? 1)%Z then
    run ctype
        (["-shared"; "-fPIC"; "-o"; export] ++ list_objs ++ link_flags ldargs
         ++ ["-L" +:+ getcwd +:+ "/libs/" +:+ os_name])
        (true, w, [])
  else if (build_type =? 2)%Z then
    let w := createFolderTree (folder_root +:+ "/" +:+ os_name +:+ "/") w in
    run "ar" (["-r"; "-s"; export] ++ list_objs)
        (run "rm" ["-f"; export] (true, w, []))
  else (true, w, []).

(** The value of [export] in [web_build]. *)
Definition web_export (folder_root app_name : string) (is_static : bool) : string :=
  if is_static then folder_root +:+ "/Web/lib" +:+ app_name +:+ ".a"
  else (folder_root +:+ "/Web/") +:+ "/" +:+ app_name +:+ ".html".

(** [for stale in stale_outputs: if os.path.exists(stale): os.remove(stale)]. *)
Definition remove_existing (paths : list string) (w : World) : World :=
  foldl (fun w path => if path_exists w path then remove_file path w else w) w paths.

Definition web_build (folder_root app_name : string) (use_cpp : bool)
    (ldargs : list string) (emcc emcpp emar : string) (is_static : bool) (w : World)
  : state :=
  let out_folder := folder_root +:+ "/Web/" in
  let w := createFolderTree out_folder w in
  let list_objs := object_files w (folder_root +:+ "/obj/Web/" +:+ app_name) in
  match list_objs with
  | [] => (false, w, [])
  | _ =>
      let ctype := if use_cpp then emcpp else emcc in
      let export := web_export folder_root app_name is_static in
      if is_static then
        let w := remove_existing [export] w in
        let '(ok, w, log) := run emar (["rcs"; export] ++ list_objs) (true, w, []) in
        if ok && negb (path_exists w export && (8 <? getsize w export)%Z)
        then (false, w, log) else (ok, w, log)
      else
        let base := out_folder +:+ "/" +:+ splitext_root (app_name +:+ ".html") in
        let w :=
          remove_existing
            [export; base +:+ ".js"; base +:+ ".wasm"; base +:+ ".data";
             base +:+ ".worker.js"] w in
        run ctype
            (["-o"; export] ++ list_objs ++ web_link_args ldargs
             ++ ["-L" +:+ getcwd +:+ "/libs/Web"])
            (true, w, [])
  end.

Definition build_output_arm (arm : Z) : string :=
  if (arm =? 1)%Z then "arm64-v8a" else "armeabi-v7a".

(** The value of [export] in [android_build], for the build types that
    have one. *)
Definition android_export (folder_root name : string) (build_type arm : Z) : string :=
  folder_root +:+ "/Android/" +:+ build_output_arm arm +:+ "/" +:+ "lib" +:+ name
  +:+ (if (build_type =? 2)%Z then ".a" else ".so").

(** [_ndk_cpp_runtime_libs], and of its three paths the ones that exist. *)
Definition runtime_libs (android_ndk : string) (arm : Z) (w : World) : list string :=
  let prebuilt := AndroidNative._ndk_prebuilt_root android_ndk in
  let triple := if (arm =? 1)%Z then "aarch64-linux-android" else "arm-linux-androideabi" in
  let unwind_arch := if (arm =? 1)%Z then "aarch64" else "arm" in
  let libcxx := prebuilt +:+ "/sysroot/usr/lib/" +:+ triple +:+ "/libc++_static.a" in
  let libcxxabi := prebuilt +:+ "/sysroot/usr/lib/" +:+ triple +:+ "/libc++abi.a" in
  let unwind :=
    glob_last w (prebuilt +:+ "/lib/clang/*/lib/linux/" +:+ unwind_arch
                 +:+ "/libunwind.a") in
  (if path_exists w libcxx then [libcxx] else [])
  ++ (if path_exists w libcxxabi then [libcxxabi] else [])
  ++ match unwind with
     | Some libunwind =>
         if Py.truthy libunwind && path_exists w libunwind then [libunwind] else []
     | None => []
     end.

Definition android_build (folder_root name : string) (use_cpp : bool)
    (ldargs : list string) (build_type arm : Z) (android_ndk : string) (w : World)
  : state :=
  let prebuilt_root := AndroidNative._ndk_prebuilt_root android_ndk in
  let out_folder :=
    folder_root +:+ "/obj/Android/" +:+ name +:+ "/" +:+ build_output_arm arm in
  let bin_folder := folder_root +:+ "/Android/" +:+ build_output_arm arm in
  let w := createFolderTree bin_folder w in
  let list_objs := object_files w out_folder in
  let export := android_export folder_root name build_type arm in
  if (build_type =? 0)%Z || (build_type =? 1)%Z then
    let args :=
      ["-Wl,-soname," +:+ "lib" +:+ name +:+ ".so"; "-shared"]
      ++ list_objs
      ++ ["-L" +:+ getcwd +:+ "/libs/android/" +:+ build_output_arm arm]
      ++ (if use_cpp then ["-L" +:+ prebuilt_root +:+ "/sysroot/usr/lib"] else [])
      ++ ["-Wl,--no-whole-archive"]
      ++ (if use_cpp then runtime_libs android_ndk arm w else [])
      ++ ["-target"]
      ++ (if (arm =? 0)%Z then ["armv7a-linux-androideabi21"]
          else if (arm =? 1)%Z then ["aarch64-linux-android21"] else [])
      ++ ["--sysroot"; prebuilt_root +:+ "/sysroot"; "-no-canonical-prefixes";
          "-Wl,--build-id"]
      ++ (if use_cpp then ["-nostdlib++"] else [])
      ++ ["-Wl,--no-undefined"; "-Wl,--fatal-warnings"]
      ++ link_flags ldargs
      ++ ["-o"; export] in
    run (prebuilt_root +:+ "/bin/llvm-strip") ["--strip-unneeded"; export]
        (run (if use_cpp then prebuilt_root +:+ "/bin/clang++"
              else prebuilt_root +:+ "/bin/clang")
             args (true, w, []))
  else if (build_type =? 2)%Z then
    run (prebuilt_root +:+ "/bin/llvm-ar") (["rcs"; export] ++ list_objs) (true, w, [])
  else (false, w, []).

End Build.

End Link.

(** The steps at which the pipeline starts an external tool. *)
Inductive step : Set :=
  | GenerateKey | GenerateResources | CompileJava | TranslateD8 | TranslateDx
  | MakeApk | SignApk | StopApp | InstallApp | RemoveApp | RunApp.

Global Instance step_eq_dec : EqDecision step.
Proof. solve_decision. Defined.

(** One call of [runProcess], with the exit code it returned. *)
Record tool_run : Type := ToolRun {
  run_step : step;
  run_command : string;
  run_args : list string;
  run_code : Z
}.

(** The world of the pipeline: the external tools and the file system below
    the project. A tool that cannot be started, and a file operation whose
    exception the function does not catch, are outside the model.
    [walk_files w dir] lists the files below [dir] in the order of
    [os.walk], as paths relative to [dir]. [remove_file path w] is the world
    after [os.remove(path)] inside [try] ... [except OSError: pass]: the
    removal may fail, the file is then still there and the function goes
    on. The manifest is kept apart from the world: the tools read it and
    leave it as it is. *)
Section Packaging.
Variable World : Type.
Variable runProcess : string -> list string -> World -> Z * World.
Variable path_exists : World -> string -> bool.
Variable path_isdir : World -> string -> bool.
Variable getmtime : World -> string -> Q.
Variable walk_files : World -> string -> list string.
Variable resource_tree : World -> string -> res_tree.
Variable make_dirs : string -> World -> World.
Variable remove_file : string -> World -> World.

(** The manifest file, the world, the tool runs so far, and the pairs of
    source path and archive name given to [zip_file.write] so far. *)
Record pstate : Type := PState {
  manifest : file;
  world : World;
  runs : list tool_run;
  zipped : list (string * string)
}.

(** A part of the function: its state afterwards, and whether the function
    goes on (false stands for [return False]). *)
Definition phase : Type := pstate -> bool * pstate.

Definition and_then (p q : phase) : phase :=
  fun s => let '(ok, s') := p s in if ok then q s' else (false, s').

Definition always (f : pstate -> pstate) : phase := fun s => (true, f s).

Definition on_world (f : World -> World) (s : pstate) : pstate :=
  PState (manifest s) (f (world s)) (runs s) (zipped s).

Definition zip_write (src arcname : string) (s : pstate) : pstate :=
  PState (manifest s) (world s) (runs s) (zipped s ++ [(src, arcname)]).

Definition run_tool (t : step) (command : string) (args : list string)
    (s : pstate) : Z * pstate :=
  let '(code, w) := runProcess command args (world s) in
  (code, PState (manifest s) w (runs s ++ [ToolRun t command args code]) (zipped s)).

(** A tool whose failure ends the function. *)
Definition checked (t : step) (command : string) (args : list string) : phase :=
  fun s => let '(code, s') := run_tool t command args s in ((code =? 0)%Z, s').

(** A tool whose failure is only traced. *)
Definition unchecked (t : step) (command : string) (args : list string) : phase :=
  fun s => (true, snd (run_tool t command args s)).

Definition ensure_dir (path : string) (w : World) : World :=
  if path_exists w path then w else make_dirs path w.

(** The arguments of the function. [original_pack] and [label_argument]
    are the values that the caller gives for [android_pack] and
    [android_label]. *)
Variables (main_root app_name original_pack label_argument android_activity : string).
Variable app_type : Z.
Variable run_app : bool.
Variables (android_sdk aapt dx dx8 apksigner platform keytool : string).
Variable native_manifest_template : string.

(** Lines 152 to 158: the values of [android_pack] and [android_label] in
    the rest of the function. *)
Definition android_pack : string :=
  _sanitize_android_package original_pack default_package.

Definition android_label : string :=
  if Py.is_empty label_argument || Py.is_empty (Py.strip label_argument)
  then app_name else label_argument.

Definition bin_folder : string := main_root +:+ "/Android/" +:+ app_name +:+ "/".
Definition res : string := bin_folder +:+ "res".
Definition java : string := bin_folder +:+ "java".
Definition tmp : string := bin_folder +:+ "tmp".
Definition java_out : string := bin_folder +:+ "out".
Definition dex_files : string := bin_folder +:+ "dex".
Definition manif_file : string := bin_folder +:+ "AndroidManifest.xml".
Definition debug_key : string := bin_folder +:+ app_name +:+ ".key".
Definition unaligned_apk : string := tmp +:+ "/" +:+ app_name +:+ ".unaligned.apk".
Definition app_signed : string := bin_folder +:+ app_name +:+ ".signed.apk".
Definition adb : string := android_sdk +:+ "/platform-tools/adb".

(** Lines 160 to 196. *)
Definition prepare_folders : phase :=
  always (on_world (fun w =>
    let w := ensure_dir bin_folder w in
    let w := ensure_dir res w in
    let w := ensure_dir java w in
    let w := ensure_dir tmp w in
    let w := ensure_dir java_out w in
    let w := ensure_dir dex_files w in
    ensure_dir (java +:+ "/" +:+ Py.replace "." "/" android_pack) w)).

(** Lines 198 to 239. *)
Definition manifest_phase : phase :=
  always (fun s =>
    PState (manifest_step app_type native_manifest_template android_pack
                          android_label android_activity app_name
                          (manifest s) (resource_tree (world s) res))
           (world s) (runs s) (zipped s)).

Definition keytool_args : list string :=
  ["-genkeypair"; "-validity"; "1000"; "-dname"; "CN=djokersoft,O=Android,C=PT";
   "-keystore"; debug_key; "-storepass"; "14781478"; "-keypass"; "14781478";
   "-alias"; "djokersoft"; "-keyalg"; "RSA"].

(** Lines 241 to 268. *)
Definition generate_key : phase :=
  fun s =>
    if path_exists (world s) debug_key then (true, s)
    else checked GenerateKey keytool keytool_args s.

Definition is_stale_binding (rel : string) : bool :=
  bool_decide (Path.basename rel = "R.java")
  || Py.startswith (Path.basename rel) "R$".

(** [for ... os.walk(dir): if keep(file): os.remove(...)]. *)
Definition remove_matching (dir : string) (matching : string -> bool) (w : World)
  : World :=
  foldl (fun w rel => remove_file (dir +:+ "/" +:+ rel) w) w
        (List.filter matching (walk_files w dir)).

(** Lines 270 to 298. *)
Definition generate_resources : phase :=
  and_then
    (always (on_world (remove_matching java is_stale_binding)))
    (checked GenerateResources aapt
       ["package"; "-f"; "-m"; "-J"; java; "-M"; manif_file; "-S"; res; "-I"; platform]).

Definition javac_args (src : string) : list string :=
  ["-nowarn"; "-Xlint:none"; "-J-Xmx2048m"; "-Xlint:unchecked";
   "-source"; "1.8"; "-target"; "1.8"; "-d"; java_out;
   "-classpath"; platform +:+ ":" +:+ java_out;
   "-sourcepath"; java +:+ ":" +:+ java +:+ "/org" +:+ ":" +:+ java_out; src].

(** The class file that belongs to a Java source; [src] is an absolute,
    normalized path, so that [os.path.abspath] leaves it as it is. *)
Definition class_of (src : string) : string :=
  Py.replace "java" "out" (Path.dirname src) +:+ "/"
  +:+ splitext_root (Path.basename src) +:+ ".class".

(** One turn of the loop over [java_src_files]. *)
Definition compile_java_source (src : string) : phase :=
  fun s =>
    let obj_name := class_of src in
    if path_exists (world s) obj_name
       && Qle_bool (getmtime (world s) src) (getmtime (world s) obj_name)
    then (true, s)
    else checked CompileJava "javac" (javac_args src) s.

Fixpoint each (body : string -> phase) (items : list string) : phase :=
  match items with
  | [] => always (fun s => s)
  | x :: rest => and_then (body x) (each body rest)
  end.

Definition java_src_files (w : World) : list string :=
  Path.sort_descending
    (List.map (fun rel => java +:+ "/" +:+ rel)
              (List.filter (fun rel => Path.endswith rel ".java") (walk_files w java))).

(** Lines 299 to 351. *)
Definition compile_java : phase :=
  fun s => each compile_java_source (java_src_files (world s)) s.

(** Lines 353 to 360. *)
Definition purge_dex : phase :=
  always (on_world (remove_matching dex_files (fun rel => Path.endswith rel ".dex"))).

Definition class_files (w : World) : list string :=
  List.map (fun rel => java_out +:+ "/" +:+ rel)
           (List.filter (fun rel => Path.endswith rel ".class") (walk_files w java_out)).

(** The [else] branch of lines 369 to 394: the modern translator when it is
    configured and present, and the legacy one when the modern one was not
    run or failed. *)
Definition run_translators (classes : list string) : phase :=
  fun s =>
    let '(code, s) :=
      if Py.truthy dx8 && path_exists (world s) dx8
      then run_tool TranslateD8 dx8
                    (["--release"; "--output"; dex_files; "--lib"; platform] ++ classes) s
      else (1%Z, s) in
    if negb (code =? 0)%Z
    then checked TranslateDx dx
                 (["--dex"; "--output=" +:+ dex_files +:+ "/classes.dex"] ++ classes) s
    else (true, s).

(** Lines 362 to 394. *)
Definition translate : phase :=
  fun s =>
    match class_files (world s) with
    | [] => (true, s)
    | classes => run_translators classes s
    end.

(** Lines 396 to 415. *)
Definition make_apk_args : list string :=
  ["package"; "-f"; "-m"; "-F"; unaligned_apk; "-M"; manif_file; "-S"; res;
   "-I"; platform].

Definition make_apk : phase := checked MakeApk aapt make_apk_args.

Definition add_native_library (abi_dir : string) (s : pstate) : pstate :=
  let app_bin := main_root +:+ "/Android/" +:+ abi_dir +:+ "/lib" +:+ app_name +:+ ".so" in
  if path_exists (world s) app_bin
  then zip_write app_bin ("lib/" +:+ abi_dir +:+ "/lib" +:+ app_name +:+ ".so") s
  else s.

Definition asset_roots : list (string * string) :=
  [("scripts", "assets/scripts"); ("assets", "assets/assets");
   ("resources", "assets/resources"); ("data", "assets/data");
   ("media", "assets/media")].

(** [_zip_add_tree]; the archive names of [asset_roots] carry no slash at
    either end, so that [base] is [dst_root]. *)
Definition _zip_add_tree (src_root dst_root : string) (s : pstate) : pstate :=
  if path_isdir (world s) src_root then
    foldl (fun s rel => zip_write (src_root +:+ "/" +:+ rel) (dst_root +:+ "/" +:+ rel) s)
          s (walk_files (world s) src_root)
  else s.

Definition dex_list_files (w : World) : list string :=
  List.map (fun rel => dex_files +:+ "/" +:+ rel)
           (List.filter (fun rel => Path.endswith rel ".dex") (walk_files w dex_files)).

(** Lines 419 to 463. *)
Definition fill_archive : phase :=
  always (fun s =>
    let s := add_native_library "armeabi-v7a" s in
    let s := add_native_library "arm64-v8a" s in
    let s :=
      foldl (fun s root => _zip_add_tree (main_root +:+ "/" +:+ fst root) (snd root) s)
            s asset_roots in
    foldl (fun s dex_path => zip_write dex_path (Path.basename dex_path) s)
          s (dex_list_files (world s))).

(** Lines 465 to 487. *)
Definition sign_apk : phase :=
  checked SignApk apksigner
    ["sign"; "--ks"; debug_key; "--ks-key-alias"; "djokersoft"; "--ks-pass";
     "pass:14781478"; "--in"; unaligned_apk; "--out"; app_signed].

Definition stop_args : list string :=
  ["shell"; "am"; "force-stop"; android_pack +:+ "/." +:+ android_activity].
Definition install_args : list string := ["install"; "-r"; app_signed].
Definition uninstall_args : list string := ["uninstall"; android_pack].
Definition start_args : list string :=
  ["shell"; "am"; "start"; "-n"; android_pack +:+ "/" +:+ android_activity].

(** Lines 502 to 506: [android_install_app], then [android_remove] and a
    second [android_install_app] when the first one fails. *)
Definition install_app : phase :=
  fun s =>
    let '(installed, s) := checked InstallApp adb install_args s in
    if installed then (true, s)
    else
      let '(removed, s) := checked RemoveApp adb uninstall_args s in
      if removed then unchecked InstallApp adb install_args s else (true, s).

(** Lines 508 to 518. *)
Definition launch_app : phase :=
  if run_app then checked RunApp adb start_args else always (fun s => s).

(** The function up to the search for class files, lines 160 to 360. *)
Definition before_translate : phase :=
  and_then prepare_folders
    (and_then manifest_phase
       (and_then generate_key
          (and_then generate_resources
             (and_then compile_java purge_dex)))).

(** The function after the translation, lines 396 to 518. *)
Definition after_translate : phase :=
  and_then make_apk
    (and_then fill_archive
       (and_then sign_apk
          (and_then (unchecked StopApp adb stop_args)
             (and_then install_app launch_app)))).

Definition android_compile_java_native : phase :=
  and_then before_translate (and_then translate after_translate).

(** The runs that the parts other than the translation can make. *)
Inductive other_run : tool_run -> Prop :=
  | run_keytool code : other_run (ToolRun GenerateKey keytool keytool_args code)
  | run_resources code :
      other_run (ToolRun GenerateResources aapt
                   ["package"; "-f"; "-m"; "-J"; java; "-M"; manif_file; "-S"; res;
                    "-I"; platform] code)
  | run_javac src code : other_run (ToolRun CompileJava "javac" (javac_args src) code)
  | run_make_apk code : other_run (ToolRun MakeApk aapt make_apk_args code)
  | run_sign code :
      other_run (ToolRun SignApk apksigner
                   ["sign"; "--ks"; debug_key; "--ks-key-alias"; "djokersoft";
                    "--ks-pass"; "pass:14781478"; "--in"; unaligned_apk; "--out";
                    app_signed] code)
  | run_stop code : other_run (ToolRun StopApp adb stop_args code)
  | run_install code : other_run (ToolRun InstallApp adb install_args code)
  | run_remove code : other_run (ToolRun RemoveApp adb uninstall_args code)
  | run_start code : other_run (ToolRun RunApp adb start_args code).

(** The runs of the two bytecode translators. *)
Inductive translator_run : tool_run -> Prop :=
  | run_d8 classes code :
      translator_run
        (ToolRun TranslateD8 dx8
                 (["--release"; "--output"; dex_files; "--lib"; platform] ++ classes) code)
  | run_dx classes code :
      translator_run
        (ToolRun TranslateDx dx
                 (["--dex"; "--output=" +:+ dex_files +:+ "/classes.dex"] ++ classes) code).

(** [ph] only adds runs that satisfy [P]. *)
Definition adds (P : tool_run -> Prop) (ph : phase) : Prop :=
  forall s, exists new, runs (snd (ph s)) = runs s ++ new /\ Forall P new.

(** [ph] only adds runs that satisfy [P] and leaves the manifest and the
    archive as they are. *)
Definition tool_phase (P : tool_run -> Prop) (ph : phase) : Prop :=
  forall s,
    manifest (snd (ph s)) = manifest s /\ zipped (snd (ph s)) = zipped s /\
    exists new, runs (snd (ph s)) = runs s ++ new /\ Forall P new.

(** A run of a step that names the package has the arguments that the
    function builds from [android_pack]. *)
Definition names_package (r : tool_run) : Prop :=
  match run_step r with
  | StopApp =>
      run_args r = ["shell"; "am"; "force-stop";
                    android_pack +:+ "/." +:+ android_activity]
  | RemoveApp => run_args r = ["uninstall"; android_pack]
  | RunApp =>
      run_args r = ["shell"; "am"; "start"; "-n";
                    android_pack +:+ "/" +:+ android_activity]
  | _ => True
  end.

(** From [s] to [s'] only entries that satisfy [Q] were added to the
    archive, and nothing else changed. *)
Definition only_zips (Q : string * string -> Prop) (s s' : pstate) : Prop :=
  manifest s' = manifest s /\ world s' = world s /\ runs s' = runs s /\
  exists new, zipped s' = zipped s ++ new /\ Forall Q new.

(** C8 as the specification states it: a run that starts with a manifest
    in which the function reads the package, the activity and the library
    that the caller asks for ends with the same file. *)
Definition manifest_untouched_claim (s : pstate) (existing : string) : Prop :=
  manifest s = Text existing ->
  existing_package (Py.universal_newlines existing) = original_pack ->
  existing_activity (Py.universal_newlines existing) = android_activity ->
  existing_lib (Py.universal_newlines existing) = app_name ->
  manifest (snd (android_compile_java_native s)) = Text existing.

(** An archive entry for a native library or an asset. *)
Definition lib_or_asset (entry : string * string) : bool :=
  Py.startswith (snd entry) "lib/" || Py.startswith (snd entry) "assets/".




(** The steps whose failure ends the function with [return False]; the
    failure of one of the others is traced and the function goes on. *)
Definition fatal (t : step) : bool :=
  match t with
  | GenerateKey | GenerateResources | CompileJava | TranslateDx | MakeApk
  | SignApk | RunApp => true
  | TranslateD8 | StopApp | InstallApp | RemoveApp => false
  end.

Definition fatal_failure (r : tool_run) : bool :=
  fatal (run_step r) && negb (run_code r =? 0)%Z.

(** What [ph] adds to the runs: without a fatal failure when it goes on, and
    ending with the first fatal failure when it returns false. *)
Definition halting (ph : phase) : Prop :=
  forall s, exists new,
    runs (snd (ph s)) = runs s ++ new /\
    (fst (ph s) = true -> Forall (fun r => fatal_failure r = false) new) /\
    (fst (ph s) = false ->
     exists before r, new = before ++ [r] /\
       Forall (fun r => fatal_failure r = false) before /\
       fatal_failure r = true).

(** A successful run of step [t]. *)
Definition succeeded (t : step) (r : tool_run) : Prop :=
  run_step r = t /\ run_code r = 0.

(** When [ph] goes on, it has made a successful run of step [t]. *)
Definition reports (t : step) (ph : phase) : Prop :=
  forall s new,
    fst (ph s) = true -> runs (snd (ph s)) = runs s ++ new ->
    exists r, r ∈ new /\ succeeded t r.

(** * Properties *)

(** ** Android package names *)

Lemma all_filter (p : ascii -> bool) (s : string) : Py.all p (Py.filter p s) = true.
Proof.
  induction s as [|c s IH]; simpl; [done|].
  destruct (p c) eqn:Hc; simpl; [|done]. by rewrite Hc, IH.
Qed.

Lemma clean_part_valid (part cleaned : string) :
  clean_part part = Some cleaned -> valid_segment cleaned.
Proof.
  unfold clean_part. pose proof (all_filter Py.is_word part) as Hall.
  destruct (Py.filter Py.is_word part) as [|c rest] eqn:Hf; [done|].
  intros [= <-]. destruct (Py.isdigit c) eqn:Hd.
  - split; [done|]. change (Py.all Py.is_word (String c rest) = true). done.
  - split; [|done]. unfold Py.isdigit in Hd.
    by destruct (Py.is_ascii_digit c).
Qed.

Lemma clean_parts_valid (parts : list string) :
  Forall valid_segment (clean_parts parts).
Proof.
  apply Forall_forall. intros cleaned (part & _ & Hc)%list_elem_of_omap.
  by eapply clean_part_valid.
Qed.

Lemma default_package_valid : valid_package default_package.
Proof.
  exists ["com"; "djokersoft"; "game"]. split_and!; [simpl; lia| |done].
  repeat constructor.
Qed.

(** The sanitizer returns the fallback or a name of the valid shape. *)
Lemma sanitize_shape (package_name fallback : string) :
  sanitize_android_package_name package_name fallback = fallback \/
  valid_package (sanitize_android_package_name package_name fallback).
Proof.
  unfold sanitize_android_package_name.
  match goal with |- context [clean_parts ?p] => generalize p end.
  intros parts. destruct (length (clean_parts parts) <? 2)%nat eqn:Hlen; [by left|].
  right. exists (clean_parts parts). split_and!; [|apply clean_parts_valid|done].
  apply Nat.ltb_ge in Hlen. lia.
Qed.

(** ** Android manifest *)

(** *** Facts on strings *)

Lemma append_cons (c : ascii) (s r : string) : String c s +:+ r = String c (s +:+ r).
Proof. reflexivity. Qed.

Lemma append_empty_r (s : string) : s +:+ "" = s.
Proof. induction s as [|c s IH]; [done|]. by rewrite append_cons, IH. Qed.

Lemma append_assoc (a b c : string) : (a +:+ b) +:+ c = a +:+ b +:+ c.
Proof. induction a as [|x a IH]; [done|]. by rewrite !append_cons, IH. Qed.

Lemma length_append (a b : string) :
  String.length (a +:+ b) = (String.length a + String.length b)%nat.
Proof.
  induction a as [|c a IH]; [done|]. rewrite append_cons. cbn [String.length].
  by rewrite IH.
Qed.

Lemma prefix_self (pre rest : string) : String.prefix pre (pre +:+ rest) = true.
Proof.
  induction pre as [|a pre IH]; [by destruct rest|].
  rewrite append_cons. cbn [String.prefix]. by destruct (ascii_dec a a).
Qed.

Lemma drop_app (pre rest : string) : Re.drop (String.length pre) (pre +:+ rest) = rest.
Proof. induction pre as [|c pre IH]; [done|]. rewrite append_cons. apply IH. Qed.

Lemma substring_chop (chunk last : string) :
  last <> "" ->
  String.substring 0 (String.length (chunk +:+ last) - 1) (chunk +:+ last)
  = chunk +:+ String.substring 0 (String.length last - 1) last.
Proof.
  intros Hlast. induction chunk as [|c chunk IH]; [done|].
  rewrite !append_cons. cbn [String.length].
  assert (Hlen : exists k, String.length (chunk +:+ last) = S k).
  { rewrite length_append. destruct last; [done|]. cbn [String.length].
    eexists. by rewrite Nat.add_succ_r. }
  destruct Hlen as [k Hk].
  replace (S (String.length (chunk +:+ last)) - 1)%nat with (S k) by lia.
  cbn [String.substring]. f_equal.
  rewrite <- IH. f_equal. lia.
Qed.

Lemma append_inv_head (a x y : string) : a +:+ x = a +:+ y -> x = y.
Proof.
  induction a as [|c a IH]; [done|]. rewrite !append_cons. intros [= Heq]. by apply IH.
Qed.


Lemma prefix_drop (pre text : string) :
  String.prefix pre text = true ->
  text = pre +:+ Re.drop (String.length pre) text.
Proof.
  revert text. induction pre as [|a pre IH]; intros text Hpre; [done|].
  destruct text as [|b text]; [done|]. cbn [String.prefix] in Hpre.
  destruct (ascii_dec a b) as [->|]; [|done].
  rewrite append_cons. cbn [String.length Re.drop]. f_equal. by apply IH.
Qed.

Lemma span_unquoted_app (s run rest : string) :
  Re.span_unquoted s = (run, rest) -> s = run +:+ rest.
Proof.
  revert run. induction s as [|c s IH]; intros run; cbn [Re.span_unquoted].
  - by intros [= <- <-].
  - destruct (Ascii.eqb c (ascii_of_nat 34)); [by intros [= <- <-]|].
    destruct (Re.span_unquoted s) as [run' rest'].
    intros [= <- <-]. rewrite append_cons. f_equal. by apply IH.
Qed.

Lemma match_quoted_here_splits (pre text group rest : string) :
  Re.match_quoted_here pre text = Some (group, rest) ->
  text = pre +:+ group +:+ rest.
Proof.
  unfold Re.match_quoted_here. destruct (String.prefix pre text) eqn:Hpre; [|done].
  destruct (Re.span_unquoted _) as [run tail] eqn:Hspan.
  destruct run; [done|]. destruct tail; [done|]. intros [= <- <-].
  rewrite (prefix_drop _ _ Hpre) at 1. f_equal. by apply span_unquoted_app.
Qed.

(** A search that succeeds splits the text: what it reports before the
    group ends with the pattern, and the three parts make up the text. *)
Lemma search_quoted_splits (pre text before group rest : string) :
  Re.search_quoted pre text = Some (before, group, rest) ->
  exists chunk, before = chunk +:+ pre /\ text = before +:+ group +:+ rest.
Proof.
  revert before. induction text as [|c text IH]; intros before;
    cbn [Re.search_quoted].
  - destruct (Re.match_quoted_here pre "") as [[g r]|] eqn:Hhere; [|done].
    intros [= <- <- <-]. exists "". split; [done|].
    by apply match_quoted_here_splits.
  - destruct (Re.match_quoted_here pre (String c text)) as [[g r]|] eqn:Hhere.
    + intros [= <- <- <-]. exists "". split; [done|].
      by apply match_quoted_here_splits.
    + destruct (Re.search_quoted pre text) as [[[b g] r]|]; [|done].
      intros [= <- <- <-]. destruct (IH b eq_refl) as (chunk & -> & ->).
      exists (String c chunk). by rewrite !append_cons.
Qed.

(** The three parts that the search for the icon reports make up the
    text. *)
Lemma search_icon_splits (text before icon_ref rest : string) :
  search_icon text = Some (before, icon_ref, rest) ->
  text = before +:+ icon_ref +:+ rest.
Proof.
  unfold search_icon.
  destruct (Re.search_quoted _ text) as [[[b run] r]|] eqn:Hsearch; [|done].
  intros [= <- <- <-].
  apply search_quoted_splits in Hsearch as (chunk & -> & ->).
  rewrite substring_chop by done.
  change (String.substring 0 _ ("android:icon=" +:+ dq +:+ "@"))
    with ("android:icon=" +:+ dq).
  rewrite !append_assoc. do 2 f_equal.
Qed.

(** A text without carriage return is read as it is stored. *)
Lemma universal_newlines_plain (s : string) :
  Py.all (fun c => negb (Py.is_cr c)) s = true -> Py.universal_newlines s = s.
Proof.
  induction s as [|c s IH]; [done|]. cbn [Py.all Py.universal_newlines].
  intros [Hc Hs]%andb_true_iff. apply negb_true_iff in Hc. rewrite Hc.
  f_equal. by apply IH.
Qed.

(** A manifest in which the identity asked for is read is not written
    again; only the icon check can change it. *)
Lemma manifest_step_matching
    (kind : Z) (template pack label activity lib existing : string)
    (res_root : res_tree) :
  existing_package (Py.universal_newlines existing) = pack ->
  existing_activity (Py.universal_newlines existing) = activity ->
  existing_lib (Py.universal_newlines existing) = lib ->
  should_write_manifest pack activity lib (Text existing) = false /\
  manifest_step kind template pack label activity lib (Text existing) res_root
  = match search_icon (Py.universal_newlines existing) with
    | None => Text existing
    | Some (before, icon_ref, rest) =>
        if _has_android_resource res_root icon_ref then Text existing
        else Text (before +:+ icon_fallback +:+ rest)
    end.
Proof.
  intros Hpackage Hactivity Hlib.
  assert (Hkeep : should_write_manifest pack activity lib (Text existing) = false).
  { unfold should_write_manifest. cbv zeta.
    by rewrite !bool_decide_eq_true_2 by done. }
  split; [done|]. unfold manifest_step. rewrite Hkeep.
  by destruct (kind =? 0)%Z.
Qed.

(** ** Packaging pipeline *)

Lemma tool_phase_adds P ph : tool_phase P ph -> adds P ph.
Proof. intros Hph s. by destruct (Hph s) as (_ & _ & Hruns). Qed.

Lemma tool_phase_mono (P Q : tool_run -> Prop) ph :
  (forall r, P r -> Q r) -> tool_phase P ph -> tool_phase Q ph.
Proof.
  intros HPQ Hph s. destruct (Hph s) as (Hm & Hz & new & Hr & HP).
  split_and!; [done..|]. exists new. split; [done|]. by eapply Forall_impl.
Qed.

Lemma tool_phase_skip P : tool_phase P (always (fun s => s)).
Proof. intros s. split_and!; [done..|]. exists []. by rewrite app_nil_r. Qed.

Lemma tool_phase_on_world P f : tool_phase P (always (on_world f)).
Proof. intros s. split_and!; [done..|]. exists []. by rewrite app_nil_r. Qed.

Lemma tool_phase_checked P t command args :
  (forall code, P (ToolRun t command args code)) ->
  tool_phase P (checked t command args).
Proof.
  intros HP s. unfold checked, run_tool.
  destruct (runProcess command args (world s)) as [code w]. simpl.
  split_and!; [done..|]. eexists. split; [done|]. by constructor.
Qed.

Lemma tool_phase_unchecked P t command args :
  (forall code, P (ToolRun t command args code)) ->
  tool_phase P (unchecked t command args).
Proof.
  intros HP s. unfold unchecked, run_tool.
  destruct (runProcess command args (world s)) as [code w]. simpl.
  split_and!; [done..|]. eexists. split; [done|]. by constructor.
Qed.

Lemma tool_phase_and_then P p q :
  tool_phase P p -> tool_phase P q -> tool_phase P (and_then p q).
Proof.
  intros Hp Hq s. unfold and_then.
  destruct (Hp s) as (Hm1 & Hz1 & new1 & Hr1 & HP1).
  destruct (p s) as [[|] s1]; simpl in *.
  - destruct (Hq s1) as (Hm2 & Hz2 & new2 & Hr2 & HP2).
    split_and!; [congruence..|]. exists (new1 ++ new2).
    split; [by rewrite Hr2, Hr1, app_assoc|by apply Forall_app].
  - split_and!; [done..|]. by exists new1.
Qed.

Lemma tool_phase_each P body items :
  (forall x, tool_phase P (body x)) -> tool_phase P (each body items).
Proof.
  intros Hbody. induction items as [|x items IH]; simpl.
  - apply tool_phase_skip.
  - by apply tool_phase_and_then.
Qed.

(** A part that picks one of two tool phases by looking at the state. *)
Lemma tool_phase_choice P (test : pstate -> bool) p q :
  tool_phase P p -> tool_phase P q ->
  tool_phase P (fun s => if test s then p s else q s).
Proof. intros Hp Hq s. destruct (test s); [apply Hp|apply Hq]. Qed.

(** [and_then] in terms of the answer of its first part. *)
Lemma and_then_run (p q : phase) s :
  and_then p q s = if fst (p s) then q (snd (p s)) else (false, snd (p s)).
Proof. unfold and_then. by destruct (p s) as [[|] s']. Qed.

Lemma adds_and_then P p q : adds P p -> adds P q -> adds P (and_then p q).
Proof.
  intros Hp Hq s. unfold and_then.
  destruct (Hp s) as (new1 & Hr1 & HP1).
  destruct (p s) as [[|] s1]; simpl in *.
  - destruct (Hq s1) as (new2 & Hr2 & HP2). exists (new1 ++ new2).
    split; [by rewrite Hr2, Hr1, app_assoc|by apply Forall_app].
  - by exists new1.
Qed.

Lemma generate_key_tool : tool_phase other_run generate_key.
Proof.
  apply (tool_phase_choice _ (fun s => path_exists (world s) debug_key)
                           (always (fun s => s))).
  - apply tool_phase_skip.
  - apply tool_phase_checked. constructor.
Qed.

Lemma generate_resources_tool : tool_phase other_run generate_resources.
Proof.
  apply tool_phase_and_then; [apply tool_phase_on_world|].
  apply tool_phase_checked. constructor.
Qed.

Lemma compile_java_tool : tool_phase other_run compile_java.
Proof.
  intros s. unfold compile_java. apply tool_phase_each. intros src.
  apply (tool_phase_choice _
           (fun s => path_exists (world s) (class_of src)
                     && Qle_bool (getmtime (world s) src)
                                 (getmtime (world s) (class_of src)))
           (always (fun s => s))).
  - apply tool_phase_skip.
  - apply tool_phase_checked. constructor.
Qed.

Lemma translate_tool : tool_phase translator_run translate.
Proof.
  intros s. unfold translate. destruct (class_files (world s)) as [|c classes].
  { apply (tool_phase_skip _ s). }
  unfold run_translators.
  destruct (Py.truthy dx8 && path_exists (world s) dx8).
  - unfold run_tool.
    destruct (runProcess dx8 _ (world s)) as [code w].
    match goal with
    | |- context [PState ?m w ?r ?z] => set (s1 := PState m w r z)
    end.
    destruct (negb (code =? 0)%Z).
    + destruct (tool_phase_checked translator_run TranslateDx dx
                  (["--dex"; "--output=" +:+ dex_files +:+ "/classes.dex"]
                   ++ c :: classes)
                  (fun code => run_dx (c :: classes) code) s1)
        as (Hm & Hz & new & Hr & HP).
      split_and!; [by rewrite Hm|by rewrite Hz|].
      eexists (_ :: new). split.
      * rewrite Hr. subst s1. simpl. by rewrite <- app_assoc.
      * constructor; [apply (run_d8 (c :: classes))|done].
    + simpl. split_and!; [done..|]. eexists [_]. split; [done|].
      constructor; [apply (run_d8 (c :: classes))|constructor].
  - simpl. apply tool_phase_checked. intros code. apply (run_dx (c :: classes)).
Qed.

Lemma install_app_tool : tool_phase other_run install_app.
Proof.
  intros s. unfold install_app.
  destruct (tool_phase_checked other_run InstallApp adb install_args run_install s)
    as (Hm1 & Hz1 & n1 & Hr1 & HP1).
  destruct (checked InstallApp adb install_args s) as [[|] s1]; simpl in *.
  { split_and!; [done..|]. by exists n1. }
  destruct (tool_phase_checked other_run RemoveApp adb uninstall_args run_remove s1)
    as (Hm2 & Hz2 & n2 & Hr2 & HP2).
  destruct (checked RemoveApp adb uninstall_args s1) as [[|] s2]; simpl in *.
  - destruct (tool_phase_unchecked other_run InstallApp adb install_args run_install s2)
      as (Hm3 & Hz3 & n3 & Hr3 & HP3).
    simpl in *.
    split_and!; [congruence..|]. exists (n1 ++ n2 ++ n3). split.
    + by rewrite Hr3, Hr2, Hr1, !app_assoc.
    + by rewrite !Forall_app.
  - split_and!; [congruence..|]. exists (n1 ++ n2). split.
    + by rewrite Hr2, Hr1, !app_assoc.
    + by rewrite !Forall_app.
Qed.

Lemma launch_app_tool : tool_phase other_run launch_app.
Proof.
  unfold launch_app. destruct run_app.
  - apply tool_phase_checked. constructor.
  - apply tool_phase_skip.
Qed.

(** The function from the signing on. *)
Lemma sign_and_deploy_tool :
  tool_phase other_run
    (and_then sign_apk
       (and_then (unchecked StopApp adb stop_args)
          (and_then install_app launch_app))).
Proof.
  apply tool_phase_and_then; [apply tool_phase_checked; constructor|].
  apply tool_phase_and_then; [apply tool_phase_unchecked; constructor|].
  apply tool_phase_and_then; [apply install_app_tool|apply launch_app_tool].
Qed.

(** The function from the key to the purge of the dex folder. *)
Lemma key_to_purge_tool :
  tool_phase other_run
    (and_then generate_key
       (and_then generate_resources (and_then compile_java purge_dex))).
Proof.
  apply tool_phase_and_then; [apply generate_key_tool|].
  apply tool_phase_and_then; [apply generate_resources_tool|].
  apply tool_phase_and_then; [apply compile_java_tool|apply tool_phase_on_world].
Qed.

Lemma only_zips_refl Q s : only_zips Q s s.
Proof. split_and!; [done..|]. exists []. by rewrite app_nil_r. Qed.

Lemma only_zips_trans Q s1 s2 s3 :
  only_zips Q s1 s2 -> only_zips Q s2 s3 -> only_zips Q s1 s3.
Proof.
  intros (Hm1 & Hw1 & Hr1 & n1 & Hz1 & HQ1) (Hm2 & Hw2 & Hr2 & n2 & Hz2 & HQ2).
  split_and!; [congruence..|]. exists (n1 ++ n2). split.
  - by rewrite Hz2, Hz1, app_assoc.
  - by apply Forall_app.
Qed.

Lemma only_zips_mono (Q Q' : string * string -> Prop) s s' :
  (forall entry, Q entry -> Q' entry) -> only_zips Q s s' -> only_zips Q' s s'.
Proof.
  intros HQ (Hm & Hw & Hr & new & Hz & Hnew).
  split_and!; [done..|]. exists new. split; [done|]. by eapply Forall_impl.
Qed.

Lemma zip_write_only Q src arcname s :
  Q (src, arcname) -> only_zips Q s (zip_write src arcname s).
Proof.
  intros HQ. split_and!; [done..|]. exists [(src, arcname)]. split; [done|].
  by constructor.
Qed.

Lemma zip_write_fold {A : Type} Q (f g : A -> string) (items : list A) s :
  (forall x, x ∈ items -> Q (f x, g x)) ->
  only_zips Q s (foldl (fun s x => zip_write (f x) (g x) s) s items).
Proof.
  revert s. induction items as [|x items IH]; intros s HQ; simpl.
  - apply only_zips_refl.
  - eapply only_zips_trans.
    + apply zip_write_only, HQ. left.
    + apply IH. intros y Hy. apply HQ. by right.
Qed.

Lemma prefix_app (pre s rest : string) :
  String.prefix pre s = true -> String.prefix pre (s +:+ rest) = true.
Proof.
  revert s. induction pre as [|a pre IH]; intros s Hpre.
  - by destruct (s +:+ rest).
  - destruct s as [|a' s]; [done|].
    change (String a' s +:+ rest) with (String a' (s +:+ rest)).
    simpl in *. destruct (ascii_dec a a'); [|done]. by apply IH.
Qed.

Lemma add_native_library_only abi_dir s :
  only_zips (fun entry => lib_or_asset entry = true) s (add_native_library abi_dir s).
Proof.
  unfold add_native_library. destruct (path_exists _ _); [|apply only_zips_refl].
  apply zip_write_only. unfold lib_or_asset, Py.startswith. cbn [snd].
  by rewrite (prefix_app "lib/" "lib/").
Qed.

Lemma _zip_add_tree_only src_root dst_root s :
  Py.startswith dst_root "assets/" = true ->
  only_zips (fun entry => lib_or_asset entry = true) s
            (_zip_add_tree src_root dst_root s).
Proof.
  intros Hdst. unfold _zip_add_tree. destruct (path_isdir _ _); [|apply only_zips_refl].
  apply (zip_write_fold _ (fun rel => src_root +:+ "/" +:+ rel)
                          (fun rel => dst_root +:+ "/" +:+ rel)).
  intros rel _. unfold lib_or_asset. simpl.
  unfold Py.startswith in *. rewrite (prefix_app _ _ _ Hdst). apply orb_true_r.
Qed.

(** What [fill_archive] adds: native libraries, assets, and the dex files
    that lie in the dex folder. *)
Lemma fill_archive_only s :
  only_zips (fun entry => lib_or_asset entry = true \/
                          fst entry ∈ dex_list_files (world s))
            s (snd (fill_archive s)).
Proof.
  unfold fill_archive, always, asset_roots. simpl.
  set (s1 := add_native_library "armeabi-v7a" s).
  set (s2 := add_native_library "arm64-v8a" s1).
  set (s3 := _zip_add_tree _ "assets/scripts" s2).
  set (s4 := _zip_add_tree _ "assets/assets" s3).
  set (s5 := _zip_add_tree _ "assets/resources" s4).
  set (s6 := _zip_add_tree _ "assets/data" s5).
  set (s7 := _zip_add_tree _ "assets/media" s6).
  assert (H7 : only_zips (fun entry => lib_or_asset entry = true) s s7).
  { repeat (eapply only_zips_trans;
            [|first [apply _zip_add_tree_only; reflexivity
                    |apply add_native_library_only]]).
    apply only_zips_refl. }
  eapply only_zips_trans.
  - eapply only_zips_mono; [|exact H7]. by left.
  - destruct H7 as (_ & Hw & _).
    apply (zip_write_fold _ (fun dex_path => dex_path) Path.basename).
    intros x Hx. right. simpl. by rewrite <- Hw.
Qed.

(** The function up to the search for class files: it runs no translator,
    adds nothing to the archive, and leaves as manifest what
    [manifest_step] gives for the sanitized package name. *)
Lemma before_translate_spec s :
  let s1 := snd (before_translate s) in
  zipped s1 = zipped s /\
  (exists new, runs s1 = runs s ++ new /\ Forall other_run new) /\
  manifest s1 =
    manifest_step app_type native_manifest_template android_pack android_label
                  android_activity app_name (manifest s)
                  (resource_tree (world (snd (prepare_folders s))) res).
Proof.
  unfold before_translate. unfold and_then at 1 2.
  unfold prepare_folders at 1, manifest_phase, always. simpl.
  match goal with
  | |- context [and_then generate_key _ ?s'] =>
      destruct (key_to_purge_tool s') as (Hm & Hz & Hruns)
  end.
  simpl in *. split_and!; done.
Qed.

(** The function after the translation: the first run packs the archive,
    and the archive then only gets native libraries, assets, and the dex
    files that lie in the dex folder after that run. *)
Lemma after_translate_spec s :
  let final := snd (after_translate s) in
  let packed := runProcess aapt make_apk_args (world s) in
  manifest final = manifest s /\
  (exists rest,
     runs final = runs s ++ ToolRun MakeApk aapt make_apk_args (fst packed) :: rest /\
     Forall other_run rest) /\
  (forall entry, entry ∈ zipped final ->
     entry ∈ zipped s \/ lib_or_asset entry = true \/
     fst entry ∈ dex_list_files (snd packed)).
Proof.
  intros final packed. subst final. unfold after_translate.
  assert (Hmk : make_apk s =
                ((fst packed =? 0)%Z,
                 PState (manifest s) (snd packed)
                        (runs s ++ [ToolRun MakeApk aapt make_apk_args (fst packed)])
                        (zipped s))).
  { subst packed. unfold make_apk, checked, run_tool.
    by destruct (runProcess aapt make_apk_args (world s)). }
  rewrite and_then_run, Hmk. cbn [fst snd].
  destruct (fst packed =? 0)%Z; cbn [snd manifest runs zipped].
  2:{ split_and!; [done| |by intros entry Hin; left].
      exists []. split; [done|constructor]. }
  match goal with
  | |- context [and_then fill_archive _ ?s'] => set (s1 := s')
  end.
  rewrite and_then_run. change (fst (fill_archive s1)) with true. cbn iota.
  pose proof (fill_archive_only s1) as (Hm2 & Hw2 & Hr2 & new2 & Hz2 & HQ2).
  destruct (sign_and_deploy_tool (snd (fill_archive s1)))
    as (Hm3 & Hz3 & new3 & Hr3 & HP3).
  split_and!.
  - by rewrite Hm3, Hm2.
  - exists new3. split; [|done]. rewrite Hr3, Hr2. subst s1. simpl.
    by rewrite <- app_assoc.
  - intros entry. rewrite Hz3, Hz2. intros [Hin|Hin]%elem_of_app; [by left|].
    right. rewrite Forall_forall in HQ2. by apply HQ2.
Qed.


Lemma other_run_names_package r : other_run r -> names_package r.
Proof. by intros []. Qed.

Lemma translator_run_names_package r : translator_run r -> names_package r.
Proof. by intros []. Qed.

(** The whole function: its runs, and the manifest it leaves. *)
Lemma android_compile_java_native_spec s :
  let final := snd (android_compile_java_native s) in
  (exists new, runs final = runs s ++ new /\
     Forall (fun r => other_run r \/ translator_run r) new) /\
  manifest final = manifest (snd (before_translate s)).
Proof.
  intros final. subst final. unfold android_compile_java_native.
  destruct (before_translate_spec s) as (_ & (new1 & Hr1 & HP1) & _).
  rewrite and_then_run. set (s1 := snd (before_translate s)) in *.
  assert (HP1' : Forall (fun r => other_run r \/ translator_run r) new1)
    by (eapply Forall_impl; [exact HP1|by left]).
  destruct (fst (before_translate s)); cbn [snd].
  2:{ split; [|done]. by exists new1. }
  destruct (translate_tool s1) as (Hm2 & _ & new2 & Hr2 & HP2).
  assert (HP2' : Forall (fun r => other_run r \/ translator_run r) new2)
    by (eapply Forall_impl; [exact HP2|by right]).
  rewrite and_then_run. set (s2 := snd (translate s1)) in *.
  destruct (fst (translate s1)); cbn [snd].
  2:{ split; [|done]. exists (new1 ++ new2).
      split; [by rewrite Hr2, Hr1, app_assoc|by apply Forall_app]. }
  destruct (after_translate_spec s2) as (Hm3 & (rest & Hr3 & HP3) & _).
  split; [|by rewrite Hm3].
  exists (new1 ++ new2 ++ ToolRun MakeApk aapt make_apk_args
                                  (fst (runProcess aapt make_apk_args (world s2)))
                          :: rest).
  split; [by rewrite Hr3, Hr2, Hr1, !app_assoc|].
  rewrite !Forall_app. split_and!; [done..|].
  constructor; [left; constructor|]. eapply Forall_impl; [exact HP3|by left].
Qed.








(** C10: the package name that the function works with is the fallback or
    has the valid shape; every run that stops, removes or starts the
    application names exactly that package; and for a native application
    the manifest that goes to the icon check either is generated from that
    package name or is the existing one, in which the function reads that
    name as the package. *)
Theorem package_name_shape_everywhere (s : pstate) :
  let final := snd (android_compile_java_native s) in
  (android_pack = default_package \/ valid_package android_pack) /\
  (exists new, runs final = runs s ++ new /\ Forall names_package new) /\
  (app_type = 0%Z ->
   exists content,
     (content = build_native_manifest native_manifest_template android_pack
                  android_label android_activity app_name \/
      manifest s = Text content /\
      existing_package (Py.universal_newlines content) = android_pack) /\
     manifest final =
       _ensure_manifest_icon_fallback
         (Text content) (resource_tree (world (snd (prepare_folders s))) res)).
Proof.
  intros final. subst final.
  destruct (android_compile_java_native_spec s) as ((new & Hr & HP) & Hm).
  split_and!.
  - apply sanitize_shape.
  - exists new. split; [done|]. eapply Forall_impl; [exact HP|].
    intros r [Hr'|Hr']; [by apply other_run_names_package
                        |by apply translator_run_names_package].
  - intros Htype. rewrite Hm.
    destruct (before_translate_spec s) as (_ & _ & ->).
    unfold manifest_step. rewrite Htype, Z.eqb_refl.
    destruct (should_write_manifest _ _ _ (manifest s)) eqn:Hw.
    + eexists. split; [by left|reflexivity].
    + destruct (manifest s) as [| |existing] eqn:Hexisting; try done.
      exists existing. split; [|reflexivity]. right. split; [done|].
      simpl in Hw. apply negb_false_iff in Hw.
      apply andb_prop in Hw as [Hw _]. apply andb_prop in Hw as [Hw _].
      by apply bool_decide_eq_true_1 in Hw.
Qed.

(** C8 (amended): when the manifest exists and the package, the activity
    and the library name that the function reads in it are the sanitized
    package name, the activity and the application name it works with, the
    synthesis step does not write it, and the run leaves the file as it is
    when it names no icon, or an icon that [_has_android_resource] finds;
    when the icon is missing the run writes the text it has read, which is
    what the file holds with a line feed for every line end, and in which
    the icon reference, and nothing else, is replaced by the fallback
    icon. *)
Theorem manifest_kept_when_matching (s : pstate) (existing : string)
    (Hexists : manifest s = Text existing)
    (Hpackage : existing_package (Py.universal_newlines existing) = android_pack)
    (Hactivity : existing_activity (Py.universal_newlines existing) = android_activity)
    (Hlib : existing_lib (Py.universal_newlines existing) = app_name) :
  let text := Py.universal_newlines existing in
  let res_root := resource_tree (world (snd (prepare_folders s))) res in
  let final := manifest (snd (android_compile_java_native s)) in
  should_write_manifest android_pack android_activity app_name (manifest s) = false /\
  (Py.all (fun c => negb (Py.is_cr c)) existing = true -> text = existing) /\
  (search_icon text = None -> final = Text existing) /\
  (forall before icon_ref rest,
     search_icon text = Some (before, icon_ref, rest) ->
     text = before +:+ icon_ref +:+ rest /\
     (_has_android_resource res_root icon_ref = true -> final = Text existing) /\
     (_has_android_resource res_root icon_ref = false ->
      final = Text (before +:+ icon_fallback +:+ rest))).
Proof.
  intros text res_root final. subst text res_root final.
  destruct (android_compile_java_native_spec s) as (_ & ->).
  destruct (before_translate_spec s) as (_ & _ & ->).
  rewrite Hexists.
  destruct (manifest_step_matching app_type native_manifest_template android_pack
              android_label android_activity app_name existing
              (resource_tree (world (snd (prepare_folders s))) res)
              Hpackage Hactivity Hlib) as [Hkeep ->].
  split_and!; [done|apply universal_newlines_plain| |].
  - by intros ->.
  - intros before icon_ref rest Hicon. rewrite Hicon.
    split_and!; [by apply search_icon_splits|by intros ->..].
Qed.

(** ** Where the pipeline stops *)

Lemma halting_always (f : pstate -> pstate) :
  (forall s, runs (f s) = runs s) -> halting (always f).
Proof.
  intros Hf s. exists []. unfold always. cbn [fst snd].
  rewrite Hf, app_nil_r. split_and!; [done|by constructor|done].
Qed.

Lemma halting_checked (t : step) (command : string) (args : list string) :
  fatal t = true -> halting (checked t command args).
Proof.
  intros Ht s. unfold checked, run_tool.
  destruct (runProcess command args (world s)) as [code w]. cbn [fst snd runs].
  exists [ToolRun t command args code]. split_and!; [done| |].
  - intros Hcode. constructor; [|constructor].
    unfold fatal_failure. cbn [run_step run_code]. by rewrite Hcode, andb_false_r.
  - intros Hcode. exists [], (ToolRun t command args code).
    split_and!; [done|constructor|].
    unfold fatal_failure. cbn [run_step run_code]. by rewrite Ht, Hcode.
Qed.

Lemma halting_unchecked (t : step) (command : string) (args : list string) :
  fatal t = false -> halting (unchecked t command args).
Proof.
  intros Ht s. unfold unchecked, run_tool.
  destruct (runProcess command args (world s)) as [code w]. cbn [fst snd runs].
  exists [ToolRun t command args code]. split_and!; [done| |done].
  intros _. constructor; [|constructor].
  unfold fatal_failure. cbn [run_step]. by rewrite Ht.
Qed.

Lemma halting_and_then (p q : phase) :
  halting p -> halting q -> halting (and_then p q).
Proof.
  intros Hp Hq s. unfold and_then.
  destruct (Hp s) as (new1 & Hruns1 & Hok1 & Hfail1).
  destruct (p s) as [[|] s1]; cbn [fst snd] in *.
  - destruct (Hq s1) as (new2 & Hruns2 & Hok2 & Hfail2).
    exists (new1 ++ new2). split_and!.
    + by rewrite Hruns2, Hruns1, app_assoc.
    + intros Hok. apply Forall_app. split; [by apply Hok1|by apply Hok2].
    + intros Hfail. destruct (Hfail2 Hfail) as (before & r & -> & Hbefore & Hr).
      exists (new1 ++ before), r. split_and!; [by rewrite app_assoc| |done].
      apply Forall_app. split; [by apply Hok1|done].
  - exists new1. split_and!; [done|done|by intros _; apply Hfail1].
Qed.

Lemma halting_each (body : string -> phase) (items : list string) :
  (forall x, halting (body x)) -> halting (each body items).
Proof.
  intros Hbody. induction items as [|x items IH]; cbn [each].
  - by apply halting_always.
  - by apply halting_and_then.
Qed.

Lemma halting_ext (p q : phase) : (forall s, p s = q s) -> halting q -> halting p.
Proof. intros Heq Hq s. rewrite Heq. apply Hq. Qed.

Lemma halting_generate_key : halting generate_key.
Proof.
  intros s. unfold generate_key. destruct (path_exists (world s) debug_key).
  - apply (halting_always (fun s => s)); done.
  - by apply halting_checked.
Qed.

Lemma halting_compile_java : halting compile_java.
Proof.
  intros s. unfold compile_java. apply halting_each. clear s.
  intros src s. unfold compile_java_source. cbv zeta.
  destruct (_ && _).
  - apply (halting_always (fun s => s)); done.
  - by apply halting_checked.
Qed.

Lemma halting_translate : halting translate.
Proof.
  intros s. unfold translate.
  destruct (class_files (world s)) as [|c classes].
  { apply (halting_always (fun s => s)); done. }
  unfold run_translators.
  destruct (Py.truthy dx8 && path_exists (world s) dx8).
  - destruct (halting_unchecked TranslateD8 dx8
                (["--release"; "--output"; dex_files; "--lib"; platform]
                 ++ c :: classes) eq_refl s) as (new1 & Hruns1 & Hok1 & _).
    unfold unchecked in Hruns1, Hok1. cbn [fst snd] in Hruns1, Hok1.
    destruct (run_tool TranslateD8 dx8 _ s) as [code s1]. cbn [snd] in *.
    destruct (negb (code =? 0)%Z).
    + destruct (halting_checked TranslateDx dx
                  (["--dex"; "--output=" +:+ dex_files +:+ "/classes.dex"]
                   ++ c :: classes) eq_refl s1) as (new2 & Hruns2 & Hok2 & Hfail2).
      exists (new1 ++ new2). split_and!.
      * by rewrite Hruns2, Hruns1, app_assoc.
      * intros Hok. apply Forall_app. split; [by apply Hok1|by apply Hok2].
      * intros Hfail. destruct (Hfail2 Hfail) as (before & r & -> & Hbefore & Hr).
        exists (new1 ++ before), r. split_and!; [by rewrite app_assoc| |done].
        apply Forall_app. split; [by apply Hok1|done].
    + exists new1. split_and!; [done|by intros _; apply Hok1|done].
  - by apply halting_checked.
Qed.

Lemma halting_install_app : halting install_app.
Proof.
  intros s. unfold install_app, checked, unchecked, run_tool.
  destruct (runProcess adb install_args (world s)) as [code1 w1]. cbn [world runs manifest zipped].
  destruct (code1 =? 0)%Z.
  { exists [ToolRun InstallApp adb install_args code1].
    split_and!; [done| |done]. intros _. by repeat constructor. }
  destruct (runProcess adb uninstall_args w1) as [code2 w2]. cbn [world runs manifest zipped].
  destruct (code2 =? 0)%Z.
  - destruct (runProcess adb install_args w2) as [code3 w3]. cbn [fst snd runs].
    exists [ToolRun InstallApp adb install_args code1;
            ToolRun RemoveApp adb uninstall_args code2;
            ToolRun InstallApp adb install_args code3].
    split_and!; [by rewrite <- !app_assoc| |done]. intros _. by repeat constructor.
  - cbn [fst snd runs].
    exists [ToolRun InstallApp adb install_args code1;
            ToolRun RemoveApp adb uninstall_args code2].
    split_and!; [by rewrite <- !app_assoc| |done]. intros _. by repeat constructor.
Qed.

Lemma reports_checked (t : step) (command : string) (args : list string) :
  reports t (checked t command args).
Proof.
  intros s new. unfold checked, run_tool.
  destruct (runProcess command args (world s)) as [code w]. cbn [fst snd runs].
  intros Hcode%Z.eqb_eq Hruns. apply app_inv_head in Hruns as <-.
  exists (ToolRun t command args code). split; [left|done].
Qed.

Lemma reports_and_then (t : step) (p q : phase) :
  halting p -> halting q -> reports t p \/ reports t q ->
  reports t (and_then p q).
Proof.
  intros Hp Hq Hreports s new. rewrite and_then_run.
  destruct (Hp s) as (new1 & Hruns1 & _).
  destruct (fst (p s)) eqn:Hok1; [|done].
  destruct (Hq (snd (p s))) as (new2 & Hruns2 & _).
  intros Hok2 Hruns. rewrite Hruns2, Hruns1, <- app_assoc in Hruns.
  apply app_inv_head in Hruns as <-.
  destruct Hreports as [Hrep|Hrep].
  - destruct (Hrep s new1 Hok1 Hruns1) as (r & Hr & Hs).
    exists r. split; [|done]. apply elem_of_app. by left.
  - destruct (Hrep (snd (p s)) new2 Hok2 Hruns2) as (r & Hr & Hs).
    exists r. split; [|done]. apply elem_of_app. by right.
Qed.

Lemma halting_generate_resources : halting generate_resources.
Proof.
  apply halting_and_then; [by apply halting_always|by apply halting_checked].
Qed.

Lemma halting_launch_app : halting launch_app.
Proof.
  unfold launch_app. destruct run_app; [by apply halting_checked|].
  by apply halting_always.
Qed.

Lemma halting_fill_archive : halting fill_archive.
Proof.
  intros s. destruct (fill_archive_only s) as (_ & _ & Hruns & _).
  exists []. rewrite app_nil_r.
  split_and!; [done|by constructor|]. by unfold fill_archive, always.
Qed.

Lemma halting_before_translate : halting before_translate.
Proof.
  unfold before_translate.
  apply halting_and_then; [by apply halting_always|].
  apply halting_and_then; [by apply halting_always|].
  apply halting_and_then; [apply halting_generate_key|].
  apply halting_and_then; [apply halting_generate_resources|].
  apply halting_and_then; [apply halting_compile_java|by apply halting_always].
Qed.

Lemma halting_deploy : halting (and_then install_app launch_app).
Proof.
  apply halting_and_then; [apply halting_install_app|apply halting_launch_app].
Qed.

Lemma halting_sign_and_deploy :
  halting (and_then sign_apk
             (and_then (unchecked StopApp adb stop_args)
                       (and_then install_app launch_app))).
Proof.
  apply halting_and_then; [by apply halting_checked|].
  apply halting_and_then; [by apply halting_unchecked|apply halting_deploy].
Qed.

Lemma halting_after_translate : halting after_translate.
Proof.
  unfold after_translate.
  apply halting_and_then; [by apply halting_checked|].
  apply halting_and_then; [apply halting_fill_archive|].
  apply halting_sign_and_deploy.
Qed.

Lemma halting_from_translate : halting (and_then translate after_translate).
Proof.
  apply halting_and_then; [apply halting_translate|apply halting_after_translate].
Qed.

Lemma reports_generate_resources :
  reports GenerateResources android_compile_java_native.
Proof.
  apply reports_and_then;
    [apply halting_before_translate|apply halting_from_translate|left].
  unfold before_translate.
  apply reports_and_then; [by apply halting_always| |right].
  { apply halting_and_then; [by apply halting_always|].
    apply halting_and_then; [apply halting_generate_key|].
    apply halting_and_then; [apply halting_generate_resources|].
    apply halting_and_then; [apply halting_compile_java|by apply halting_always]. }
  apply reports_and_then; [by apply halting_always| |right].
  { apply halting_and_then; [apply halting_generate_key|].
    apply halting_and_then; [apply halting_generate_resources|].
    apply halting_and_then; [apply halting_compile_java|by apply halting_always]. }
  apply reports_and_then; [apply halting_generate_key| |right].
  { apply halting_and_then; [apply halting_generate_resources|].
    apply halting_and_then; [apply halting_compile_java|by apply halting_always]. }
  apply reports_and_then; [apply halting_generate_resources| |left].
  { apply halting_and_then; [apply halting_compile_java|by apply halting_always]. }
  apply reports_and_then; [by apply halting_always|by apply halting_checked|right].
  apply reports_checked.
Qed.

Lemma reports_make_apk : reports MakeApk android_compile_java_native.
Proof.
  apply reports_and_then;
    [apply halting_before_translate|apply halting_from_translate|right].
  apply reports_and_then;
    [apply halting_translate|apply halting_after_translate|right].
  unfold after_translate.
  apply reports_and_then; [by apply halting_checked| |left; apply reports_checked].
  apply halting_and_then; [apply halting_fill_archive|apply halting_sign_and_deploy].
Qed.

Lemma reports_sign_apk : reports SignApk android_compile_java_native.
Proof.
  apply reports_and_then;
    [apply halting_before_translate|apply halting_from_translate|right].
  apply reports_and_then;
    [apply halting_translate|apply halting_after_translate|right].
  unfold after_translate.
  apply reports_and_then; [by apply halting_checked| |right].
  { apply halting_and_then; [apply halting_fill_archive|apply halting_sign_and_deploy]. }
  apply reports_and_then;
    [apply halting_fill_archive|apply halting_sign_and_deploy|right].
  apply reports_and_then; [by apply halting_checked| |left; apply reports_checked].
  apply halting_and_then; [by apply halting_unchecked|apply halting_deploy].
Qed.

(** X9: The function returns false exactly on a fatal failure and stops there:
    when it returns false, the last tool it ran is a failed keytool, aapt,
    javac, dx, apksigner or adb start, and no fatal failure came before;
    when it returns true, none of these failed (a failure of d8, of the
    stop, of an install or of the uninstall does not count), and the new
    resource bindings, the package and the signature were each made by a
    run that ended with code 0. *)
Theorem android_compile_java_native_halts s :
  let result := android_compile_java_native s in
  exists new,
    runs (snd result) = runs s ++ new /\
    (fst result = true ->
     Forall (fun r => fatal_failure r = false) new /\
     forall t, t ∈ [GenerateResources; MakeApk; SignApk] ->
               exists r, r ∈ new /\ succeeded t r) /\
    (fst result = false ->
     exists before r, new = before ++ [r] /\
       Forall (fun r => fatal_failure r = false) before /\
       fatal_failure r = true).
Proof.
  intros result. subst result.
  assert (Hhalt : halting android_compile_java_native).
  { apply halting_and_then;
      [apply halting_before_translate|apply halting_from_translate]. }
  destruct (Hhalt s) as (new & Hruns & Hok & Hfail).
  exists new. split_and!; [done| |done].
  intros Hresult. split; [by apply Hok|].
  intros t Ht. rewrite !elem_of_cons in Ht.
  destruct Ht as [->|[->|[->|Ht]]].
  - by apply (reports_generate_resources s new).
  - by apply (reports_make_apk s new).
  - by apply (reports_sign_apk s new).
  - by apply not_elem_of_nil in Ht.
Qed.

End Packaging.

(** C8, as stated, fails: the manifest that the template gives for [game]
    has the identity asked for, and a run over a resource tree without the
    launcher icon rewrites its icon attribute. *)
Lemma manifest_untouched_claim_fails :
  ~ manifest_untouched_claim unit quiet_run every_path every_path epoch_mtime
      no_files empty_resources no_change no_change
      "/repo/projects/game" "game" "com.djokersoft.game" "game"
      "android.app.NativeActivity" 0 false "/sdk" "/sdk/aapt" "/sdk/dx" "/sdk/d8"
      "/sdk/apksigner" "/sdk/android.jar" "/jdk/bin/keytool"
      NATIVE_MANIFEST_TEMPLATE
      (PState unit (Text game_manifest) tt [] []) game_manifest.
Proof.
  intros Hclaim.
  assert (Hsame :
    manifest unit
      (snd (android_compile_java_native unit quiet_run every_path every_path
              epoch_mtime no_files empty_resources no_change no_change
              "/repo/projects/game" "game" "com.djokersoft.game" "game"
              "android.app.NativeActivity" 0 false "/sdk" "/sdk/aapt" "/sdk/dx"
              "/sdk/d8" "/sdk/apksigner" "/sdk/android.jar" "/jdk/bin/keytool"
              NATIVE_MANIFEST_TEMPLATE
              (PState unit (Text game_manifest) tt [] [])))
    = Text game_manifest).
  { apply Hclaim; vm_compute; reflexivity. }
  apply (f_equal (fun f => match f with
                           | Text content => String.eqb content game_manifest
                           | _ => false
                           end)) in Hsame.
  vm_compute in Hsame. discriminate Hsame.
Qed.

(** Line ends: the file is read with every line end as a line feed. A
    manifest with other line ends that has the identity asked for is left
    as it is when its icon is found, and is written with line feeds when
    its icon is replaced. *)
Example universal_newlines_read :
  Py.universal_newlines ("a" +:+ cr +:+ nl +:+ "b" +:+ cr +:+ "c" +:+ nl)
  = "a" +:+ nl +:+ "b" +:+ nl +:+ "c" +:+ nl.
Proof. vm_compute. reflexivity. Qed.

Example crlf_manifest_kept :
  manifest_step 0 NATIVE_MANIFEST_TEMPLATE "com.djokersoft.game" "game"
                "android.app.NativeActivity" "game" (Text crlf_manifest)
                res_with_icon
  = Text crlf_manifest.
Proof. vm_compute. reflexivity. Qed.

Example crlf_manifest_patched :
  manifest_step 0 NATIVE_MANIFEST_TEMPLATE "com.djokersoft.game" "game"
                "android.app.NativeActivity" "game" (Text crlf_manifest)
                res_without_icon
  = Text (Py.replace template_icon icon_fallback game_manifest).
Proof. vm_compute. reflexivity. Qed.


(** The package that is looked for in the manifest is the sanitized one: a
    manifest with the package [game], the activity and the library that the
    caller asks for is written again, with the fallback package, although
    its icon is found. *)
Lemma manifest_compared_with_sanitized_package :
  ~ manifest_untouched_claim unit quiet_run every_path every_path epoch_mtime
      no_files icon_resources no_change no_change
      "/repo/projects/game" "game" "game" "game"
      "android.app.NativeActivity" 0 false "/sdk" "/sdk/aapt" "/sdk/dx" "/sdk/d8"
      "/sdk/apksigner" "/sdk/android.jar" "/jdk/bin/keytool"
      NATIVE_MANIFEST_TEMPLATE
      (PState unit (Text short_package_manifest) tt [] []) short_package_manifest.
Proof.
  intros Hclaim.
  assert (Hsame :
    manifest unit
      (snd (android_compile_java_native unit quiet_run every_path every_path
              epoch_mtime no_files icon_resources no_change no_change
              "/repo/projects/game" "game" "game" "game"
              "android.app.NativeActivity" 0 false "/sdk" "/sdk/aapt" "/sdk/dx"
              "/sdk/d8" "/sdk/apksigner" "/sdk/android.jar" "/jdk/bin/keytool"
              NATIVE_MANIFEST_TEMPLATE
              (PState unit (Text short_package_manifest) tt [] [])))
    = Text short_package_manifest).
  { apply Hclaim; vm_compute; reflexivity. }
  apply (f_equal (fun f => match f with
                           | Text content => String.eqb content game_manifest
                           | _ => false
                           end)) in Hsame.
  vm_compute in Hsame. discriminate Hsame.
Qed.

Lemma manifest_kept_when_matching_witness :
  manifest unit
    (snd (android_compile_java_native unit quiet_run every_path every_path
            epoch_mtime no_files icon_resources no_change no_change
            "/repo/projects/game" "game" "com.djokersoft.game" "game"
            "android.app.NativeActivity" 0 false "/sdk" "/sdk/aapt" "/sdk/dx"
            "/sdk/d8" "/sdk/apksigner" "/sdk/android.jar" "/jdk/bin/keytool"
            NATIVE_MANIFEST_TEMPLATE
            (PState unit (Text game_manifest) tt [] [])))
  = Text game_manifest.
Proof.
  destruct (manifest_kept_when_matching unit quiet_run every_path every_path
              epoch_mtime no_files icon_resources no_change no_change
              "/repo/projects/game" "game" "com.djokersoft.game" "game"
              "android.app.NativeActivity" 0 false "/sdk" "/sdk/aapt" "/sdk/dx"
              "/sdk/d8" "/sdk/apksigner" "/sdk/android.jar" "/jdk/bin/keytool"
              NATIVE_MANIFEST_TEMPLATE
              (PState unit (Text game_manifest) tt [] []) game_manifest)
    as (_ & _ & _ & Hicon); [vm_compute; reflexivity..|].
  edestruct Hicon as (_ & Hfound & _); [vm_compute; reflexivity|].
  apply Hfound. vm_compute. reflexivity.
Defined.



(** There the purge removes the translated class of the earlier build, and
    the archive gets the native library and the asset only. *)
Example purged_build_packs_no_dex :
  zipped (list string)
    (snd (android_compile_java_native (list string) quiet_tool listed listed
            (fun _ _ => 0%Q) listed_files (fun _ _ => Some []) (fun _ w => w)
            delete_file
            "/repo/projects/game" "game" "com.djokersoft.game" "game"
            "android.app.NativeActivity" 0 false "/sdk" "/sdk/aapt" "/sdk/dx"
            "/sdk/d8" "/sdk/apksigner" "/sdk/android.jar" "/jdk/bin/keytool"
            NATIVE_MANIFEST_TEMPLATE
            (PState (list string) Missing stale_build [] [])))
  = [("/repo/projects/game/Android/arm64-v8a/libgame.so", "lib/arm64-v8a/libgame.so");
     ("/repo/projects/game/assets/logo.png", "assets/assets/logo.png")].
Proof. vm_compute. reflexivity. Qed.




(** ** Resolver *)

Section Resolver.
Variable all_modules : registry.
Local Abbreviation E := (edge all_modules).
Local Abbreviation Inv := (resolver_inv all_modules).
Local Abbreviation room := (room all_modules).

Lemma appears_before_app (l l' : list string) x y :
  appears_before l x y -> appears_before (l ++ l') x y.
Proof.
  intros (i & j & Hi & Hj & Hlt). exists i, j.
  split_and!; [by apply lookup_app_l_Some..|done].
Qed.

Lemma appears_before_snoc (l : list string) x y :
  x ∈ l -> appears_before (l ++ [y]) x y.
Proof.
  intros (i & Hi)%list_elem_of_lookup. exists i, (length l).
  split_and!.
  - by apply lookup_app_l_Some.
  - by rewrite list_lookup_middle.
  - by eapply lookup_lt_Some.
Qed.

Lemma inv_initial : Inv initial_visit_state.
Proof.
  split; simpl.
  - constructor.
  - intros x. set_solver.
  - set_solver.
  - intros m d Hm. by apply not_elem_of_nil in Hm.
  - intros m d Hm. by apply not_elem_of_nil in Hm.
Qed.

Lemma inv_trace_line line st : Inv st -> Inv (trace_line line st).
Proof. intros [? ? ? ? ?]. by split. Qed.

Lemma inv_push_stack name st :
  Inv st -> name ∉ visited st -> Inv (push_stack name st).
Proof.
  intros [Hnd Hv Hdis Hcl Hbe] Hname. split; simpl; try done.
  - intros x [->%elem_of_singleton|Hx]%elem_of_union; auto.
  - intros m d Hm He. destruct (Hcl m d Hm He); set_solver.
Qed.

Lemma inv_finish name module st :
  Inv st ->
  all_modules !! name = Some module ->
  name ∈ stack st ->
  (forall s, s ∈ stack st -> s ≠ name -> tc E s name) ->
  (forall dep d, dep ∈ ModuleSpec.depends module ->
     followed name dep = Some d -> is_Some (all_modules !! d) ->
     d ∈ visited st \/ d ∈ stack st) ->
  Inv (finished name st).
Proof.
  intros [Hnd Hv Hdis Hcl Hbe] Hmod Hin Hanc Hdeps.
  assert (Hfresh : name ∉ order st).
  { intros Ho. apply (Hdis name Hin). by apply Hv. }
  assert (Hedge : forall d, E name d -> d ≠ name /\ (d ∈ visited st \/ d ∈ stack st)).
  { intros d (module' & dep & Hm' & Hdep & Hf & Hreg).
    rewrite Hmod in Hm'. injection Hm' as <-. split; [|by eauto].
    unfold followed in Hf. destruct (Py.is_empty _); [done|].
    simpl in Hf. case_bool_decide; [done|]. by injection Hf as <-. }
  split; simpl.
  - apply NoDup_app. split_and!; [done| |apply NoDup_singleton].
    intros x Hx ->%list_elem_of_singleton. done.
  - intros x. rewrite elem_of_union, elem_of_singleton, elem_of_app,
      list_elem_of_singleton, Hv. tauto.
  - intros x [Hx Hne]%elem_of_difference [Hx'|Hx']%elem_of_union.
    + done.
    + by apply (Hdis x).
  - intros m d [Hm| ->%list_elem_of_singleton]%elem_of_app He.
    + destruct (decide (d = name)) as [->|Hne]; [set_solver|].
      destruct (Hcl m d Hm He); set_solver.
    + destruct (Hedge d He) as [Hne [?|?]]; set_solver.
  - intros m d [Hm| ->%list_elem_of_singleton]%elem_of_app He.
    + destruct (Hbe m d Hm He); [left|by right]. by apply appears_before_app.
    + destruct (Hedge d He) as [Hne [Hd|Hd]].
      * left. apply appears_before_snoc. by apply Hv.
      * right. by apply Hanc.
Qed.

Lemma room_push_stack name st :
  is_Some (all_modules !! name) -> name ∉ stack st ->
  (room (push_stack name st) < room st)%nat.
Proof.
  intros Hreg Hout. unfold room; simpl.
  apply subset_size. apply elem_of_dom in Hreg. set_solver.
Qed.

(** The loop over the dependencies of [name], entered with [name] on the
    stack. *)
Lemma visit_loop fuel name module :
  (forall dep_name st,
     Inv st -> ancestors all_modules st dep_name -> (room st < fuel)%nat ->
     exists st', visit all_modules fuel dep_name st = Some st' /\
                 visit_post all_modules dep_name st st') ->
  all_modules !! name = Some module ->
  forall deps st,
    deps ⊆ ModuleSpec.depends module ->
    Inv st -> name ∈ stack st -> (room st < fuel)%nat ->
    (forall s, s ∈ stack st -> s ≠ name -> tc E s name) ->
    exists st',
      for_each (fun dep st =>
                  match followed name dep with
                  | None => Some st
                  | Some dep_name => visit all_modules fuel dep_name st
                  end) deps st = Some st' /\
      Inv st' /\ stack st' = stack st /\
      (exists new, order st' = order st ++ new /\
         forall x, x ∈ new -> rtc E name x) /\
      (forall dep d, dep ∈ deps -> followed name dep = Some d ->
         is_Some (all_modules !! d) -> d ∈ visited st \/ d ∈ visited st' \/ d ∈ stack st').
Proof.
  intros IH Hmod deps. induction deps as [|dep deps IHdeps]; intros st Hsub Hinv Hin Hroom Hanc.
  - exists st. split_and!; try done.
    + exists []. split; [by rewrite app_nil_r|]. intros x Hx. by apply not_elem_of_nil in Hx.
    + intros dep d Hdep. by apply not_elem_of_nil in Hdep.
  - simpl. destruct (followed name dep) as [d|] eqn:Hf.
    + destruct (IH d st Hinv) as (st1 & Hrun & [Hinv1 Hst1 (new1 & Hord1 & Hnew1) Hdone1]); [|done|].
      { intros Hreg s Hs. assert (He : E name d).
        { exists module, dep. split_and!; try done. apply Hsub. left. }
        destruct (decide (s = name)) as [->|Hne]; [by apply tc_once|].
        eapply tc_r; [by apply Hanc|done]. }
      rewrite Hrun.
      destruct (IHdeps st1) as (st2 & Hloop & Hinv2 & Hst2 & (new2 & Hord2 & Hnew2) & Hdeps2).
      { intros x Hx. apply Hsub. by right. }
      { done. } { by rewrite Hst1. } { unfold room in *. by rewrite Hst1. }
      { intros s Hs. apply Hanc. by rewrite <- Hst1. }
      exists st2. split_and!; try done.
      * by rewrite Hst2.
      * exists (new1 ++ new2). split; [by rewrite Hord2, Hord1, app_assoc|].
        intros x [Hx|Hx]%elem_of_app; [|by apply Hnew2].
        destruct (Hnew1 x Hx) as [Hreg Hrtc].
        eapply rtc_l; [|done]. exists module, dep. split_and!; try done. apply Hsub. left.
      * intros dep' d' [->|Hdep']%elem_of_cons Hf' Hreg'.
        -- rewrite Hf in Hf'. injection Hf' as <-.
           destruct (Hdone1 Hreg') as [Hv|Hs].
           ++ right. left. apply (inv_visited _ _ Hinv2). rewrite Hord2.
              apply elem_of_app. left. by apply (inv_visited _ _ Hinv1).
           ++ right. right. by rewrite Hst2.
        -- destruct (Hdeps2 dep' d' Hdep' Hf' Hreg') as [Hv|[Hv|Hs]]; [|by auto..].
           right. left. apply (inv_visited _ _ Hinv2). rewrite Hord2.
           apply elem_of_app. left. by apply (inv_visited _ _ Hinv1).
    + destruct (IHdeps st) as (st2 & Hloop & Hinv2 & Hst2 & Hnew2 & Hdeps2); try done.
      { intros x Hx. apply Hsub. by right. }
      exists st2. split_and!; try done.
      intros dep' d' [->|Hdep']%elem_of_cons Hf' Hreg'; [congruence|by eauto].
Qed.

(** [visit] returns whenever the fuel exceeds the room left, and its result
    satisfies [visit_post]. *)
Lemma visit_spec fuel : forall name st,
  Inv st -> ancestors all_modules st name -> (room st < fuel)%nat ->
  exists st', visit all_modules fuel name st = Some st' /\
              visit_post all_modules name st st'.
Proof.
  induction fuel as [|fuel IH]; intros name st Hinv Hanc Hroom; [lia|].
  simpl. destruct (decide (name ∈ visited st)) as [Hv|Hv].
  { exists st. split; [done|]. split; try done; [|by auto].
    exists []. split; [by rewrite app_nil_r|]. intros x Hx. by apply not_elem_of_nil in Hx. }
  destruct (decide (name ∈ stack st)) as [Hs|Hs].
  { eexists. split; [done|]. split; simpl; try done.
    - by apply inv_trace_line.
    - exists []. split; [by rewrite app_nil_r|]. intros x Hx. by apply not_elem_of_nil in Hx.
    - by auto. }
  destruct (all_modules !! name) as [module|] eqn:Hmod.
  2:{ eexists. split; [done|]. split; simpl; try done.
      - by apply inv_trace_line.
      - exists []. split; [by rewrite app_nil_r|]. intros x Hx. by apply not_elem_of_nil in Hx.
      - rewrite Hmod. by intros [? ?]. }
  assert (Hreg : is_Some (all_modules !! name)) by (by rewrite Hmod).
  destruct (visit_loop fuel name module IH Hmod (ModuleSpec.depends module) (push_stack name st))
    as (st2 & Hloop & Hinv2 & Hst2 & (new & Hord & Hnew) & Hdeps); try done.
  { by apply inv_push_stack. }
  { simpl. set_solver. }
  { pose proof (room_push_stack name st Hreg Hs). lia. }
  { simpl. intros s [->%elem_of_singleton|Hin]%elem_of_union Hne; [done|]. by apply Hanc. }
  rewrite Hloop.
  assert (Hin2 : name ∈ stack st2) by (rewrite Hst2; simpl; set_solver).
  unfold finish. rewrite (decide_True _ _ Hin2).
  eexists. split; [done|].
  split; simpl.
  - apply (inv_finish name module); try done.
    + intros s Hs2 Hne. apply Hanc; [done|]. rewrite Hst2 in Hs2. simpl in Hs2. set_solver.
    + intros dep d Hdep Hf Hregd. destruct (Hdeps dep d Hdep Hf Hregd) as [Hd|[Hd|Hd]]; auto.
      simpl in Hd. left. apply (inv_visited _ _ Hinv2). rewrite Hord. simpl.
      apply elem_of_app. left. by apply (inv_visited _ _ Hinv).
  - rewrite Hst2. simpl. set_solver.
  - exists (new ++ [name]). split; [rewrite Hord; simpl; by rewrite app_assoc|].
    intros x [Hx| ->%list_elem_of_singleton]%elem_of_app; (split; [done|]);
      [by apply Hnew|apply rtc_refl].
  - intros _. left. set_solver.
Qed.

Lemma for_each_mono {A S : Type} (body1 body2 : A -> S -> option S) :
  (forall x s s', body1 x s = Some s' -> body2 x s = Some s') ->
  forall items s s',
    for_each body1 items s = Some s' -> for_each body2 items s = Some s'.
Proof.
  intros Hle items. induction items as [|x items IHitems]; intros s s' Hrun; [done|].
  simpl in *. destruct (body1 x s) as [s1|] eqn:Hb; [|done].
  rewrite (Hle _ _ _ Hb). by apply IHitems.
Qed.

(** The equation of [visit] at a positive fuel. *)
Lemma visit_S fuel name st :
  visit all_modules (S fuel) name st =
  if decide (name ∈ visited st) then Some st
  else if decide (name ∈ stack st) then
    Some (trace_line ("Warn: circular module dependency detected on " +:+ name) st)
  else
    match all_modules !! name with
    | None => Some (trace_line ("Warn: module dependency not found: " +:+ name) st)
    | Some module =>
        match
          for_each
            (fun dep st =>
               match followed name dep with
               | None => Some st
               | Some dep_name => visit all_modules fuel dep_name st
               end)
            (ModuleSpec.depends module) (push_stack name st)
        with
        | Some st' => finish name st'
        | None => None
        end
    end.
Proof. reflexivity. Qed.

(** More fuel does not change an answer. *)
Lemma visit_more_fuel fuel : forall name st st',
  visit all_modules fuel name st = Some st' ->
  visit all_modules (S fuel) name st = Some st'.
Proof.
  induction fuel as [|fuel IH]; intros name st st' Hrun; [done|].
  rewrite visit_S in Hrun. rewrite visit_S.
  destruct (decide (name ∈ visited st)); [done|].
  destruct (decide (name ∈ stack st)); [done|].
  destruct (all_modules !! name) as [module|]; [|done].
  match type of Hrun with
  | match ?loop with _ => _ end = _ => destruct loop as [st1|] eqn:Hloop; [|done]
  end.
  erewrite for_each_mono; [exact Hrun| |exact Hloop].
  intros dep s s' Hb. simpl in Hb. destruct (followed name dep); [|done]. by apply IH.
Qed.

Lemma visit_fuel_le fuel fuel' name st st' :
  (fuel <= fuel')%nat ->
  visit all_modules fuel name st = Some st' ->
  visit all_modules fuel' name st = Some st'.
Proof.
  induction 1 as [|fuel' Hle IH]; [done|]. intros Hrun.
  by apply visit_more_fuel, IH.
Qed.

(** The run from the empty state with the resolver's own fuel. *)
Lemma topological_run_spec module_name :
  exists st,
    topological_run (resolver_fuel all_modules) module_name all_modules = Some st /\
    topological_modules module_name all_modules = order st /\
    visit_post all_modules module_name initial_visit_state st.
Proof.
  destruct (visit_spec (resolver_fuel all_modules) module_name initial_visit_state)
    as (st & Hrun & Hpost).
  - apply inv_initial.
  - intros _ s Hs. simpl in Hs. set_solver.
  - unfold room, resolver_fuel. simpl.
    rewrite difference_empty_L, size_dom. lia.
  - exists st. split_and!; try done.
    unfold topological_modules, topological_run in *. by rewrite Hrun.
Qed.

Lemma rtc_reachable start x :
  is_Some (all_modules !! start) -> rtc E start x ->
  reachable all_modules start x.
Proof.
  intros Hreg. revert x. apply rtc_ind_r.
  - by constructor.
  - intros y z _ Hyz Hy. by econstructor.
Qed.

(** The order of a whole run: duplicate free, exactly the reachable
    modules, and every edge either goes backwards in the order or closes a
    cycle. *)
Lemma topological_modules_spec start :
  let l := topological_modules start all_modules in
  NoDup l /\
  (forall m, m ∈ l <-> reachable all_modules start m) /\
  (forall m d, m ∈ l -> E m d -> appears_before l d m \/ tc E d m).
Proof.
  destruct (topological_run_spec start)
    as (st & Hrun & -> & [Hinv Hst (new & Hord & Hnew) Hdone]).
  simpl in *. destruct Hinv as [Hnd Hv Hdis Hcl Hbe].
  assert (Hclosed : forall m d, m ∈ order st -> E m d -> d ∈ order st).
  { intros m d Hm He. destruct (Hcl m d Hm He) as [Hd|Hd]; [by apply Hv|].
    rewrite Hst in Hd. set_solver. }
  split_and!; [done| |done].
  intros m. split.
  - rewrite Hord. intros Hm. destruct (Hnew m Hm). by apply rtc_reachable.
  - induction 1 as [Hreg|m d Hm IH He].
    + destruct (Hdone Hreg) as [Hd|Hd]; [by apply Hv|].
      rewrite Hst in Hd. set_solver.
    + by eapply Hclosed.
Qed.

End Resolver.

(** C1, as stated, fails on the two-module cycle: the order from [A] is
    [B; A], where [B] precedes its dependency [A] although [A] is in the
    order. *)
Lemma resolver_order_claim_fails_on_cycle :
  ~ resolver_order_claim cycle_registry "A".
Proof.
  intros (_ & _ & Hafter).
  destruct (Hafter "B" "A") as (i & j & Hi & Hj & Hlt).
  - vm_compute. apply list_elem_of_In. simpl. auto.
  - vm_compute. apply list_elem_of_In. simpl. auto.
  - exists (plain_module "B" ["A"]), "A". split_and!.
    + reflexivity.
    + simpl. apply list_elem_of_In. simpl. auto.
    + reflexivity.
    + by eexists.
  - change (topological_modules "A" cycle_registry) with ["B"; "A"] in Hi, Hj.
    destruct j as [|[|j]]; simpl in Hj; try discriminate. lia.
Qed.

(** C1 (amended): for every registry and start, the order has no duplicates,
    holds exactly the registered modules reachable from the start, and every
    module in it comes strictly after each of its registered dependencies,
    except a dependency from which the module is itself reachable (an edge
    that closes a cycle). *)
Theorem topological_modules_order (all_modules : registry) (start : string) :
  let l := topological_modules start all_modules in
  NoDup l /\
  (forall m, m ∈ l <-> reachable all_modules start m) /\
  (forall m d, m ∈ l -> edge all_modules m d ->
     d ∈ l /\ (appears_before l d m \/ tc (edge all_modules) d m)).
Proof.
  destruct (topological_modules_spec all_modules start) as (Hnd & Hreach & Hbefore).
  split_and!; [done..|].
  intros m d Hm He. split; [|by apply Hbefore].
  apply Hreach. econstructor; [|done]. by apply Hreach.
Qed.

(** C2: with the fuel of the resolver, and with any larger one, the run
    ends with a state, neither out of fuel nor by a raised error; and on a
    registry where [a] depends on [b] and [b] on [a], the order from [a]
    holds both, without duplicates. *)
Theorem topological_modules_terminates (all_modules : registry) :
  (forall start, exists st,
     topological_modules start all_modules = order st /\
     forall fuel, (resolver_fuel all_modules <= fuel)%nat ->
       topological_run fuel start all_modules = Some st) /\
  (forall a b, edge all_modules a b -> edge all_modules b a ->
     let l := topological_modules a all_modules in
     a ∈ l /\ b ∈ l /\ NoDup l).
Proof.
  split.
  - intros start. destruct (topological_run_spec all_modules start) as (st & Hrun & Hl & _).
    exists st. split; [done|]. intros fuel Hle.
    by apply (visit_fuel_le all_modules _ fuel) in Hrun.
  - intros a b Hab Hba.
    destruct (topological_modules_spec all_modules a) as (Hnd & Hreach & _).
    assert (Ha : reachable all_modules a a).
    { constructor. destruct Hab as (module & _ & -> & _). by eexists. }
    split_and!; [by apply Hreach| |done].
    apply Hreach. by econstructor.
Qed.

Lemma topological_modules_terminates_witness :
  let l := topological_modules "A" cycle_registry in
  "A" ∈ l /\ "B" ∈ l /\ NoDup l.
Proof.
  apply (proj2 (topological_modules_terminates cycle_registry) "A" "B").
  - exists (plain_module "A" ["B"]), "B". split_and!.
    + reflexivity.
    + apply list_elem_of_In. simpl. auto.
    + reflexivity.
    + by eexists.
  - exists (plain_module "B" ["A"]), "A". split_and!.
    + reflexivity.
    + apply list_elem_of_In. simpl. auto.
    + reflexivity.
    + by eexists.
Defined.

(** ** Desktop mode filter *)

Lemma compile_flag_kept_spec (flag value : string) :
  compile_flag_kept flag = Some value ->
  value = Py.strip flag /\
  (value ∉ ["-DDEBUG"; "-DNDEBUG"; "-s"]) /\
  Py.startswith value "-O" = false /\ Py.startswith value "-g" = false.
Proof.
  unfold compile_flag_kept. destruct (Py.is_empty _); [done|].
  case_bool_decide; [done|].
  destruct (Py.startswith (Py.strip flag) "-O") eqn:HO; [done|].
  destruct (Py.startswith (Py.strip flag) "-g") eqn:Hg; [done|].
  by intros [= <-].
Qed.

(** No flag that survives [filter_compile_flags] is one of the mode flags
    that the filter names or matches by prefix. *)
Lemma filter_compile_flags_clean (flags : list string) (value : string) :
  value ∈ filter_compile_flags flags ->
  value ∉ ["-O0"; "-g3"; "-DDEBUG"; "-O2"; "-DNDEBUG"].
Proof.
  intros (flag & _ & Hkept)%list_elem_of_omap.
  destruct (compile_flag_kept_spec _ _ Hkept) as (_ & Hnot & HO & Hg).
  intros Hin. repeat (apply elem_of_cons in Hin as [->|Hin]);
    try discriminate; try (apply Hnot; set_solver).
Qed.

(** C4, as stated, fails: a descriptor that carries
    [-fno-omit-frame-pointer] keeps it in release mode. *)
Lemma desktop_mode_claim_fails :
  ~ desktop_mode_claim ["-fno-omit-frame-pointer"] [].
Proof.
  intros [_ Hrelease].
  destruct (Hrelease "-fno-omit-frame-pointer") as [Hcc _].
  - set_solver.
  - apply Hcc. vm_compute. apply list_elem_of_In. simpl. auto.
Qed.

(** C4 (amended): in debug mode neither compile list holds [-O2] or
    [-DNDEBUG]; in release mode neither holds [-O0], [-g3] or [-DDEBUG];
    [-fno-omit-frame-pointer] is not filtered: in release mode it is in a
    list exactly when a flag of the input list reads so once stripped. *)
Theorem desktop_mode_exclusive (cc_args cpp_args ld_args : list string) :
  (forall flag, flag ∈ release_flags ->
     (flag ∉ cc_of (apply_desktop_mode_to_flags cc_args cpp_args ld_args "debug")) /\
     (flag ∉ cpp_of (apply_desktop_mode_to_flags cc_args cpp_args ld_args "debug"))) /\
  (forall flag, flag ∈ ["-O0"; "-g3"; "-DDEBUG"] ->
     (flag ∉ cc_of (apply_desktop_mode_to_flags cc_args cpp_args ld_args "release")) /\
     (flag ∉ cpp_of (apply_desktop_mode_to_flags cc_args cpp_args ld_args "release"))) /\
  ("-fno-omit-frame-pointer"
     ∈ cc_of (apply_desktop_mode_to_flags cc_args cpp_args ld_args "release") <->
   exists flag, flag ∈ cc_args /\ Py.strip flag = "-fno-omit-frame-pointer").
Proof.
  unfold apply_desktop_mode_to_flags, cc_of, cpp_of. simpl. split_and!.
  - intros flag Hflag. split; intros [Hin|Hin]%elem_of_app.
    + apply filter_compile_flags_clean in Hin. set_solver.
    + unfold release_flags, debug_flags in *. set_solver.
    + apply filter_compile_flags_clean in Hin. set_solver.
    + unfold release_flags, debug_flags in *. set_solver.
  - intros flag Hflag. split; intros [Hin|Hin]%elem_of_app.
    + apply filter_compile_flags_clean in Hin. set_solver.
    + unfold release_flags in *. set_solver.
    + apply filter_compile_flags_clean in Hin. set_solver.
    + unfold release_flags in *. set_solver.
  - split.
    + intros [Hin|Hin]%elem_of_app.
      * apply list_elem_of_omap in Hin as (flag & Hflag & Hkept).
        exists flag. split; [done|].
        by destruct (compile_flag_kept_spec _ _ Hkept) as (-> & _).
      * unfold release_flags in Hin. set_solver.
    + intros (flag & Hflag & Hstrip). apply elem_of_app. left.
      apply list_elem_of_omap. exists flag. split; [done|].
      unfold compile_flag_kept. by rewrite Hstrip.
Qed.

(** ** Web link arguments *)

Lemma keep_longer_not_s (value x : string) :
  value ≠ "-s" -> x ∈ keep_longer 1 value -> x ≠ "-s".
Proof.
  unfold keep_longer. destruct (1 <? String.length value)%nat; [|by intros ? ?%not_elem_of_nil].
  by intros ? ->%list_elem_of_singleton.
Qed.

Lemma joined_setting_not_s (setting : string) :
  (0 <? String.length setting)%nat = true -> "-s" +:+ setting ≠ "-s".
Proof. by destruct setting. Qed.

(** The loop leaves a list without [-s], followed by at most one [-s]. *)
Lemma normalize_ldargs_shape (ldargs : list string) :
  exists body tail,
    normalize_ldargs ldargs = body ++ tail /\ ("-s" ∉ body) /\
    (tail = [] \/ tail = ["-s"]).
Proof.
  cut ((exists body tail, normalize_ldargs ldargs = body ++ tail /\ ("-s" ∉ body) /\
          (tail = [] \/ tail = ["-s"])) /\
       forall arg, exists body tail,
         normalize_ldargs (arg :: ldargs) = body ++ tail /\ ("-s" ∉ body) /\
         (tail = [] \/ tail = ["-s"])); [by intros [? _]|].
  induction ldargs as [|next rest [IHrest IHcons]].
  - split; [exists [], []; split_and!; [done|set_solver|by left]|].
    intros arg. simpl. case_bool_decide as Hs.
    + rewrite Hs. exists [], ["-s"]. split_and!; [done|set_solver|by right].
    + exists (keep_longer 1 (Py.strip arg)), []. split_and!; [done| |by left].
      intros Hin. by eapply keep_longer_not_s.
  - split; [apply IHcons|].
    intros arg. simpl normalize_ldargs at 1.
    case_bool_decide as Hs.
    + destruct IHrest as (body & tail & -> & Hbody & Htail).
      destruct (0 <? String.length (Py.strip next))%nat eqn:Hlen.
      * exists (("-s" +:+ Py.strip next) :: body), tail. split_and!; [done| |done].
        intros [Heq|Hin]%elem_of_cons; [|done].
        by eapply joined_setting_not_s.
      * by exists body, tail.
    + destruct (IHcons next) as (body & tail & Heq & Hbody & Htail).
      exists (keep_longer 1 (Py.strip arg) ++ body), tail.
      split_and!; [|  |done].
      * rewrite <- app_assoc. f_equal. exact Heq.
      * intros [Hin|Hin]%elem_of_app; [|done]. by eapply keep_longer_not_s.
Qed.














(** ** Incremental build decision *)

(** The Android test follows the policy: skip exactly when the object exists,
    no full build is asked for and the source is not newer. *)
Lemma android_decision_policy (full_build : bool) (src_mtime : Q) (obj_mtime : option Q) :
  (full_build = true -> android_decision full_build src_mtime obj_mtime = Recompile) /\
  (obj_mtime = None -> android_decision full_build src_mtime obj_mtime = Recompile) /\
  (forall obj, full_build = false -> obj_mtime = Some obj -> (src_mtime < obj)%Q ->
     android_decision full_build src_mtime obj_mtime = Skip) /\
  (forall obj, obj_mtime = Some obj -> (obj < src_mtime)%Q ->
     android_decision full_build src_mtime obj_mtime = Recompile).
Proof.
  unfold android_decision. split_and!.
  - by intros ->.
  - intros ->. by destruct full_build.
  - intros obj -> -> Hlt. simpl.
    assert (Hle : Qle_bool src_mtime obj = true).
    { apply Qle_bool_iff. by apply Qlt_le_weak. }
    by rewrite Hle.
  - intros obj -> Hlt. destruct full_build; simpl; [done|].
    destruct (Qle_bool src_mtime obj) eqn:Hle; [|done].
    apply Qle_bool_iff in Hle. by apply Qle_not_lt in Hle.
Qed.

(** [desktop_compile] with and without a full build, and without an object. *)
Lemma desktop_decision_forced (utc_offset : Z) (full_build : bool)
    (src_mtime : Q) (obj_mtime : option Q) :
  (full_build = true ->
   desktop_decision utc_offset full_build src_mtime obj_mtime = Recompile) /\
  (obj_mtime = None ->
   desktop_decision utc_offset full_build src_mtime obj_mtime = Recompile).
Proof.
  unfold desktop_decision. split.
  - by intros ->.
  - intros ->. by destruct full_build.
Qed.

(** C3 on [desktop_compile]: the test compares the texts of [time.ctime].
    With a source written on Friday 2 January 1970 and an object written the
    day before, the source is newer and yet the file is skipped, because
    [Fri] sorts before [Thu]; with the two times exchanged the source is
    older and yet the file is compiled again. *)
Theorem desktop_decision_compares_text :
  Ctime.ctime 0 (inject_Z 86400) = "Fri Jan  2 00:00:00 1970" /\
  Ctime.ctime 0 (inject_Z 0) = "Thu Jan  1 00:00:00 1970" /\
  desktop_decision 0 false (inject_Z 86400) (Some (inject_Z 0)) = Skip /\
  android_decision false (inject_Z 86400) (Some (inject_Z 0)) = Recompile /\
  desktop_decision 0 false (inject_Z 0) (Some (inject_Z 86400)) = Recompile /\
  android_decision false (inject_Z 0) (Some (inject_Z 86400)) = Skip.
Proof. vm_compute. by split_and!. Qed.


(** ** Flag composition *)

#[local] Arguments extend_unique : simpl never.
#[local] Arguments append_unique : simpl never.

Lemma append_unique_NoDup (items : list string) (value : string) :
  NoDup items -> NoDup (append_unique items value).
Proof.
  intros Hnd. unfold append_unique.
  destruct (Py.truthy value); simpl; [|done]. case_bool_decide; simpl; [done|].
  apply NoDup_app. split_and!; [done| |apply NoDup_singleton].
  by intros x Hx ->%list_elem_of_singleton.
Qed.

Lemma extend_unique_NoDup (values items : list string) :
  NoDup items -> NoDup (extend_unique items values).
Proof.
  unfold extend_unique. revert items.
  induction values as [|value values IH]; intros items Hnd; [done|].
  cbn [foldl]. by apply IH, append_unique_NoDup.
Qed.

Section CompositionFacts.
Variable joinpath : string -> string -> string.
Variable os_nt : bool.

Lemma add_dependency_flags_NoDup path_exists module target abi all_modules flags dep_name :
  NoDup (cc_of flags) /\ NoDup (cpp_of flags) ->
  let flags' :=
    add_dependency_flags joinpath os_nt path_exists module target abi all_modules
                         flags dep_name in
  NoDup (cc_of flags') /\ NoDup (cpp_of flags').
Proof.
  intros [Hcc Hcpp]. unfold add_dependency_flags.
  destruct (followed _ dep_name) as [name|]; [|done].
  destruct (all_modules !! name) as [dep|]; [|done].
  unfold add_module_include_flags, cc_of, cpp_of. simpl.
  split; by apply extend_unique_NoDup.
Qed.

Lemma dependency_loop_NoDup path_exists module target abi all_modules deps flags :
  NoDup (cc_of flags) /\ NoDup (cpp_of flags) ->
  let flags' :=
    foldl (add_dependency_flags joinpath os_nt path_exists module target abi all_modules)
          flags deps in
  NoDup (cc_of flags') /\ NoDup (cpp_of flags').
Proof.
  revert flags. induction deps as [|dep deps IH]; intros flags Hnd; simpl; [done|].
  by apply IH, add_dependency_flags_NoDup.
Qed.

(** The composition reads the file system through [path_exists] only. *)
Lemma collect_module_build_flags_ext path_exists1 path_exists2
    module target abi all_modules :
  (forall path, path_exists1 path = path_exists2 path) ->
  collect_module_build_flags joinpath os_nt path_exists1 module target abi all_modules =
  collect_module_build_flags joinpath os_nt path_exists2 module target abi all_modules.
Proof.
  intros Hsame. unfold collect_module_build_flags, compose_module_flags.
  destruct (add_module_include_flags _ _ _ _ _ _ _) as [cc_args cpp_args].
  match goal with
  | |- context [foldl _ ?init ?deps] => generalize init; generalize deps
  end.
  intros deps init.
  assert (Hloop :
    foldl (add_dependency_flags joinpath os_nt path_exists1 module target abi all_modules)
          init deps =
    foldl (add_dependency_flags joinpath os_nt path_exists2 module target abi all_modules)
          init deps).
  { revert init. induction deps as [|dep deps IH]; intros init; simpl; [done|].
    rewrite IH. f_equal. unfold add_dependency_flags.
    destruct (followed _ dep) as [name|]; [|done].
    destruct (all_modules !! name) as [d|]; [|done].
    unfold add_module_link_flags. by rewrite Hsame. }
  by rewrite Hloop.
Qed.

End CompositionFacts.

(** C5, as stated, fails: an application over two libraries that both
    declare [-lpthread] gets it twice in its link list. *)
Lemma duplicate_free_claim_fails :
  ~ duplicate_free_claim posix_join false (fun _ => false)
      (linking_module "app" ["net"; "audio"] []) "desktop" 0 threads_registry.
Proof.
  intros (_ & _ & Hld). vm_compute in Hld.
  apply NoDup_cons in Hld as [_ Hld]. apply NoDup_cons in Hld as [Hin _].
  apply Hin. apply list_elem_of_In. simpl. auto.
Qed.

(** ** The Android loops *)

Lemma abi_calls_app (abis1 abis2 : list Z) (calls1 calls2 : list call) :
  abi_calls abis1 calls1 -> abi_calls abis2 calls2 ->
  abi_calls (abis1 ++ abis2) (calls1 ++ calls2).
Proof.
  induction 1; intros Hrest; simpl; [done|..]; constructor; auto.
Qed.

Section OrchestratorFacts.
Variable World : Type.
Variable android_compile :
  string -> string -> list string -> list string -> list string -> Z -> bool ->
  World -> bool * World.
Variable android_build :
  string -> string -> bool -> list string -> Z -> Z -> World -> bool * World.
Variable flags_for : World -> Z -> list string * list string * list string.
Variables (folder_root name : string) (srcs : list string) (use_cpp : bool).
Variables (build_type : Z) (full_build : bool).

Local Abbreviation turn :=
  (android_abi_turn World android_compile android_build flags_for
                    folder_root name srcs use_cpp build_type full_build).

(** One turn adds the calls of its ABI and keeps [ok] only when none fails. *)
Lemma android_abi_turn_calls (st : loop_state World) (abi : Z) :
  exists new,
    loop_calls (turn st abi) = loop_calls st ++ new /\
    abi_calls [abi] new /\
    loop_ok (turn st abi) = loop_ok st && forallb (fun c => negb (failed c)) new.
Proof.
  unfold android_abi_turn.
  destruct (android_compile _ _ _ _ _ _ _ _) as [[|] w]; simpl.
  - destruct (android_build _ _ _ _ _ _ _) as [linked w']; simpl.
    exists [Compiled abi true; Linked abi linked]. split_and!; [done|repeat constructor|].
    destruct linked, (loop_ok st); done.
  - exists [Compiled abi false]. split_and!; [done|repeat constructor|].
    by destruct (loop_ok st).
Qed.

Lemma android_loop_calls (abi_list : list Z) (st : loop_state World) :
  exists new,
    loop_calls (foldl turn st abi_list) = loop_calls st ++ new /\
    abi_calls abi_list new /\
    loop_ok (foldl turn st abi_list)
    = loop_ok st && forallb (fun c => negb (failed c)) new.
Proof.
  revert st. induction abi_list as [|abi abi_list IH]; intros st.
  - exists []. split_and!.
    + by rewrite app_nil_r.
    + apply abi_calls_nil.
    + simpl. by rewrite andb_true_r.
  - cbn [foldl].
    destruct (android_abi_turn_calls st abi) as (new1 & Hc1 & Ha1 & Hok1).
    destruct (IH (turn st abi)) as (new2 & Hc2 & Ha2 & Hok2).
    exists (new1 ++ new2). split_and!.
    + by rewrite Hc2, Hc1, app_assoc.
    + by apply (abi_calls_app [abi]).
    + by rewrite Hok2, Hok1, forallb_app, andb_assoc.
Qed.

End OrchestratorFacts.

(** C7, as stated, fails: with the ABI list [arm7, arm64] and a compiler
    that fails for arm7, arm64 is still compiled and linked. *)
Lemma android_loop_goes_on_after_failure :
  ~ halts_at_failure
      (loop_calls
         (build_module_target_android posix_join false unit (fun _ _ => false)
            arm7_compile_fails link_succeeds
            (plain_module "A" []) ["/repo/modules/A/a.c"] false [0; 1] false ∅ tt)).
Proof.
  intros Hhalts.
  specialize (Hhalts [] (Compiled 0 false) [Compiled 1 true; Linked 1 true]
                     eq_refl eq_refl).
  discriminate Hhalts.
Qed.

(** C7 (amended): during an Android build of one module, every ABI of the
    list is compiled, in the order of the list, whether or not an earlier
    ABI failed; an ABI is linked exactly when its own compile succeeded; and
    the build answers true exactly when no compile and no link failed. *)
Theorem build_module_target_android_calls
    (joinpath : string -> string -> string) (os_nt : bool) (World : Type)
    (path_exists : World -> string -> bool)
    (android_compile :
       string -> string -> list string -> list string -> list string -> Z -> bool ->
       World -> bool * World)
    (android_build :
       string -> string -> bool -> list string -> Z -> Z -> World -> bool * World)
    (module : ModuleSpec.t) (srcs : list string) (use_cpp : bool)
    (abi_list : list Z) (full_build : bool) (all_modules : registry) (w : World) :
  let st :=
    build_module_target_android joinpath os_nt World path_exists
      android_compile android_build module srcs use_cpp abi_list full_build
      all_modules w in
  abi_calls abi_list (loop_calls st) /\
  loop_ok st = forallb (fun c => negb (failed c)) (loop_calls st).
Proof.
  intros st. subst st. unfold build_module_target_android.
  destruct (android_loop_calls World android_compile android_build
              (fun w abi =>
                 collect_module_build_flags joinpath os_nt (path_exists w)
                                            module "android" abi all_modules)
              (ModuleSpec.directory module) (ModuleSpec.name module) srcs use_cpp
              (if ModuleSpec.static module then 2 else 1) full_build abi_list
              (LoopState true w [])) as (new & Hcalls & Habi & Hok).
  simpl in Hcalls, Hok. rewrite Hcalls, Hok. done.
Qed.

(** The loop of [build_project_target] makes its calls in the same way. *)
Lemma build_project_target_android_calls
    (World : Type)
    (android_compile :
       string -> string -> list string -> list string -> list string -> Z -> bool ->
       World -> bool * World)
    (android_build :
       string -> string -> bool -> list string -> Z -> Z -> World -> bool * World)
    (project_flags : World -> Z -> list string * list string * list string)
    (root name : string) (source_files : list string) (use_cpp : bool)
    (abi_list : list Z) (full_build : bool) (w : World) :
  let st :=
    build_project_target_android World android_compile android_build project_flags
      root name source_files use_cpp abi_list full_build w in
  abi_calls abi_list (loop_calls st) /\
  loop_ok st = forallb (fun c => negb (failed c)) (loop_calls st).
Proof.
  intros st. subst st. unfold build_project_target_android.
  destruct (android_loop_calls World android_compile android_build project_flags
              root name source_files use_cpp 0 full_build abi_list
              (LoopState true w [])) as (new & Hcalls & Habi & Hok).
  simpl in Hcalls, Hok. rewrite Hcalls, Hok. done.
Qed.

(** ** Closure of several modules *)

Lemma merge_unique_NoDup (items ordered : list string) :
  NoDup ordered ->
  NoDup (foldl (fun ordered item =>
                  if bool_decide (item ∈ ordered) then ordered else ordered ++ [item])
               ordered items).
Proof.
  revert ordered. induction items as [|item items IH]; intros ordered Hnd; [done|].
  cbn [foldl]. apply IH. case_bool_decide; [done|].
  apply NoDup_app. split_and!; [done| |apply NoDup_singleton].
  by intros x Hx ->%list_elem_of_singleton.
Qed.

(** The closure of a list of requested modules has no duplicates. *)
Lemma closure_for_modules_NoDup (module_names : list string) (all_modules : registry) :
  NoDup (closure_for_modules module_names all_modules).
Proof.
  unfold closure_for_modules.
  assert (Hgen : forall ordered, NoDup ordered ->
    NoDup (foldl
             (fun ordered name =>
                foldl (fun ordered item =>
                         if bool_decide (item ∈ ordered) then ordered
                         else ordered ++ [item])
                      ordered (topological_modules name all_modules))
             ordered module_names)).
  { induction module_names as [|name names IH]; intros ordered Hnd; [done|].
    cbn [foldl]. by apply IH, merge_unique_NoDup. }
  apply Hgen. constructor.
Qed.

(** ** Worked examples *)

Example cycle_order : topological_modules "A" cycle_registry = ["B"; "A"].
Proof. vm_compute. reflexivity. Qed.

Example cycle_closure :
  closure_for_modules ["B"; "A"; "C"] cycle_registry = ["A"; "B"].
Proof. vm_compute. reflexivity. Qed.

Example sanitize_mixed :
  sanitize_android_package_name " my app/9lives..x-y " default_package
  = "myapp.p9lives.xy".
Proof. vm_compute. reflexivity. Qed.

Example sanitize_single_part :
  sanitize_android_package_name "game" default_package = "com.djokersoft.game".
Proof. vm_compute. reflexivity. Qed.

Example release_keeps_frame_pointer :
  apply_desktop_mode_to_flags
    ["-fno-omit-frame-pointer"; "-O0"; " -g "; "-Wall"] [] ["-s"] "release"
  = (["-fno-omit-frame-pointer"; "-Wall"; "-O2"; "-DNDEBUG"],
     ["-O2"; "-DNDEBUG"], ["-s"]).
Proof. vm_compute. reflexivity. Qed.

Example web_pairs_joined :
  normalize_ldargs ["-s"; "USE_GLFW=3"; "-O2"; "-s"] = ["-sUSE_GLFW=3"; "-O2"; "-s"].
Proof. vm_compute. reflexivity. Qed.

(** A [-s] takes the token after it as its setting, whatever that token is:
    the loop reads from left to right, so that of three tokens [-s], [-s],
    [ASYNCIFY=1] the first two are joined. *)
Example web_pair_read_from_the_left :
  normalize_ldargs ["-s"; "-s"; "ASYNCIFY=1"; " -s "; " TOTAL_MEMORY=64MB "; "-g"]
  = ["-s-s"; "ASYNCIFY=1"; "-sTOTAL_MEMORY=64MB"; "-g"].
Proof. vm_compute. reflexivity. Qed.

Example threads_link_flags :
  ld_of (collect_module_build_flags posix_join false (fun _ => false)
           (linking_module "app" ["net"; "audio"] []) "desktop" 0 threads_registry)
  = ["-L/repo/modules/net/Linux"; "-lpthread";
     "-L/repo/modules/audio/Linux"; "-lpthread"].
Proof. vm_compute. reflexivity. Qed.

Example arm7_failure_calls :
  loop_calls
    (build_module_target_android posix_join false unit (fun _ _ => false)
       arm7_compile_fails link_succeeds
       (plain_module "A" []) ["/repo/modules/A/a.c"] false [0; 1] false ∅ tt)
  = [Compiled 0 false; Compiled 1 true; Linked 1 true].
Proof. vm_compute. reflexivity. Qed.

Example native_only_runs :
  List.map run_step
    (runs unit
       (snd (android_compile_java_native unit quiet_run every_path every_path
               epoch_mtime no_files empty_resources no_change no_change
               "/repo/projects/game" "game" "com.djokersoft.game" "game"
               "android.app.NativeActivity" 0 true "/sdk" "/sdk/aapt" "/sdk/dx"
               "/sdk/d8" "/sdk/apksigner" "/sdk/android.jar" "/jdk/bin/keytool"
               NATIVE_MANIFEST_TEMPLATE (PState unit Missing tt [] []))))
  = [GenerateResources; MakeApk; SignApk; StopApp; InstallApp; RunApp].
Proof. vm_compute. reflexivity. Qed.

Example native_only_archive :
  List.map snd
    (zipped unit
       (snd (android_compile_java_native unit quiet_run every_path every_path
               epoch_mtime no_files empty_resources no_change no_change
               "/repo/projects/game" "game" "com.djokersoft.game" "game"
               "android.app.NativeActivity" 0 true "/sdk" "/sdk/aapt" "/sdk/dx"
               "/sdk/d8" "/sdk/apksigner" "/sdk/android.jar" "/jdk/bin/keytool"
               NATIVE_MANIFEST_TEMPLATE (PState unit Missing tt [] []))))
  = ["lib/armeabi-v7a/libgame.so"; "lib/arm64-v8a/libgame.so"].
Proof. vm_compute. reflexivity. Qed.

(** ** More on the resolver *)

Lemma merge_unique_elem (items ordered : list string) (x : string) :
  x ∈ foldl (fun ordered item =>
               if bool_decide (item ∈ ordered) then ordered else ordered ++ [item])
            ordered items
  <-> x ∈ ordered \/ x ∈ items.
Proof.
  revert ordered. induction items as [|item items IH]; intros ordered; cbn [foldl].
  - set_solver.
  - rewrite IH. case_bool_decide; set_solver.
Qed.

Lemma merge_unique_fresh (items ordered : list string) :
  NoDup (ordered ++ items) ->
  foldl (fun ordered item =>
           if bool_decide (item ∈ ordered) then ordered else ordered ++ [item])
        ordered items
  = ordered ++ items.
Proof.
  revert ordered. induction items as [|item items IH]; intros ordered Hnd; cbn [foldl].
  - by rewrite app_nil_r.
  - apply NoDup_app in Hnd as (Hnd1 & Hdis & Hnd2).
    rewrite bool_decide_eq_false_2.
    + rewrite IH; [by rewrite <- app_assoc|].
      rewrite <- app_assoc. apply NoDup_app. split_and!; [done| |done]. done.
    + intros Hin. apply (Hdis item Hin). left.
Qed.

Lemma reachable_registered (all_modules : registry) (start m : string) :
  reachable all_modules start m -> is_Some (all_modules !! m).
Proof. intros [Hstart|m' d _ (module & dep & _ & _ & _ & Hd)]; done. Qed.

Lemma closure_for_modules_elem (module_names : list string) (all_modules : registry)
    (m : string) :
  m ∈ closure_for_modules module_names all_modules <->
  exists name, name ∈ module_names /\ reachable all_modules name m.
Proof.
  unfold closure_for_modules.
  assert (Hgen : forall ordered,
    m ∈ foldl
          (fun ordered name =>
             foldl (fun ordered item =>
                      if bool_decide (item ∈ ordered) then ordered
                      else ordered ++ [item])
                   ordered (topological_modules name all_modules))
          ordered module_names
    <-> m ∈ ordered \/
        exists name, name ∈ module_names /\ reachable all_modules name m).
  { induction module_names as [|name names IH]; intros ordered; cbn [foldl].
    - split; [by left|]. intros [?|(name & Hin & _)]; [done|].
      by apply not_elem_of_nil in Hin.
    - rewrite IH, merge_unique_elem.
      destruct (topological_modules_spec all_modules name) as (_ & Hreach & _).
      rewrite Hreach. split.
      + intros [[?|?]|(n & Hn & Hr)]; [by left| |].
        * right. exists name. split; [left|done].
        * right. exists n. split; [by right|done].
      + intros [?|(n & [->|Hn]%elem_of_cons & Hr)]; [by left; left|by left; right|].
        right. by exists n. }
  rewrite Hgen. split; [|by right]. intros [Hin|?]; [|done].
  by apply not_elem_of_nil in Hin.
Qed.

(** X1: The closure of the requested modules: it has no duplicates, it holds
    exactly the registered modules reachable from one of the requested
    names, and for one requested name it is the order of that name. *)
Theorem closure_for_modules_spec (module_names : list string) (all_modules : registry) :
  NoDup (closure_for_modules module_names all_modules) /\
  (forall m, m ∈ closure_for_modules module_names all_modules <->
             exists name, name ∈ module_names /\ reachable all_modules name m) /\
  (forall name, closure_for_modules [name] all_modules
                = topological_modules name all_modules).
Proof.
  split_and!.
  - apply closure_for_modules_NoDup.
  - intros m. apply closure_for_modules_elem.
  - intros name. unfold closure_for_modules. cbn [foldl].
    apply (merge_unique_fresh _ []). simpl.
    by destruct (topological_modules_spec all_modules name) as (Hnd & _).
Qed.

(** X2: A start that is not registered gives the empty order; a registered
    start is the last module of its order. *)
Theorem topological_modules_start (all_modules : registry) (start : string) :
  (all_modules !! start = None -> topological_modules start all_modules = []) /\
  (is_Some (all_modules !! start) ->
   exists before, topological_modules start all_modules = before ++ [start]).
Proof.
  split.
  - intros Hnone. unfold topological_modules, topological_run, resolver_fuel.
    rewrite visit_S. simpl. by rewrite Hnone.
  - intros [module Hmod].
    destruct (topological_run_spec all_modules start) as (st & Hrun & -> & _).
    unfold topological_run, resolver_fuel in Hrun. rewrite visit_S in Hrun.
    simpl in Hrun. rewrite Hmod in Hrun.
    match type of Hrun with
    | context [decide ?P] => destruct (decide P) as [Hin|_]; [set_solver|]
    end.
    match type of Hrun with
    | match ?loop with _ => _ end = _ => destruct loop as [st'|]; [|done]
    end.
    unfold finish in Hrun. case_decide; [|done]. injection Hrun as <-.
    by exists (order st').
Qed.

Lemma topological_modules_start_witness :
  exists before, topological_modules "A" cycle_registry = before ++ ["A"].
Proof.
  apply (proj2 (topological_modules_start cycle_registry "A")).
  by eexists.
Defined.

(** ** More on flag lists *)

Lemma truthy_nonempty (value : string) : Py.truthy value = true <-> value <> "".
Proof. by destruct value. Qed.

Lemma append_unique_keeps (items : list string) (value x : string) :
  x ∈ items -> x ∈ append_unique items value.
Proof.
  intros Hx. unfold append_unique.
  destruct (Py.truthy value && negb (bool_decide (value ∈ items))); set_solver.
Qed.

Lemma append_unique_present (items : list string) (value : string) :
  value = "" \/ value ∈ items -> append_unique items value = items.
Proof.
  intros [->|Hin]; unfold append_unique; [done|].
  by rewrite (bool_decide_eq_true_2 _ Hin), andb_false_r.
Qed.

Lemma extend_unique_present (values items : list string) :
  (forall v, v ∈ values -> v = "" \/ v ∈ items) ->
  extend_unique items values = items.
Proof.
  unfold extend_unique. induction values as [|value values IH]; intros Hall; [done|].
  cbn [foldl]. rewrite append_unique_present by (apply Hall; left).
  apply IH. intros v Hv. apply Hall. by right.
Qed.

Lemma extend_unique_added (values items : list string) :
  exists added,
    extend_unique items values = items ++ added /\
    forall v, v ∈ added -> v ∈ values /\ (v ∉ items) /\ v <> "".
Proof.
  unfold extend_unique. revert items.
  induction values as [|value values IH]; intros items; cbn [foldl].
  - exists []. split; [by rewrite app_nil_r|]. by intros v ?%not_elem_of_nil.
  - destruct (IH (append_unique items value)) as (added & -> & Hadded).
    unfold append_unique in *.
    destruct (Py.truthy value) eqn:Ht; simpl in *.
    2:{ exists added. split; [done|]. intros v Hv.
        destruct (Hadded v Hv) as (? & ? & ?). split_and!; [by right|done..]. }
    case_bool_decide as Hin; simpl in *.
    + exists added. split; [done|]. intros v Hv.
      destruct (Hadded v Hv) as (? & ? & ?). split_and!; [by right|done..].
    + exists (value :: added). split; [by rewrite <- app_assoc|].
      intros v [->|Hv]%elem_of_cons.
      * split_and!; [left|done|by apply truthy_nonempty].
      * destruct (Hadded v Hv) as (? & Hnot & ?).
        split_and!; [by right| |done]. set_solver.
Qed.

Lemma extend_unique_holds (values items : list string) (v : string) :
  v ∈ values -> v <> "" -> v ∈ extend_unique items values.
Proof.
  unfold extend_unique. revert items.
  induction values as [|value values IH]; intros items Hv Hne; [by apply not_elem_of_nil in Hv|].
  cbn [foldl]. apply elem_of_cons in Hv as [->|Hv]; [|by apply IH].
  assert (Hin : value ∈ append_unique items value).
  { unfold append_unique. apply truthy_nonempty in Hne. rewrite Hne. simpl.
    case_bool_decide; simpl; set_solver. }
  revert Hin. generalize (append_unique items value). clear.
  induction values as [|w values IH]; intros l Hin; [done|].
  cbn [foldl]. by apply IH, append_unique_keeps.
Qed.

(** X3: Adding flags without repetition: the list given is kept as a prefix,
    what is added are the non-empty values that were missing, every
    non-empty value is in the result, a list without duplicates stays so,
    and adding the same values again changes nothing. *)
Theorem extend_unique_spec (items values : list string) :
  let result := extend_unique items values in
  (exists added, result = items ++ added /\
     forall v, v ∈ added -> v ∈ values /\ (v ∉ items) /\ v <> "") /\
  (forall v, v ∈ values -> v <> "" -> v ∈ result) /\
  (NoDup items -> NoDup result) /\
  extend_unique result values = result.
Proof.
  intros result. subst result. split_and!.
  - apply extend_unique_added.
  - intros v. apply extend_unique_holds.
  - apply extend_unique_NoDup.
  - apply extend_unique_present. intros v Hv.
    destruct (decide (v = "")) as [->|Hne]; [by left|right].
    by apply extend_unique_holds.
Qed.

(** ** Stripping twice *)

Lemma lstrip_by_head (p : ascii -> bool) (s : string) :
  match Py.lstrip_by p s with
  | EmptyString => True
  | String c _ => p c = false
  end.
Proof.
  induction s as [|c s IH]; simpl; [done|].
  destruct (p c) eqn:Hc; [done|]. exact Hc.
Qed.

Lemma rstrip_by_cons (p : ascii -> bool) (c : ascii) (s : string) :
  p c = false -> Py.rstrip_by p (String c s) = String c (Py.rstrip_by p s).
Proof. intros Hc. simpl. by rewrite Hc, andb_false_r. Qed.

Lemma rstrip_by_idem (p : ascii -> bool) (s : string) :
  Py.rstrip_by p (Py.rstrip_by p s) = Py.rstrip_by p s.
Proof.
  induction s as [|c s IH]; [done|].
  cbn [Py.rstrip_by]. cbv zeta.
  destruct (Py.is_empty (Py.rstrip_by p s) && p c) eqn:Hcond; [done|].
  cbn [Py.rstrip_by]. cbv zeta. by rewrite IH, Hcond.
Qed.

Lemma strip_by_cons (p : ascii -> bool) (c : ascii) (s : string) :
  p c = false -> Py.strip_by p (String c s) = String c (Py.rstrip_by p s).
Proof.
  intros Hc. unfold Py.strip_by. cbn [Py.lstrip_by]. rewrite Hc.
  by apply rstrip_by_cons.
Qed.

Lemma strip_by_idem (p : ascii -> bool) (s : string) :
  Py.strip_by p (Py.strip_by p s) = Py.strip_by p s.
Proof.
  unfold Py.strip_by at 2 3.
  pose proof (lstrip_by_head p s) as Hhead.
  destruct (Py.lstrip_by p s) as [|c rest]; [done|].
  rewrite (rstrip_by_cons p c rest Hhead), (strip_by_cons p c _ Hhead).
  by rewrite rstrip_by_idem.
Qed.

Lemma strip_idem (s : string) : Py.strip (Py.strip s) = Py.strip s.
Proof. apply strip_by_idem. Qed.

Lemma rstrip_strip (s : string) : Py.rstrip_by Py.isspace (Py.strip s) = Py.strip s.
Proof. apply rstrip_by_idem. Qed.

(** ** The desktop mode filter applied twice *)

Lemma compile_flag_kept_fixed (flag value : string) :
  compile_flag_kept flag = Some value -> compile_flag_kept value = Some value.
Proof.
  unfold compile_flag_kept. cbv zeta.
  remember (Py.strip flag) as stripped eqn:Hs.
  intros Hkept.
  destruct (Py.is_empty stripped) eqn:H1; [done|].
  destruct (bool_decide (stripped ∈ ["-DDEBUG"; "-DNDEBUG"; "-s"])) eqn:H2; [done|].
  destruct (Py.startswith stripped "-O") eqn:H3; [done|].
  destruct (Py.startswith stripped "-g") eqn:H4; [done|].
  injection Hkept as <-.
  rewrite Hs, strip_idem, <- Hs. by rewrite H1, H2, H3, H4.
Qed.

Lemma omap_fixed {A : Type} (f : A -> option A) (l : list A) :
  (forall x y, f x = Some y -> f y = Some y) -> omap f (omap f l) = omap f l.
Proof.
  intros Hf. induction l as [|x l IH]; [done|].
  cbn [omap list_omap]. destruct (f x) as [y|] eqn:Hx; [|done].
  cbn [omap list_omap]. rewrite (Hf x y Hx). by f_equal.
Qed.

Lemma filter_compile_flags_idem (flags : list string) :
  filter_compile_flags (filter_compile_flags flags) = filter_compile_flags flags.
Proof. apply omap_fixed, compile_flag_kept_fixed. Qed.

Lemma link_flag_kept_after (mode mode' : string) (flag value : string) :
  mode = mode' \/ mode <> "debug" ->
  link_flag_kept mode flag = Some value ->
  link_flag_kept mode' value = link_flag_kept mode' flag.
Proof.
  unfold link_flag_kept. cbv zeta.
  remember (Py.strip flag) as stripped eqn:Hs.
  intros Hmode Hkept.
  destruct (Py.is_empty stripped) eqn:H1; [done|].
  destruct (bool_decide (stripped ∈ ["-s"; "-Wl,-s"]) && bool_decide (mode = "debug"))
    eqn:H2; [done|].
  injection Hkept as <-.
  rewrite Hs, strip_idem, <- Hs. by rewrite H1.
Qed.

Lemma link_flag_kept_dropped (mode' : string) (flag : string) :
  link_flag_kept "release" flag = None -> link_flag_kept mode' flag = None.
Proof.
  unfold link_flag_kept. cbv zeta.
  destruct (Py.is_empty (Py.strip flag)); [done|].
  by rewrite (bool_decide_eq_false_2 ("release" = "debug")), andb_false_r.
Qed.

Lemma filter_link_flags_idem (mode : string) (flags : list string) :
  filter_link_flags mode (filter_link_flags mode flags) = filter_link_flags mode flags.
Proof.
  apply omap_fixed. intros flag value Hkept.
  rewrite (link_flag_kept_after mode mode flag value) by auto. exact Hkept.
Qed.

Lemma filter_link_flags_after_release (mode : string) (flags : list string) :
  filter_link_flags mode (filter_link_flags "release" flags)
  = filter_link_flags mode flags.
Proof.
  unfold filter_link_flags. induction flags as [|flag flags IH]; [done|].
  cbn [omap list_omap].
  destruct (link_flag_kept "release" flag) as [value|] eqn:Hkept.
  - cbn [omap list_omap].
    rewrite (link_flag_kept_after "release" mode flag value) by auto.
    by rewrite IH.
  - by rewrite (link_flag_kept_dropped mode flag Hkept).
Qed.

(** X4: Applying the desktop mode filter to lists it has already produced: the
    release filter gives its own output back; the debug filter after the
    release filter gives what the debug filter gives on the original lists;
    the debug filter after itself keeps one more [-fno-omit-frame-pointer]
    in each compile list, before the debug flags. *)
Theorem apply_desktop_mode_to_flags_again (cc_args cpp_args ld_args : list string) :
  let r := apply_desktop_mode_to_flags cc_args cpp_args ld_args "release" in
  let d := apply_desktop_mode_to_flags cc_args cpp_args ld_args "debug" in
  apply_desktop_mode_to_flags (cc_of r) (cpp_of r) (ld_of r) "release" = r /\
  apply_desktop_mode_to_flags (cc_of r) (cpp_of r) (ld_of r) "debug" = d /\
  apply_desktop_mode_to_flags (cc_of d) (cpp_of d) (ld_of d) "debug"
  = (filter_compile_flags cc_args ++ "-fno-omit-frame-pointer" :: debug_flags,
     filter_compile_flags cpp_args ++ "-fno-omit-frame-pointer" :: debug_flags,
     ld_of d).
Proof.
  assert (Hrel : forall flags,
    filter_compile_flags (filter_compile_flags flags ++ release_flags)
    = filter_compile_flags flags).
  { intros flags. unfold filter_compile_flags at 1. rewrite omap_app.
    change (omap compile_flag_kept (filter_compile_flags flags))
      with (filter_compile_flags (filter_compile_flags flags)).
    rewrite filter_compile_flags_idem.
    replace (omap compile_flag_kept release_flags) with (@nil string)
      by (by vm_compute).
    apply app_nil_r. }
  assert (Hdbg : forall flags,
    filter_compile_flags (filter_compile_flags flags ++ debug_flags)
    = filter_compile_flags flags ++ ["-fno-omit-frame-pointer"]).
  { intros flags. unfold filter_compile_flags at 1. rewrite omap_app.
    change (omap compile_flag_kept (filter_compile_flags flags))
      with (filter_compile_flags (filter_compile_flags flags)).
    rewrite filter_compile_flags_idem.
    by replace (omap compile_flag_kept debug_flags)
      with ["-fno-omit-frame-pointer"] by (by vm_compute). }
  intros r d. subst r d. unfold apply_desktop_mode_to_flags.
  rewrite (bool_decide_eq_false_2 ("release" = "debug")) by done.
  rewrite (bool_decide_eq_true_2 ("debug" = "debug")) by done.
  unfold cc_of, cpp_of, ld_of. cbn [fst snd].
  rewrite !Hrel, !Hdbg, !filter_link_flags_idem, filter_link_flags_after_release.
  split_and!; [done..|]. by rewrite <- !app_assoc.
Qed.

(** ** The web link loop applied to its own output *)

Lemma list_pair_ind {A : Type} (P : list A -> Prop) :
  P [] -> (forall a, P [a]) ->
  (forall a b l, P l -> P (b :: l) -> P (a :: b :: l)) ->
  forall l, P l.
Proof.
  intros Hnil Hone Hstep l.
  cut (P l /\ forall a, P (a :: l)); [by intros [? _]|].
  induction l as [|b l [IH1 IH2]]; [by split|].
  split; [apply IH2|]. intros a. by apply Hstep.
Qed.

Lemma keep_longer_token (value t : string) :
  t ∈ keep_longer 1 (Py.strip value) -> web_token t.
Proof.
  unfold keep_longer. destruct (1 <? _)%nat eqn:Hlen; [|by intros ?%not_elem_of_nil].
  intros ->%list_elem_of_singleton. apply Nat.ltb_lt in Hlen.
  split; [lia|apply strip_idem].
Qed.

Lemma joined_setting_token (next : string) :
  (0 <? String.length (Py.strip next))%nat = true ->
  web_token ("-s" +:+ Py.strip next).
Proof.
  intros Hlen. apply Nat.ltb_lt in Hlen.
  change ("-s" +:+ Py.strip next)
    with (String "-" (String "s" (Py.strip next))).
  split; [simpl; lia|].
  unfold Py.strip. rewrite strip_by_cons by done.
  rewrite rstrip_by_cons by done. by rewrite rstrip_strip.
Qed.

Lemma normalize_ldargs_tokens (ldargs : list string) :
  forall t, t ∈ normalize_ldargs ldargs -> web_token t.
Proof.
  induction ldargs as [|arg|arg next rest IH1 IH2] using list_pair_ind; intros t.
  - by intros ?%not_elem_of_nil.
  - simpl. case_bool_decide; rewrite app_nil_r; apply keep_longer_token.
  - simpl normalize_ldargs at 1. case_bool_decide.
    + intros [Hin|Hin]%elem_of_app; [|by apply IH1].
      destruct (0 <? _)%nat eqn:Hlen; [|by apply not_elem_of_nil in Hin].
      apply list_elem_of_singleton in Hin as ->. by apply joined_setting_token.
    + intros [Hin|Hin]%elem_of_app; [by eapply keep_longer_token|by apply IH2].
Qed.

Lemma normalize_ldargs_token_cons (t : string) (rest : list string) :
  web_token t -> t <> "-s" ->
  normalize_ldargs (t :: rest) = t :: normalize_ldargs rest.
Proof.
  intros [Hlen Hstrip] Hs. simpl normalize_ldargs at 1. rewrite Hstrip.
  rewrite bool_decide_eq_false_2 by done.
  unfold keep_longer. by rewrite (proj2 (Nat.ltb_lt _ _)) by lia.
Qed.

(** X5: Every argument that the loop hands on has at least two characters and
    no white space around it, and the loop gives back unchanged a list that
    it has produced. *)
Theorem normalize_ldargs_again (ldargs : list string) :
  (forall t, t ∈ normalize_ldargs ldargs ->
     (2 <= String.length t)%nat /\ Py.strip t = t) /\
  normalize_ldargs (normalize_ldargs ldargs) = normalize_ldargs ldargs.
Proof.
  split; [apply normalize_ldargs_tokens|].
  pose proof (normalize_ldargs_tokens ldargs) as Htok.
  destruct (normalize_ldargs_shape ldargs) as (body & tail & Heq & Hbody & Htail).
  rewrite Heq in Htok |- *. clear Heq.
  induction body as [|t body IH].
  - by destruct Htail as [->| ->].
  - cbn [app]. rewrite normalize_ldargs_token_cons.
    + f_equal. apply IH; [|set_solver]. intros u Hu. apply Htok. by right.
    + apply Htok. left.
    + set_solver.
Qed.

(** ** Package names that are already clean *)

Lemma word_char (c : ascii) :
  Py.is_word c = true ->
  Py.isspace c = false /\ Py.is_dot c = false /\ Ascii.eqb c "." = false /\
  Ascii.eqb c "/" = false /\ Py.isdigit c = Py.is_ascii_digit c.
Proof.
  destruct c as [[] [] [] [] [] [] [] []]; vm_compute; intros Hc;
    split_and!; congruence.
Qed.

Lemma dot_char (c : ascii) :
  Py.is_dot c = true -> Py.isspace c = false /\ Ascii.eqb c "/" = false.
Proof.
  destruct c as [[] [] [] [] [] [] [] []]; vm_compute; intros Hc;
    split_and!; congruence.
Qed.

Lemma all_impl (p q : ascii -> bool) (s : string) :
  (forall c, p c = true -> q c = true) -> Py.all p s = true -> Py.all q s = true.
Proof.
  intros Hpq. induction s as [|c s IH]; simpl; [done|].
  intros [Hc Hs]%andb_true_iff. by rewrite (Hpq c Hc), IH.
Qed.

Lemma all_app (p : ascii -> bool) (a b : string) :
  Py.all p (a +:+ b) = Py.all p a && Py.all p b.
Proof.
  induction a as [|c a IH]; [done|].
  rewrite append_cons. simpl. by rewrite IH, andb_assoc.
Qed.

Lemma filter_all (keep : ascii -> bool) (s : string) :
  Py.all keep s = true -> Py.filter keep s = s.
Proof.
  induction s as [|c s IH]; simpl; [done|].
  intros [Hc Hs]%andb_true_iff. by rewrite Hc, IH.
Qed.

Lemma lstrip_by_none (q : ascii -> bool) (s : string) :
  match s with EmptyString => True | String c _ => q c = false end ->
  Py.lstrip_by q s = s.
Proof. destruct s as [|c s]; simpl; [done|]. by intros ->. Qed.

Lemma rstrip_by_none (q : ascii -> bool) (s : string) :
  Py.all (fun c => negb (q c)) s = true -> Py.rstrip_by q s = s.
Proof.
  induction s as [|c s IH]; simpl; [done|].
  intros [Hc Hs]%andb_true_iff. rewrite IH by done.
  apply negb_true_iff in Hc. by rewrite Hc, andb_false_r.
Qed.

Lemma strip_by_none (q : ascii -> bool) (s : string) :
  Py.all (fun c => negb (q c)) s = true -> Py.strip_by q s = s.
Proof.
  intros Hall. unfold Py.strip_by. rewrite lstrip_by_none.
  - by apply rstrip_by_none.
  - destruct s as [|c s]; [done|]. simpl in Hall.
    apply andb_true_iff in Hall as [Hc _]. by apply negb_true_iff.
Qed.

Lemma is_empty_app (a b : string) :
  Py.is_empty b = false -> Py.is_empty (a +:+ b) = false.
Proof. by destruct a, b. Qed.

Lemma rstrip_by_app (q : ascii -> bool) (a b : string) :
  Py.is_empty (Py.rstrip_by q b) = false ->
  Py.rstrip_by q (a +:+ b) = a +:+ Py.rstrip_by q b.
Proof.
  intros Hb. induction a as [|c a IH]; [done|].
  rewrite !append_cons. cbn [Py.rstrip_by]. cbv zeta.
  by rewrite IH, is_empty_app.
Qed.

Lemma replace_none (s : string) :
  Py.all (fun c => negb (Ascii.eqb c "/")) s = true -> Py.replace "/" "." s = s.
Proof.
  unfold Py.replace. induction s as [|c s IH]; [done|].
  cbn [Py.all]. intros [Hc Hs]%andb_true_iff.
  cbn [Py.replace_go String.prefix].
  destruct (ascii_dec "/" c) as [<-|_]; [done|]. by rewrite IH.
Qed.

Lemma join_cons (sep x y : string) (rest : list string) :
  Py.join sep (x :: y :: rest) = x +:+ sep +:+ Py.join sep (y :: rest).
Proof. reflexivity. Qed.

Lemma valid_segment_word (s : string) : valid_segment s -> Py.all Py.is_word s = true.
Proof. destruct s; [done|]. by intros [_ ?]. Qed.

Lemma valid_segment_nonempty (s : string) : valid_segment s -> Py.is_empty s = false.
Proof. by destruct s. Qed.

Lemma join_nonempty (seg : string) (segs : list string) :
  valid_segment seg -> Py.is_empty (Py.join "." (seg :: segs)) = false.
Proof.
  intros Hseg. destruct seg as [|c seg]; [done|]. by destruct segs.
Qed.

Lemma join_plain (segs : list string) :
  Forall valid_segment segs ->
  Py.all (fun c => Py.is_word c || Py.is_dot c) (Py.join "." segs) = true.
Proof.
  induction segs as [|seg segs IH]; [done|].
  intros [Hseg Hsegs]%Forall_cons.
  assert (Hw : Py.all (fun c => Py.is_word c || Py.is_dot c) seg = true).
  { eapply all_impl; [|by apply valid_segment_word]. by intros c ->. }
  destruct segs as [|seg2 segs]; [done|].
  rewrite join_cons, !all_app, Hw, IH by done. done.
Qed.

Lemma collapse_dots_word (seg rest : string) :
  Py.all Py.is_word seg = true ->
  Py.collapse_dots_go false (seg +:+ rest) = seg +:+ Py.collapse_dots_go false rest.
Proof.
  induction seg as [|c seg IH]; [done|].
  cbn [Py.all]. intros [Hc Hs]%andb_true_iff.
  rewrite !append_cons. cbn [Py.collapse_dots_go].
  destruct (word_char c Hc) as (_ & -> & _). by rewrite IH.
Qed.

Lemma collapse_dots_segment (in_run : bool) (seg rest : string) :
  valid_segment seg ->
  Py.collapse_dots_go in_run (seg +:+ rest)
  = seg +:+ Py.collapse_dots_go false rest.
Proof.
  destruct seg as [|c seg]; [done|]. intros [_ Hall].
  cbn [Py.all] in Hall. apply andb_true_iff in Hall as [Hc Hs].
  rewrite !append_cons. cbn [Py.collapse_dots_go].
  destruct (word_char c Hc) as (_ & -> & _). by rewrite collapse_dots_word.
Qed.

Lemma collapse_dots_join (in_run : bool) (seg : string) (segs : list string) :
  Forall valid_segment (seg :: segs) ->
  Py.collapse_dots_go in_run (Py.join "." (seg :: segs)) = Py.join "." (seg :: segs).
Proof.
  revert in_run seg. induction segs as [|seg2 segs IH]; intros in_run seg.
  - intros [Hseg _]%Forall_cons. change (Py.join "." [seg]) with seg.
    rewrite <- (append_empty_r seg) at 1.
    by rewrite collapse_dots_segment, append_empty_r.
  - intros [Hseg Hsegs]%Forall_cons. rewrite join_cons.
    rewrite collapse_dots_segment by done. f_equal.
    change ("." +:+ Py.join "." (seg2 :: segs))
      with (String "." (Py.join "." (seg2 :: segs))).
    cbn [Py.collapse_dots_go].
    change (Py.is_dot ".") with true. cbv iota. by rewrite IH.
Qed.

Lemma rstrip_dots_join (seg : string) (segs : list string) :
  Forall valid_segment (seg :: segs) ->
  Py.rstrip_by Py.is_dot (Py.join "." (seg :: segs)) = Py.join "." (seg :: segs).
Proof.
  revert seg. induction segs as [|seg2 segs IH]; intros seg.
  - intros [Hseg _]%Forall_cons. apply rstrip_by_none.
    eapply all_impl; [|by apply valid_segment_word].
    intros c Hc. by destruct (word_char c Hc) as (_ & -> & _).
  - intros [Hseg Hsegs]%Forall_cons. rewrite join_cons.
    assert (Hne : Py.is_empty (Py.join "." (seg2 :: segs)) = false).
    { apply join_nonempty. by apply Forall_cons in Hsegs as [? _]. }
    rewrite rstrip_by_app.
    + f_equal. rewrite rstrip_by_app; by rewrite IH.
    + rewrite rstrip_by_app; rewrite IH by done; [|done]. by apply is_empty_app.
Qed.

Lemma strip_dots_join (segs : list string) :
  Forall valid_segment segs ->
  Py.strip_by Py.is_dot (Py.join "." segs) = Py.join "." segs.
Proof.
  destruct segs as [|seg segs]; [done|]. intros Hsegs.
  unfold Py.strip_by. rewrite lstrip_by_none; [by apply rstrip_dots_join|].
  apply Forall_cons in Hsegs as [Hseg _].
  destruct seg as [|c seg]; [done|]. destruct Hseg as [_ Hall].
  cbn [Py.all] in Hall. apply andb_true_iff in Hall as [Hc _].
  destruct (word_char c Hc) as (_ & Hdot & _).
  by destruct segs.
Qed.

Lemma split_word_app (seg rest : string) :
  Py.all Py.is_word seg = true ->
  Py.split "." (seg +:+ String "." rest) = seg :: Py.split "." rest.
Proof.
  induction seg as [|c seg IH]; [done|].
  cbn [Py.all]. intros [Hc Hs]%andb_true_iff.
  rewrite append_cons. cbn [Py.split].
  destruct (word_char c Hc) as (_ & _ & -> & _). by rewrite IH.
Qed.

Lemma split_word (seg : string) :
  Py.all Py.is_word seg = true -> Py.split "." seg = [seg].
Proof.
  induction seg as [|c seg IH]; [done|].
  cbn [Py.all]. intros [Hc Hs]%andb_true_iff. cbn [Py.split].
  destruct (word_char c Hc) as (_ & _ & -> & _). by rewrite IH.
Qed.

Lemma split_join (seg : string) (segs : list string) :
  Forall valid_segment (seg :: segs) ->
  Py.split "." (Py.join "." (seg :: segs)) = seg :: segs.
Proof.
  revert seg. induction segs as [|seg2 segs IH]; intros seg.
  - intros [Hseg _]%Forall_cons. by apply split_word, valid_segment_word.
  - intros [Hseg Hsegs]%Forall_cons. rewrite join_cons.
    change ("." +:+ Py.join "." (seg2 :: segs))
      with (String "." (Py.join "." (seg2 :: segs))).
    rewrite split_word_app by (by apply valid_segment_word). by rewrite IH.
Qed.

Lemma filter_truthy_valid (segs : list string) :
  Forall valid_segment segs -> List.filter Py.truthy segs = segs.
Proof.
  induction 1 as [|seg segs Hseg _ IH]; [done|].
  cbn [List.filter]. unfold Py.truthy at 1.
  by rewrite (valid_segment_nonempty seg Hseg), IH.
Qed.

Lemma clean_part_fixed (seg : string) : valid_segment seg -> clean_part seg = Some seg.
Proof.
  intros Hseg. unfold clean_part.
  rewrite filter_all by (by apply valid_segment_word).
  destruct seg as [|c seg]; [done|]. destruct Hseg as [Hdigit Hall].
  cbn [Py.all] in Hall. apply andb_true_iff in Hall as [Hc _].
  destruct (word_char c Hc) as (_ & _ & _ & _ & ->). by rewrite Hdigit.
Qed.

Lemma clean_parts_fixed (segs : list string) :
  Forall valid_segment segs -> clean_parts segs = segs.
Proof.
  unfold clean_parts. induction 1 as [|seg segs Hseg _ IH]; [done|].
  cbn [omap list_omap]. by rewrite (clean_part_fixed seg Hseg), IH.
Qed.

Lemma sanitize_valid (package_name fallback : string) :
  valid_package package_name ->
  sanitize_android_package_name package_name fallback = package_name.
Proof.
  intros (segs & Hlen & Hsegs & ->).
  pose proof (join_plain segs Hsegs) as Hplain.
  unfold sanitize_android_package_name. cbv zeta.
  unfold Py.strip. rewrite (strip_by_none Py.isspace).
  2:{ eapply all_impl; [|exact Hplain]. intros c [Hc|Hc]%orb_true_iff.
      - by destruct (word_char c Hc) as (-> & _).
      - by destruct (dot_char c Hc) as (-> & _). }
  rewrite replace_none.
  2:{ eapply all_impl; [|exact Hplain]. intros c [Hc|Hc]%orb_true_iff.
      - by destruct (word_char c Hc) as (_ & _ & _ & -> & _).
      - by destruct (dot_char c Hc) as (_ & ->). }
  rewrite filter_all by done.
  destruct segs as [|seg segs]; [simpl in Hlen; lia|].
  unfold Py.collapse_dots. rewrite collapse_dots_join by done.
  rewrite strip_dots_join, split_join by done.
  rewrite filter_truthy_valid, clean_parts_fixed by done.
  by rewrite (proj2 (Nat.ltb_ge _ _)) by lia.
Qed.

(** X6: A package name of the valid shape is returned as it is, whatever the
    fallback; so with a fallback of the valid shape a second pass of the
    sanitizer, as the packaging pipeline makes over the name the command
    line has already sanitized, changes nothing. *)
Theorem sanitize_android_package_name_fixed (package_name fallback other : string) :
  (valid_package package_name ->
   sanitize_android_package_name package_name fallback = package_name) /\
  (valid_package fallback ->
   _sanitize_android_package
     (sanitize_android_package_name package_name fallback) other
   = sanitize_android_package_name package_name fallback).
Proof.
  split; [apply sanitize_valid|].
  intros Hfallback. unfold _sanitize_android_package. apply sanitize_valid.
  destruct (sanitize_shape package_name fallback) as [-> | Hvalid]; done.
Qed.

Lemma sanitize_android_package_name_fixed_witness :
  sanitize_android_package_name "org.example.game" default_package
  = "org.example.game" /\
  _sanitize_android_package
    (sanitize_android_package_name "My Game" default_package) "com.other.app"
  = sanitize_android_package_name "My Game" default_package.
Proof.
  destruct (sanitize_android_package_name_fixed
              "org.example.game" default_package "") as [Hfixed _].
  destruct (sanitize_android_package_name_fixed
              "My Game" default_package "com.other.app") as [_ Hagain].
  split.
  - apply Hfixed. exists ["org"; "example"; "game"].
    split_and!; [simpl; lia| |done]. repeat constructor.
  - apply Hagain. exists ["com"; "djokersoft"; "game"].
    split_and!; [simpl; lia| |done]. repeat constructor.
Defined.

(** ** Targets and ABIs of the command line *)

Lemma append_found_none {A : Type} `{EqDecision A}
    (find : string -> option A) (tokens : list string) (out : list A) :
  append_found find tokens out = None <->
  exists token, token ∈ tokens /\ find token = None.
Proof.
  revert out. induction tokens as [|token rest IH]; intros out; cbn [append_found].
  - split; [done|]. by intros (token & ?%not_elem_of_nil & _).
  - destruct (find token) as [found|] eqn:Hfind.
    + rewrite IH. split.
      * intros (tok & Hin & Hnone). exists tok. split; [by right|done].
      * intros (tok & [->|Hin]%elem_of_cons & Hnone); [congruence|by exists tok].
    + split; [|done]. intros _. exists token. split; [left|done].
Qed.

Lemma append_found_some {A : Type} `{EqDecision A}
    (find : string -> option A) (tokens : list string) (out result : list A) :
  append_found find tokens out = Some result ->
  (NoDup out -> NoDup result) /\
  (forall x, x ∈ result <->
             x ∈ out \/ exists token, token ∈ tokens /\ find token = Some x) /\
  (tokens <> [] -> result <> []).
Proof.
  revert out. induction tokens as [|token rest IH]; intros out; cbn [append_found].
  - intros [= <-]. split_and!; [done| |done].
    intros x. split; [by left|]. intros [?|(token & ?%not_elem_of_nil & _)]; done.
  - destruct (find token) as [found|] eqn:Hfind; [|done].
    intros Hrun. destruct (IH _ Hrun) as (Hnd & Hin & _).
    assert (Hfound : found ∈ result).
    { apply Hin. left. case_bool_decide; [done|]. set_solver. }
    split_and!.
    + intros Hout. apply Hnd. case_bool_decide; [done|].
      apply NoDup_app. split_and!; [done|set_solver|apply NoDup_singleton].
    + intros x. rewrite Hin. split.
      * intros [Hx|(tok & Htok & Hx)].
        -- case_bool_decide; [by left|].
           apply elem_of_app in Hx as [Hx|Hx%list_elem_of_singleton]; [by left|].
           subst x.
           right. exists token. split; [left|done].
        -- right. exists tok. split; [by right|done].
      * intros [Hx|(tok & [->|Htok]%elem_of_cons & Hx)].
        -- left. case_bool_decide; [done|]. set_solver.
        -- left. assert (x = found) as -> by congruence.
           case_bool_decide; [done|]. set_solver.
        -- right. by exists tok.
    + intros _ ->. by apply not_elem_of_nil in Hfound.
Qed.

Lemma normalize_target_canonical (token target : string) :
  normalize_target token = Some target ->
  target ∈ ["desktop"; "android"; "web"] /\ normalize_target target = Some target.
Proof.
  unfold normalize_target at 1, TARGET_ALIASES.
  intros Hin%elem_of_list_to_map_2.
  rewrite !elem_of_cons in Hin.
  destruct Hin as [Hin|[Hin|[Hin|[Hin|[Hin|[Hin|Hin]]]]]];
    try (by apply not_elem_of_nil in Hin);
    injection Hin as _ ->; (split; [set_solver|by vm_compute]).
Qed.

(** X7: The targets of the command line: the call raises exactly when a token
    is no known target; otherwise the list is not empty and has no
    duplicates, it holds the default when no token is given and else the
    targets the tokens stand for, each one of desktop, android and web, and
    each standing for itself. *)
Theorem normalize_targets_spec (tokens : list string) (default_target : string) :
  (normalize_targets tokens default_target = None <->
   exists token, token ∈ tokens /\ normalize_target token = None) /\
  forall out, normalize_targets tokens default_target = Some out ->
    out <> [] /\ NoDup out /\
    (forall t, t ∈ out <->
       (tokens = [] /\ t = default_target) \/
       exists token, token ∈ tokens /\ normalize_target token = Some t) /\
    (tokens <> [] -> forall t, t ∈ out ->
       t ∈ ["desktop"; "android"; "web"] /\ normalize_target t = Some t).
Proof.
  destruct tokens as [|token rest].
  - split.
    + split; [done|]. by intros (token & ?%not_elem_of_nil & _).
    + intros out [= <-]. split_and!; [done|apply NoDup_singleton| |done].
      intros t. rewrite list_elem_of_singleton. split; [by left|].
      intros [[_ ->]|(token & ?%not_elem_of_nil & _)]; done.
  - unfold normalize_targets. split; [apply append_found_none|].
    intros out Hrun.
    destruct (append_found_some _ _ _ _ Hrun) as (Hnd & Hin & Hne).
    assert (Hmem : forall t, t ∈ out ->
              exists tok, tok ∈ token :: rest /\ normalize_target tok = Some t).
    { intros t [?%not_elem_of_nil|?]%Hin; done. }
    split_and!.
    + by apply Hne.
    + apply Hnd, NoDup_nil_2.
    + intros t. split.
      * intros Ht. right. by apply Hmem.
      * intros [[? _]|Ht]; [done|]. apply Hin. by right.
    + intros _ t (tok & _ & Htok)%Hmem. by eapply normalize_target_canonical.
Qed.

Lemma abi_aliases_values (token : string) (abi : Z) :
  abi_aliases !! token = Some abi -> abi = 0 \/ abi = 1.
Proof.
  unfold abi_aliases. intros Hin%elem_of_list_to_map_2.
  rewrite !elem_of_cons in Hin.
  destruct Hin as [Hin|[Hin|[Hin|[Hin|[Hin|[Hin|Hin]]]]]];
    try (by apply not_elem_of_nil in Hin);
    injection Hin as _ ->; auto.
Qed.

(** X8: The ABIs of the command line: the call raises exactly when a token that
    is not blank is no known ABI; with only blank tokens both ABIs are
    built; and a list that is returned is one of the four orders of one or
    two ABIs, so no ABI is built twice and the list is never empty. *)
Theorem normalize_abis_spec (raw : string) :
  (normalize_abis raw = None <->
   exists token, token ∈ requested_abis raw /\ abi_aliases !! token = None) /\
  (requested_abis raw = [] -> normalize_abis raw = Some [0; 1]) /\
  forall abis, normalize_abis raw = Some abis ->
    abis ∈ [[0]; [1]; [0; 1]; [1; 0]].
Proof.
  unfold normalize_abis.
  destruct (requested_abis raw) as [|token rest] eqn:Hreq.
  - split_and!; [|done|].
    + split; [done|]. by intros (token & ?%not_elem_of_nil & _).
    + intros abis [= <-]. set_solver.
  - split_and!; [apply append_found_none|done|].
    intros abis Hrun.
    destruct (append_found_some _ _ _ _ Hrun) as (Hnd & Hin & Hne).
    specialize (Hnd (NoDup_nil_2)). specialize (Hne ltac:(done)).
    assert (Hval : forall abi, abi ∈ abis -> abi = 0 \/ abi = 1).
    { intros abi [?%not_elem_of_nil|(tok & _ & Htok)]%Hin; [done|].
      by eapply abi_aliases_values. }
    destruct abis as [|a [|b [|c abis]]]; [done| | |].
    + destruct (Hval a) as [->| ->]; [left|set_solver|set_solver].
    + apply NoDup_cons in Hnd as [Hab _].
      destruct (Hval a) as [->| ->]; [left|..];
        (destruct (Hval b) as [->| ->]; [right; left|..]); set_solver.
    + apply NoDup_cons in Hnd as [Ha [Hb _]%NoDup_cons].
      destruct (Hval a) as [->| ->]; [left|..];
        (destruct (Hval b) as [->| ->]; [right; left|..]);
        (destruct (Hval c) as [->| ->]; [right; right; left|..]); set_solver.
Qed.

(** ** The manifest that the template gives *)

Lemma template_pieces :
  NATIVE_MANIFEST_TEMPLATE
  = manifest_text template_icon "@apppkg@" "@applbl@" "@appact@" "@appLIBNAME@".
Proof. by vm_compute. Qed.

Lemma mismatch_prefix (pat t rest : string) :
  mismatch pat t = true -> String.prefix pat (t +:+ rest) = false.
Proof.
  revert t. induction pat as [|a pat IH]; intros [|b t]; try done.
  rewrite append_cons. cbn [mismatch String.prefix].
  destruct (ascii_dec a b) as [->|Hne].
  - rewrite Ascii.eqb_refl. apply IH.
  - done.
Qed.

Lemma passes_misses (pat chunk next rest : string) :
  misses pat chunk next = true -> passes pat chunk (next +:+ rest).
Proof.
  induction chunk as [|c chunk IH]; [done|].
  cbn [misses passes]. intros [Hhere Hlater]%andb_true_iff.
  split; [|by apply IH].
  rewrite <- append_assoc. by apply mismatch_prefix.
Qed.

Lemma passes_misses0 (pat chunk rest : string) :
  misses pat chunk "" = true -> passes pat chunk rest.
Proof. apply (passes_misses pat chunk "" rest). Qed.

Lemma guard_prefix (pat s rest : string) :
  guard pat = true -> plain s ->
  String.prefix pat (s +:+ String quote rest) = false.
Proof.
  unfold plain. revert s. induction pat as [|a pat IH]; intros s Hguard Hs; [done|].
  cbn [guard] in Hguard. destruct s as [|b s].
  - change ("" +:+ String quote rest) with (String quote rest).
    cbn [String.prefix].
    destruct (ascii_dec a quote) as [->|_]; [|done].
    by vm_compute in Hguard.
  - rewrite append_cons. cbn [String.prefix].
    cbn [Py.all] in Hs. apply andb_true_iff in Hs as [Hb Hs].
    destruct (ascii_dec a b) as [->|_]; [|done].
    rewrite Hb in Hguard. by apply IH.
Qed.

Lemma passes_plain (pat s next rest : string) :
  guard pat = true -> plain s -> starts_quote next = true ->
  passes pat s (next +:+ rest).
Proof.
  intros Hguard Hs Hnext. destruct next as [|c next]; [done|].
  cbn [starts_quote] in Hnext. apply Ascii.eqb_eq in Hnext as ->.
  rewrite append_cons. generalize (next +:+ rest). clear next rest. intros rest.
  induction s as [|b s IH]; [done|].
  cbn [passes]. split; [by apply guard_prefix|].
  apply IH. unfold plain in *. cbn [Py.all] in Hs.
  by apply andb_true_iff in Hs as [_ Hs].
Qed.

Lemma passes_app (pat chunk1 chunk2 rest : string) :
  passes pat chunk1 (chunk2 +:+ rest) -> passes pat chunk2 rest ->
  passes pat (chunk1 +:+ chunk2) rest.
Proof.
  intros H1 H2. induction chunk1 as [|c chunk1 IH]; [done|].
  rewrite append_cons. cbn [passes] in *. destruct H1 as [Hhere H1].
  split; [by rewrite <- append_cons, append_assoc|by apply IH].
Qed.

(** *** [str.replace] over pieces *)

Lemma replace_passes (old new chunk rest : string) :
  passes old chunk rest ->
  Py.replace_go old new 0 (chunk +:+ rest) = chunk +:+ Py.replace_go old new 0 rest.
Proof.
  induction chunk as [|c chunk IH]; [done|].
  cbn [passes]. intros [Hhere Hlater].
  rewrite append_cons in Hhere. rewrite !append_cons.
  cbn [Py.replace_go]. by rewrite Hhere, IH.
Qed.

Lemma replace_closed (old new chunk : string) :
  misses old chunk "" = true -> Py.replace_go old new 0 chunk = chunk.
Proof.
  intros Hmiss. rewrite <- (append_empty_r chunk) at 1.
  rewrite replace_passes by (by apply passes_misses0).
  by rewrite append_empty_r.
Qed.

Lemma replace_skip (old new s rest : string) :
  Py.replace_go old new (String.length s) (s +:+ rest) = Py.replace_go old new 0 rest.
Proof.
  induction s as [|c s IH]; [by destruct rest|].
  rewrite append_cons. cbn [String.length Py.replace_go]. apply IH.
Qed.

Lemma replace_hit (old new rest : string) :
  old <> "" ->
  Py.replace_go old new 0 (old +:+ rest) = new +:+ Py.replace_go old new 0 rest.
Proof.
  intros Hold. pose proof (prefix_self old rest) as Hpre.
  destruct old as [|c old]; [done|].
  rewrite append_cons in *. cbn [Py.replace_go]. rewrite Hpre.
  cbn [String.length].
  replace (S (String.length old) - 1)%nat with (String.length old) by lia.
  by rewrite replace_skip.
Qed.

Ltac pass_chunk :=
  first
    [ apply passes_misses0; vm_compute; reflexivity
    | apply passes_misses; vm_compute; reflexivity
    | apply passes_plain; [vm_compute; reflexivity | assumption | vm_compute; reflexivity] ].

Ltac replace_pieces :=
  repeat first
    [ rewrite replace_hit by done
    | rewrite replace_closed by (vm_compute; reflexivity)
    | rewrite replace_passes by pass_chunk ].

Lemma build_native_manifest_text (package_name label activity lib_name : string) :
  plain package_name -> plain label -> plain activity ->
  build_native_manifest NATIVE_MANIFEST_TEMPLATE package_name label activity lib_name
  = manifest_text template_icon package_name label activity lib_name.
Proof.
  intros Hpackage Hlabel Hactivity.
  unfold build_native_manifest. cbv zeta. rewrite template_pieces.
  assert (H1 : Py.replace "@apppkg@" package_name
                 (manifest_text template_icon "@apppkg@" "@applbl@" "@appact@"
                                "@appLIBNAME@")
               = manifest_text template_icon package_name "@applbl@" "@appact@"
                               "@appLIBNAME@").
  { unfold manifest_text, Py.replace. replace_pieces. reflexivity. }
  assert (H2 : Py.replace "@applbl@" label
                 (manifest_text template_icon package_name "@applbl@" "@appact@"
                                "@appLIBNAME@")
               = manifest_text template_icon package_name label "@appact@"
                               "@appLIBNAME@").
  { unfold manifest_text, Py.replace. replace_pieces. reflexivity. }
  assert (H3 : Py.replace "@appact@" activity
                 (manifest_text template_icon package_name label "@appact@"
                                "@appLIBNAME@")
               = manifest_text template_icon package_name label activity
                               "@appLIBNAME@").
  { unfold manifest_text, Py.replace. replace_pieces. reflexivity. }
  rewrite H1, H2, H3.
  unfold manifest_text, Py.replace. replace_pieces. reflexivity.
Qed.

(** *** Searches over pieces *)

Lemma search_passes (pre chunk rest : string) :
  passes pre chunk rest ->
  Re.search_quoted pre (chunk +:+ rest) = prepend chunk (Re.search_quoted pre rest).
Proof.
  induction chunk as [|c chunk IH].
  - intros _. change ("" +:+ rest) with rest.
    by destruct (Re.search_quoted pre rest) as [[[before group] after]|].
  - cbn [passes]. intros [Hhere Hlater].
    rewrite append_cons in *. cbn [Re.search_quoted].
    unfold Re.match_quoted_here at 1. rewrite Hhere, IH by done.
    by destruct (Re.search_quoted pre rest) as [[[before group] after]|].
Qed.

Lemma search_found (pre text group rest : string) :
  Re.match_quoted_here pre text = Some (group, rest) ->
  Re.search_quoted pre text = Some (pre, group, rest).
Proof. intros Hhere. destruct text; cbn [Re.search_quoted]; by rewrite Hhere. Qed.

Lemma span_unquoted_group (group next rest : string) :
  unquoted group -> starts_quote next = true ->
  Re.span_unquoted (group +:+ next +:+ rest) = (group, next +:+ rest).
Proof.
  intros Hgroup Hnext. destruct next as [|c next]; [done|].
  cbn [starts_quote] in Hnext. apply Ascii.eqb_eq in Hnext as ->.
  rewrite append_cons. induction group as [|b group IH].
  - change ("" +:+ String quote (next +:+ rest)) with (String quote (next +:+ rest)).
    reflexivity.
  - unfold unquoted in *. cbn [Py.all] in Hgroup.
    apply andb_true_iff in Hgroup as [Hb Hgroup].
    rewrite append_cons. cbn [Re.span_unquoted].
    change (ascii_of_nat 34) with quote.
    apply negb_true_iff in Hb. by rewrite Hb, IH.
Qed.

Lemma search_hit (pre group next rest : string) :
  unquoted group -> group <> "" -> starts_quote next = true ->
  Re.search_quoted pre (pre +:+ group +:+ next +:+ rest)
  = Some (pre, group, next +:+ rest).
Proof.
  intros Hgroup Hne Hnext. apply search_found. unfold Re.match_quoted_here.
  rewrite prefix_self, drop_app, span_unquoted_group by done.
  destruct group as [|b group]; [done|]. by destruct next.
Qed.

Lemma search_hit_last (pre group next : string) :
  unquoted group -> group <> "" -> starts_quote next = true ->
  Re.search_quoted pre (pre +:+ group +:+ next) = Some (pre, group, next).
Proof.
  intros Hgroup Hne Hnext. rewrite <- (append_empty_r next).
  by rewrite search_hit.
Qed.

Lemma after_passes (literal chunk rest : string) :
  passes literal chunk rest ->
  Re.after_literal literal (chunk +:+ rest) = Re.after_literal literal rest.
Proof.
  induction chunk as [|c chunk IH]; [done|].
  cbn [passes]. intros [Hhere Hlater].
  rewrite append_cons in *. cbn [Re.after_literal]. by rewrite Hhere, IH.
Qed.

Lemma after_hit (literal rest : string) :
  Re.after_literal literal (literal +:+ rest) = Some rest.
Proof.
  pose proof (prefix_self literal rest) as Hpre.
  destruct (literal +:+ rest) eqn:Htext; cbn [Re.after_literal];
    by rewrite Hpre, <- Htext, drop_app.
Qed.

Lemma group_of_prepend (chunk : string) (found : option (string * string * string)) :
  Re.group_of (prepend chunk found) = Re.group_of found.
Proof. by destruct found as [[[before group] rest]|]. Qed.

Lemma plain_unquoted (s : string) : plain s -> unquoted s.
Proof.
  apply all_impl. intros c. unfold plain_char.
  destruct c as [[] [] [] [] [] [] [] []]; by vm_compute.
Qed.

Lemma plain_name_quoted (s : string) : plain_name s -> unquoted s /\ s <> "" /\ plain s.
Proof. intros [Hne Hs]. split_and!; [by apply plain_unquoted|done..]. Qed.

Ltac search_pieces := repeat (rewrite search_passes by pass_chunk).
Ltac after_pieces := repeat (rewrite after_passes by pass_chunk).

Lemma existing_package_text (icon package_name label activity lib_name : string) :
  plain_name package_name ->
  existing_package (manifest_text icon package_name label activity lib_name)
  = package_name.
Proof.
  intros (Hq & Hne & Hplain)%plain_name_quoted.
  unfold existing_package, manifest_text.
  change ("package=" +:+ dq) with package_attribute.
  search_pieces. rewrite search_hit by done. by rewrite !group_of_prepend.
Qed.

Lemma existing_activity_text (icon package_name label activity lib_name : string) :
  icon = template_icon \/ icon = icon_fallback ->
  plain package_name -> plain label -> plain_name activity ->
  existing_activity (manifest_text icon package_name label activity lib_name)
  = activity.
Proof.
  intros Hicon Hpackage Hlabel (Hq & Hne & Hplain)%plain_name_quoted.
  unfold existing_activity, manifest_text.
  change ("<activity android:name=" +:+ dq) with activity_attribute.
  destruct Hicon as [-> | ->]; search_pieces;
    rewrite search_hit by done; by rewrite !group_of_prepend.
Qed.

Lemma prefix_same (pre pat text : string) :
  String.prefix (pre +:+ pat) (pre +:+ text) = String.prefix pat text.
Proof.
  induction pre as [|c pre IH]; [done|].
  rewrite !append_cons. cbn [String.prefix]. by destruct (ascii_dec c c).
Qed.

Lemma prefix_quoted_eq (name value next rest : string) :
  unquoted name -> unquoted value -> starts_quote next = true ->
  String.prefix (name +:+ String quote "") (value +:+ next +:+ rest) = true ->
  name = value.
Proof.
  intros Hname Hvalue Hnext. destruct next as [|c next]; [done|].
  cbn [starts_quote] in Hnext. apply Ascii.eqb_eq in Hnext as ->.
  rewrite append_cons. generalize (next +:+ rest). clear next rest. intros rest.
  unfold unquoted in *. revert value Hvalue.
  induction name as [|a name IH]; intros [|b value] Hvalue; try done.
  - rewrite !append_cons. change ("" +:+ String quote "") with (String quote "").
    cbn [String.prefix]. cbn [Py.all] in Hvalue.
    apply andb_true_iff in Hvalue as [Hb _].
    destruct (ascii_dec quote b) as [<-|_]; [|done]. by vm_compute in Hb.
  - change ("" +:+ String quote rest) with (String quote rest).
    rewrite append_cons. cbn [String.prefix]. cbn [Py.all] in Hname.
    apply andb_true_iff in Hname as [Ha _].
    destruct (ascii_dec a quote) as [->|_]; [|done]. by vm_compute in Ha.
  - rewrite !append_cons. cbn [String.prefix].
    cbn [Py.all] in Hname, Hvalue.
    apply andb_true_iff in Hname as [_ Hname].
    apply andb_true_iff in Hvalue as [_ Hvalue].
    destruct (ascii_dec a b) as [->|_]; [|done].
    intros Hpre. f_equal. by apply IH.
Qed.

Lemma activity_attribute_passes (activity rest : string) :
  plain activity -> activity <> "android.app.lib_name" ->
  passes lib_name_attribute activity_attribute (activity +:+ after_activity +:+ rest).
Proof.
  intros Hplain Hne.
  change activity_attribute with ("<activity " +:+ "android:name=" +:+ dq).
  apply passes_app; [apply passes_misses0; by vm_compute|].
  change ("android:name=" +:+ dq) with (String "a" ("ndroid:name=" +:+ dq)).
  cbn [passes]. split; [|apply passes_misses0; by vm_compute].
  change (String "a" ("ndroid:name=" +:+ dq)) with ("android:name=" +:+ dq).
  change lib_name_attribute
    with (("android:name=" +:+ dq) +:+ "android.app.lib_name" +:+ String quote "").
  rewrite prefix_same.
  destruct (String.prefix _ _) eqn:Hpre; [|done].
  apply prefix_quoted_eq in Hpre; [by subst| |by apply plain_unquoted|done].
  by vm_compute.
Qed.

Lemma existing_lib_text (icon package_name label activity lib_name : string) :
  icon = template_icon \/ icon = icon_fallback ->
  plain package_name -> plain label -> plain activity -> plain_name lib_name ->
  existing_lib (manifest_text icon package_name label activity lib_name) = lib_name.
Proof.
  intros Hicon Hpackage Hlabel Hactivity (Hq & Hne & Hplain)%plain_name_quoted.
  unfold existing_lib, manifest_text.
  change ("android:name=" +:+ dq +:+ "android.app.lib_name" +:+ dq)
    with lib_name_attribute.
  change ("android:value=" +:+ dq) with value_attribute.
  destruct (decide (activity = "android.app.lib_name")) as [->|Hother].
  - change (activity_attribute +:+ "android.app.lib_name" +:+ after_activity +:+ ?r)
      with ("<activity " +:+ lib_name_attribute +:+ Re.drop 1 after_activity +:+ r).
    destruct Hicon as [-> | ->]; after_pieces; rewrite after_hit;
      search_pieces; rewrite search_hit_last by done; by rewrite !group_of_prepend.
  - destruct Hicon as [-> | ->]; after_pieces;
      rewrite after_passes by (by apply activity_attribute_passes);
      after_pieces; rewrite after_hit;
      search_pieces; rewrite search_hit_last by done; by rewrite !group_of_prepend.
Qed.

Lemma search_icon_text (icon package_name label activity lib_name : string) :
  icon = template_icon \/ icon = icon_fallback ->
  plain package_name ->
  search_icon (manifest_text icon package_name label activity lib_name)
  = Some (before_package +:+ package_attribute +:+ package_name +:+
          after_package +:+ icon_attribute,
          icon,
          after_icon +:+ label +:+
          after_label +:+ activity_attribute +:+ activity +:+
          after_activity +:+ label +:+
          after_activity_label +:+ lib_name_attribute +:+
          after_lib_name +:+ value_attribute +:+ lib_name +:+
          after_lib_value).
Proof.
  intros Hicon Hpackage. unfold search_icon, manifest_text.
  set (pattern := "android:icon=" +:+ dq +:+ "@").
  assert (Hchop : forall chunk,
    String.substring 0 (String.length (chunk +:+ pattern) - 1) (chunk +:+ pattern)
    = chunk +:+ icon_attribute).
  { intros chunk. by rewrite substring_chop. }
  destruct Hicon as [-> | ->].
  - change (icon_attribute +:+ template_icon +:+ ?r)
      with (pattern +:+ "mipmap/ic_launcher" +:+ r).
    search_pieces. rewrite search_hit by (by vm_compute). cbn [prepend].
    rewrite <- !append_assoc, Hchop. by rewrite !append_assoc.
  - change (icon_attribute +:+ icon_fallback +:+ ?r)
      with (pattern +:+ "android:drawable/sym_def_app_icon" +:+ r).
    search_pieces. rewrite search_hit by (by vm_compute). cbn [prepend].
    rewrite <- !append_assoc, Hchop. by rewrite !append_assoc.
Qed.

Lemma manifest_text_patched (package_name label activity lib_name : string) :
  (before_package +:+ package_attribute +:+ package_name +:+
   after_package +:+ icon_attribute) +:+ icon_fallback +:+
  after_icon +:+ label +:+
  after_label +:+ activity_attribute +:+ activity +:+
  after_activity +:+ label +:+
  after_activity_label +:+ lib_name_attribute +:+
  after_lib_name +:+ value_attribute +:+ lib_name +:+
  after_lib_value
  = manifest_text icon_fallback package_name label activity lib_name.
Proof. unfold manifest_text. by rewrite !append_assoc. Qed.

Lemma plain_no_cr (s : string) :
  plain s -> Py.all (fun c => negb (Py.is_cr c)) s = true.
Proof.
  apply all_impl. intros c. unfold plain_char.
  destruct c as [[] [] [] [] [] [] [] []]; by vm_compute.
Qed.

(** What the template gives for plain names holds no carriage return, and
    is read as it is stored. *)
Lemma manifest_text_read (icon package_name label activity lib_name : string) :
  icon = template_icon \/ icon = icon_fallback ->
  plain package_name -> plain label -> plain activity -> plain lib_name ->
  Py.universal_newlines (manifest_text icon package_name label activity lib_name)
  = manifest_text icon package_name label activity lib_name.
Proof.
  intros Hicon Hpackage Hlabel Hactivity Hlib.
  apply universal_newlines_plain. unfold manifest_text. rewrite !all_app.
  rewrite (plain_no_cr package_name), (plain_no_cr label),
    (plain_no_cr activity), (plain_no_cr lib_name) by done.
  by destruct Hicon as [-> | ->]; vm_compute.
Qed.

Lemma should_write_manifest_text (icon package_name label activity lib_name : string) :
  icon = template_icon \/ icon = icon_fallback ->
  plain_name package_name -> plain label -> plain_name activity ->
  plain_name lib_name ->
  should_write_manifest package_name activity lib_name
    (Text (manifest_text icon package_name label activity lib_name)) = false.
Proof.
  intros Hicon Hpackage Hlabel Hactivity Hlib. unfold should_write_manifest.
  assert (Hp : plain package_name) by (by destruct Hpackage).
  assert (Ha : plain activity) by (by destruct Hactivity).
  assert (Hl : plain lib_name) by (by destruct Hlib).
  cbv zeta. rewrite manifest_text_read by done.
  rewrite existing_package_text by done.
  rewrite existing_activity_text by done.
  rewrite existing_lib_text by done.
  by rewrite !bool_decide_eq_true_2.
Qed.

Lemma icon_fallback_text
    (icon package_name label activity lib_name : string) (res_root : res_tree) :
  icon = template_icon \/ icon = icon_fallback ->
  plain package_name -> plain label -> plain activity -> plain lib_name ->
  _ensure_manifest_icon_fallback
    (Text (manifest_text icon package_name label activity lib_name)) res_root
  = if _has_android_resource res_root icon
    then Text (manifest_text icon package_name label activity lib_name)
    else Text (manifest_text icon_fallback package_name label activity lib_name).
Proof.
  intros Hicon Hpackage Hlabel Hactivity Hlib.
  unfold _ensure_manifest_icon_fallback. cbv zeta.
  rewrite manifest_text_read by done.
  rewrite search_icon_text by done.
  destruct (_has_android_resource res_root icon); [done|].
  by rewrite manifest_text_patched.
Qed.

(** X10: What the template gives for plain names is read back as the same
    names: the package, the activity and the library that the pipeline
    looks for in an existing manifest are the ones the manifest was built
    from, so that the pipeline does not write it again. *)
Theorem build_native_manifest_round_trip
    (package_name label activity lib_name : string) :
  plain_name package_name -> plain label -> plain_name activity ->
  plain_name lib_name ->
  let data := build_native_manifest NATIVE_MANIFEST_TEMPLATE
                                    package_name label activity lib_name in
  existing_package data = package_name /\
  existing_activity data = activity /\
  existing_lib data = lib_name /\
  should_write_manifest package_name activity lib_name (Text data) = false.
Proof.
  intros Hpackage Hlabel Hactivity Hlib data. subst data.
  assert (Hp : plain package_name) by (by destruct Hpackage).
  assert (Ha : plain activity) by (by destruct Hactivity).
  rewrite build_native_manifest_text by done.
  split_and!.
  - by apply existing_package_text.
  - apply existing_activity_text; [by left|done..].
  - apply existing_lib_text; [by left|done..].
  - apply should_write_manifest_text; [by left|done..].
Qed.

Lemma build_native_manifest_round_trip_witness :
  existing_package game_manifest = "com.djokersoft.game" /\
  existing_activity game_manifest = "android.app.NativeActivity" /\
  existing_lib game_manifest = "game" /\
  should_write_manifest "com.djokersoft.game" "android.app.NativeActivity" "game"
    (Text game_manifest) = false.
Proof.
  apply (build_native_manifest_round_trip
           "com.djokersoft.game" "game" "android.app.NativeActivity" "game");
    try (split; [done|]); by vm_compute.
Defined.

(** X11: Once the manifest step has written the manifest, it is settled: with
    the launcher icon among the resources the file is what the template
    gives; in any case the next run finds the identity it asks for, does
    not write the file again, and with the same resources leaves it as it
    is. *)
Theorem manifest_step_settles
    (package_name label activity lib_name : string) (existing : file)
    (res_root : res_tree) :
  plain_name package_name -> plain label -> plain_name activity ->
  plain_name lib_name ->
  should_write_manifest package_name activity lib_name existing = true ->
  let written :=
    manifest_step 0 NATIVE_MANIFEST_TEMPLATE package_name label activity lib_name
                  existing res_root in
  (_has_android_resource res_root template_icon = true ->
   written = Text (build_native_manifest NATIVE_MANIFEST_TEMPLATE
                                         package_name label activity lib_name)) /\
  should_write_manifest package_name activity lib_name written = false /\
  manifest_step 0 NATIVE_MANIFEST_TEMPLATE package_name label activity lib_name
                written res_root = written.
Proof.
  intros Hpackage Hlabel Hactivity Hlib Hwrite written.
  assert (Hp : plain package_name) by (by destruct Hpackage).
  assert (Ha : plain activity) by (by destruct Hactivity).
  assert (Hl : plain lib_name) by (by destruct Hlib).
  assert (Hwritten :
    written = if _has_android_resource res_root template_icon
              then Text (manifest_text template_icon package_name label activity
                                       lib_name)
              else Text (manifest_text icon_fallback package_name label activity
                                       lib_name)).
  { subst written. unfold manifest_step. cbv zeta.
    change (0 =? 0) with true. cbv iota. rewrite Hwrite.
    rewrite build_native_manifest_text by done.
    apply icon_fallback_text; [by left|done..]. }
  assert (Hagain : forall icon,
    icon = template_icon \/ icon = icon_fallback ->
    manifest_step 0 NATIVE_MANIFEST_TEMPLATE package_name label activity lib_name
      (Text (manifest_text icon package_name label activity lib_name)) res_root
    = if _has_android_resource res_root icon
      then Text (manifest_text icon package_name label activity lib_name)
      else Text (manifest_text icon_fallback package_name label activity lib_name)).
  { intros icon Hicon. unfold manifest_step. cbv zeta.
    change (0 =? 0) with true. cbv iota.
    rewrite should_write_manifest_text by done.
    by apply icon_fallback_text. }
  rewrite Hwritten.
  destruct (_has_android_resource res_root template_icon) eqn:Hres.
  - split_and!.
    + intros _. by rewrite build_native_manifest_text.
    + apply should_write_manifest_text; [by left|done..].
    + rewrite Hagain by (by left). by rewrite Hres.
  - split_and!; [done| |].
    + apply should_write_manifest_text; [by right|done..].
    + rewrite Hagain by (by right). by destruct (_has_android_resource _ _).
Qed.

Lemma manifest_step_settles_witness :
  should_write_manifest "com.djokersoft.game" "android.app.NativeActivity" "game"
    (manifest_step 0 NATIVE_MANIFEST_TEMPLATE "com.djokersoft.game" "game"
                   "android.app.NativeActivity" "game" Missing res_without_icon)
  = false.
Proof.
  apply (manifest_step_settles
           "com.djokersoft.game" "game" "android.app.NativeActivity" "game"
           Missing res_without_icon);
    try (split; [done|]); by vm_compute.
Defined.

(** ** The Android template of a project *)

Lemma valid_package_plain (p : string) : valid_package p -> plain_name p.
Proof.
  intros (segs & Hlen & Hsegs & ->). split; [|by apply join_plain].
  destruct segs as [|seg segs]; [simpl in Hlen; lia|].
  apply Forall_cons in Hsegs as [Hseg _].
  pose proof (join_nonempty seg segs Hseg) as Hne.
  intros Heq. by rewrite Heq in Hne.
Qed.

Lemma sanitized_valid (package_name : string) :
  valid_package (sanitize_android_package_name package_name default_package).
Proof.
  destruct (sanitize_shape package_name default_package) as [-> | Hvalid];
    [apply default_package_valid|done].
Qed.

Lemma plain_app (a b : string) : plain a -> plain b -> plain (a +:+ b).
Proof. unfold plain. intros Ha Hb. by rewrite all_app, Ha, Hb. Qed.

Lemma qualified_activity_shape (package_name activity : string) :
  valid_package package_name ->
  let result := qualified_activity package_name activity in
  Py.startswith result "." = false /\
  Py.all (fun c => negb (Py.is_dot c)) result = false /\
  (plain activity -> plain_name result).
Proof.
  intros Hvalid. destruct (valid_package_plain _ Hvalid) as [Hne Hplain].
  unfold qualified_activity. cbv zeta.
  assert (Hhead : forall rest, Py.startswith (package_name +:+ rest) "." = false).
  { intros rest. destruct Hvalid as (segs & Hlen & Hsegs & ->).
    destruct segs as [|seg segs]; [simpl in Hlen; lia|].
    apply Forall_cons in Hsegs as [Hseg _].
    destruct seg as [|c seg]; [done|]. destruct Hseg as [_ Hall].
    cbn [Py.all] in Hall. apply andb_true_iff in Hall as [Hc _].
    assert (Hjoin : exists tail, Py.join "." (String c seg :: segs) = String c tail).
    { destruct segs; by eexists. }
    destruct Hjoin as [tail ->].
    rewrite append_cons. unfold Py.startswith. cbn [String.prefix].
    destruct (ascii_dec "." c) as [<-|_]; [by vm_compute in Hc|done]. }
  assert (Hnonempty : forall rest, package_name +:+ rest <> "").
  { intros rest. by destruct package_name. }
  set (chosen := if Py.truthy activity then activity else default_activity).
  assert (Hchosen : plain activity -> plain chosen).
  { subst chosen. by destruct (Py.truthy activity). }
  assert (Hsome : chosen <> "").
  { subst chosen. by destruct activity. }
  destruct (Py.startswith chosen ".") eqn:Hdot.
  - split_and!; [apply Hhead| |].
    + destruct chosen as [|c chosen]; [done|].
      unfold Py.startswith in Hdot. cbn [String.prefix] in Hdot.
      destruct (ascii_dec "." c) as [<-|_]; [|done].
      rewrite all_app. cbn [Py.all]. change (Py.is_dot ".") with true.
      by rewrite andb_false_r.
    + intros Hactivity. split; [apply Hnonempty|]. by apply plain_app, Hchosen.
  - destruct (Py.all _ chosen) eqn:Hnodot.
    + split_and!; [apply Hhead| |].
      * rewrite !all_app. cbn [Py.all]. change (Py.is_dot ".") with true.
        by rewrite andb_false_r.
      * intros Hactivity. split; [apply Hnonempty|].
        apply plain_app; [done|]. apply (plain_app "."); [done|by apply Hchosen].
    + split_and!; [done..|]. intros Hactivity. split; [done|by apply Hchosen].
Qed.

(** X12: What the command line hands to the packaging pipeline: a package of
    the valid shape; an activity that does not start with a dot and holds
    one; a manifest that is written only when none is there; and, with
    plain names, a manifest that the pipeline, which sanitizes the package
    once more, takes for its own and does not write again. *)
Theorem ensure_android_native_template_spec
    (app_name package_name label activity : string) (manifest : file) :
  let '(written, (package, label', activity')) :=
    ensure_android_native_template app_name package_name label activity manifest in
  valid_package package /\
  Py.startswith activity' "." = false /\
  Py.all (fun c => negb (Py.is_dot c)) activity' = false /\
  (manifest <> Missing -> written = manifest) /\
  (plain_name app_name -> plain label -> plain activity -> manifest = Missing ->
   should_write_manifest (_sanitize_android_package package default_package)
                         activity' app_name written = false).
Proof.
  unfold ensure_android_native_template. cbv zeta.
  pose proof (sanitized_valid package_name) as Hvalid.
  set (package := sanitize_android_package_name package_name default_package) in *.
  pose proof (valid_package_plain package Hvalid) as Hpackage.
  destruct (qualified_activity_shape package activity Hvalid)
    as (Hstart & Hdot & Hact).
  split_and!; [done..| |].
  - by destruct manifest.
  - intros Happ Hlabel Hactivity ->.
    unfold _sanitize_android_package. rewrite sanitize_valid by done.
    assert (Hl : plain (if Py.truthy label then label else app_name)).
    { destruct (Py.truthy label); [done|by destruct Happ]. }
    rewrite build_native_manifest_text;
      [|by destruct Hpackage|done|by destruct (Hact Hactivity)].
    apply should_write_manifest_text; [by left|done|done|by apply Hact|done].
Qed.

Lemma ensure_android_native_template_spec_witness :
  snd (ensure_android_native_template "game" "My Game" "" ".Main" Missing)
  = ("com.djokersoft.game", "game", "com.djokersoft.game.Main") /\
  should_write_manifest "com.djokersoft.game" "com.djokersoft.game.Main" "game"
    (fst (ensure_android_native_template "game" "My Game" "" ".Main" Missing))
  = false.
Proof.
  pose proof (ensure_android_native_template_spec
                "game" "My Game" "" ".Main" Missing) as Hspec.
  unfold ensure_android_native_template in *. cbv zeta beta iota in Hspec.
  destruct Hspec as (_ & _ & _ & _ & Hkept).
  split; [by vm_compute|].
  apply Hkept; try (split; [done|]); by vm_compute.
Defined.

(** ** Compiling the sources of one ABI *)

Lemma before_last_split (sep : ascii -> bool) (s root : string) :
  before_last sep s = Some root ->
  exists c tail, sep c = true /\ s = root +:+ String c tail.
Proof.
  revert root. induction s as [|c s IH]; intros root; [done|].
  cbn [before_last]. destruct (before_last sep s) as [inner|] eqn:Hinner.
  - intros [= <-]. destruct (IH inner eq_refl) as (d & tail & Hd & ->).
    by exists d, tail.
  - destruct (sep c) eqn:Hc; [|done]. intros [= <-]. by exists c, s.
Qed.

Lemma splitext_ext_shape (src : string) :
  AndroidNative.splitext_ext src = "" \/
  exists tail, AndroidNative.splitext_ext src = String "." tail.
Proof.
  unfold AndroidNative.splitext_ext, splitext_root.
  generalize (Path.basename src). intros filename.
  assert (Hall : Re.drop (String.length filename) filename = "").
  { induction filename as [|c filename IH]; [done|]. apply IH. }
  destruct (before_last Py.is_dot filename) as [root|] eqn:Hroot; [|by left].
  destruct (Py.all Py.is_dot root); [by left|].
  destruct (before_last_split _ _ _ Hroot) as (c & tail & Hc & ->).
  right. exists tail. rewrite drop_app.
  destruct c as [[] [] [] [] [] [] [] []]; by vm_compute in Hc.
Qed.

Lemma is_cpp_extension (src : string) :
  AndroidNative.is_cpp src = bool_decide (AndroidNative.splitext_ext src = ".cpp").
Proof.
  unfold AndroidNative.is_cpp.
  destruct (splitext_ext_shape src) as [Hext|[tail Hext]]; rewrite Hext.
  - by rewrite !bool_decide_eq_false_2 by set_solver.
  - apply bool_decide_ext. set_solver.
Qed.

Section AndroidCompileFacts.
Variable World : Type.
Variable runProcess : string -> list string -> World -> Z * World.
Variable path_isfile : World -> string -> bool.
Variable path_exists : World -> string -> bool.
Variable getmtime : World -> string -> Q.
Variable createFolderTree : string -> World -> World.
Variables (folder_root name : string) (cargs cppargs : list string).
Variable arm : Z.
Variable full_build : bool.
Variable android_ndk : string.

Local Abbreviation compile_sources :=
  (AndroidNative.compile_sources World runProcess path_isfile path_exists getmtime
     createFolderTree folder_root name cargs cppargs arm full_build android_ndk).

Local Abbreviation object_of := (AndroidNative.object_of folder_root name arm).

Local Abbreviation compile_run_shape :=
  (AndroidNative.compile_run_shape folder_root name cargs cppargs arm android_ndk).

Lemma compile_sources_spec (srcs : list string) (w : World)
    (log : list AndroidNative.compile_run) :
  let result := compile_sources srcs w log in
  exists new,
    snd result = log ++ new /\
    (fst (fst result) = true ->
     Forall (fun r => AndroidNative.run_exit r = 0) new) /\
    (fst (fst result) = false ->
     exists before r, new = before ++ [r] /\
       Forall (fun r => AndroidNative.run_exit r = 0) before /\
       AndroidNative.run_exit r <> 0) /\
    List.map AndroidNative.run_source new `sublist_of` srcs /\
    Forall compile_run_shape new.
Proof.
  revert w log. induction srcs as [|src rest IH]; intros w log; cbn [AndroidNative.compile_sources].
  { exists []. rewrite app_nil_r. split_and!; [done|by constructor|done|done|by constructor]. }
  assert (Hskip : forall w', let result := compile_sources rest w' log in
    exists new,
      snd result = log ++ new /\
      (fst (fst result) = true ->
       Forall (fun r => AndroidNative.run_exit r = 0) new) /\
      (fst (fst result) = false ->
       exists before r, new = before ++ [r] /\
         Forall (fun r => AndroidNative.run_exit r = 0) before /\
         AndroidNative.run_exit r <> 0) /\
      List.map AndroidNative.run_source new `sublist_of` src :: rest /\
      Forall compile_run_shape new).
  { intros w'. destruct (IH w' log) as (new & Hlog & Hok & Hfail & Hsub & Hshape).
    exists new. split_and!; [done..| |done]. by apply sublist_cons_r; left. }
  destruct (path_isfile w src); cbn [negb]; [|apply Hskip].
  cbv zeta.
  destruct (android_decision _ _ _); [|apply Hskip].
  destruct (runProcess _ _ _) as [code w'].
  set (entry := AndroidNative.CompileRun src _ _ code).
  assert (Hentry : compile_run_shape entry).
  { unfold AndroidNative.compile_run_shape, entry. cbn [AndroidNative.run_source
      AndroidNative.run_compiler AndroidNative.run_arguments]. cbv zeta.
    unfold AndroidNative.compiler_of, AndroidNative.compile_args.
    rewrite is_cpp_extension.
    split; [by destruct (bool_decide _)|].
    eexists. rewrite !app_assoc. reflexivity. }
  destruct (code =? 0)%Z eqn:Hcode; cbn [negb].
  - apply Z.eqb_eq in Hcode.
    destruct (IH w' (log ++ [entry])) as (new & Hlog & Hok & Hfail & Hsub & Hshape).
    exists (entry :: new). split_and!.
    + by rewrite Hlog, <- app_assoc.
    + intros Htrue. constructor; [done|by apply Hok].
    + intros Hfalse. destruct (Hfail Hfalse) as (before & r & -> & Hbefore & Hr).
      exists (entry :: before), r. split_and!; [done| |done]. by constructor.
    + cbn [List.map]. by apply sublist_skip.
    + by constructor.
  - apply Z.eqb_neq in Hcode. exists [entry]. cbn [fst snd]. split_and!.
    + done.
    + done.
    + intros _. exists [], entry. split_and!; [done|constructor|done].
    + cbn [List.map]. apply sublist_skip, sublist_nil_l.
    + constructor; [done|constructor].
Qed.

(** X13: [android_compile] stops at the first source whose compiler fails: it
    returns false exactly then, that call is the last one, and the calls
    before it ended with code 0. The calls follow the order of [srcs], at
    most one for each place in it; each one runs the C++ compiler with the
    C++ flags when the extension is [.cpp] and the C compiler with the C
    flags for any other extension, and ends with the source and its object
    file. *)
Theorem android_compile_spec (srcs : list string) (w : World) :
  let result :=
    AndroidNative.android_compile World runProcess path_isfile path_exists getmtime
      createFolderTree folder_root name cargs cppargs arm full_build android_ndk
      srcs w in
  let ok := fst (fst result) in
  let log := snd result in
  (ok = true -> Forall (fun r => AndroidNative.run_exit r = 0) log) /\
  (ok = false ->
   exists before r, log = before ++ [r] /\
     Forall (fun r => AndroidNative.run_exit r = 0) before /\
     AndroidNative.run_exit r <> 0) /\
  List.map AndroidNative.run_source log `sublist_of` srcs /\
  Forall compile_run_shape log.
Proof.
  intros result ok log. subst ok log result. unfold AndroidNative.android_compile.
  destruct (compile_sources_spec srcs
              (createFolderTree (AndroidNative.out_folder folder_root name arm) w) [])
    as (new & Hlog & Hrest).
  cbn [app] in Hlog. by rewrite Hlog.
Qed.

End AndroidCompileFacts.

(** ** Time stamps within one second *)

Lemma string_ltb_irrefl (s : string) : String.ltb s s = false.
Proof.
  unfold String.ltb. pose proof (String.compare_antisym s s) as Hanti.
  by destruct (String.compare s s).
Qed.

(** X14: A source and an object written within the same second: the desktop
    test, which compares the texts of the two times, compiles the source
    again even when it has not changed since, while the Android test skips
    a source that is not newer than its object. *)
Theorem desktop_decision_same_second
    (utc_offset : Z) (full_build : bool) (src_mtime obj_mtime : Q) :
  Qfloor src_mtime = Qfloor obj_mtime ->
  desktop_decision utc_offset full_build src_mtime (Some obj_mtime) = Recompile /\
  (full_build = false -> (src_mtime <= obj_mtime)%Q ->
   android_decision full_build src_mtime (Some obj_mtime) = Skip).
Proof.
  intros Hsecond. split.
  - unfold desktop_decision. cbv zeta. destruct full_build; [done|]. cbn [negb].
    replace (Ctime.ctime utc_offset obj_mtime) with (Ctime.ctime utc_offset src_mtime)
      by (unfold Ctime.ctime; by rewrite Hsecond).
    by rewrite string_ltb_irrefl.
  - intros -> Hle. unfold android_decision. cbn [negb].
    apply Qle_bool_iff in Hle. by rewrite Hle.
Qed.

Lemma desktop_decision_same_second_witness :
  desktop_decision 0 false (3 # 2) (Some (19 # 10)) = Recompile /\
  android_decision false (3 # 2) (Some (19 # 10)) = Skip.
Proof.
  destruct (desktop_decision_same_second 0 false (3 # 2) (19 # 10) eq_refl)
    as [Hdesktop Handroid].
  split; [exact Hdesktop|]. apply Handroid; [done|]. by vm_compute.
Defined.

(** ** The module flags of a project *)

Section ProjectCompositionFacts.
Variable joinpath : string -> string -> string.
Variable os_nt : bool.
Variable path_exists : string -> bool.
Variables (target : string) (abi : Z) (all_modules : registry).

Local Abbreviation registered_turn :=
  (add_registered_module_flags joinpath os_nt path_exists).
Local Abbreviation turn modules_root :=
  (add_project_module_flags joinpath os_nt path_exists modules_root target abi
                            all_modules).

Lemma grows_refl flags : grows flags flags.
Proof. split_and!; try (exists []; by rewrite app_nil_r); done. Qed.

Lemma grows_trans flags1 flags2 flags3 :
  grows flags1 flags2 -> grows flags2 flags3 -> grows flags1 flags3.
Proof.
  intros ([a1 H1] & [b1 H2] & [c1 H3] & H4 & H5)
         ([a2 H6] & [b2 H7] & [c2 H8] & H9 & H10).
  split_and!; try (eexists; by rewrite ?H6, ?H7, ?H8, ?H1, ?H2, ?H3, <- app_assoc); auto.
Qed.

Lemma registered_turn_grows (module : ModuleSpec.t) flags :
  grows flags (registered_turn module target abi flags) /\
  ("-L" +:+ library_dir_for_module joinpath os_nt module target abi)
    ∈ ld_of (registered_turn module target abi flags).
Proof.
  unfold grows, add_registered_module_flags, add_module_include_flags,
    add_module_link_flags.
  unfold cc_of, cpp_of, ld_of. cbn [fst snd]. cbv zeta.
  set (flag := "-L" +:+ _).
  set (includes := module_include_flags _ _ _ _ _).
  destruct (extend_unique_added [flag] (snd flags)) as (added & Hadded & _).
  change (extend_unique (snd flags) [flag]) with (append_unique (snd flags) flag)
    in Hadded.
  split; [split_and!|].
  - destruct (extend_unique_added includes (fst (fst flags))) as (new & -> & _).
    by exists new.
  - destruct (extend_unique_added includes (snd (fst flags))) as (new & -> & _).
    by exists new.
  - rewrite Hadded. destruct (path_exists _); eexists; by rewrite <- !app_assoc.
  - apply extend_unique_NoDup.
  - apply extend_unique_NoDup.
  - rewrite !elem_of_app. do 2 left.
    assert (Hflag : flag ∈ append_unique (snd flags) flag)
      by (apply (extend_unique_holds [flag]); [left|done]).
    destruct (path_exists _); [|done]. apply elem_of_app. by left.
Qed.

Lemma project_loop (modules_root : string) (names : list string) flags :
  Forall (fun name => is_Some (all_modules !! name)) names ->
  grows flags (foldl (turn modules_root) flags names) /\
  (forall root', foldl (turn modules_root) flags names = foldl (turn root') flags names) /\
  (forall name module, name ∈ names -> all_modules !! name = Some module ->
     ("-L" +:+ library_dir_for_module joinpath os_nt module target abi)
       ∈ ld_of (foldl (turn modules_root) flags names)).
Proof.
  intros Hnames. revert flags.
  induction Hnames as [|name names [module Hmodule] _ IH]; intros flags; cbn [foldl].
  { split_and!; [apply grows_refl|done|]. by intros name module ?%not_elem_of_nil. }
  assert (Hturn : forall root,
    turn root flags name = registered_turn module target abi flags).
  { intros root. unfold add_project_module_flags. by rewrite Hmodule. }
  rewrite Hturn.
  destruct (registered_turn_grows module flags) as [Hgrow Hflag].
  destruct (IH (registered_turn module target abi flags)) as (Hrest & Hroot & Hin).
  split_and!.
  - by eapply grows_trans.
  - intros root'. rewrite (Hturn root'). apply Hroot.
  - intros name' module' [->|Hlater]%elem_of_cons Hmodule'; [|by eapply Hin].
    assert (module' = module) as -> by congruence.
    destruct Hrest as (_ & _ & [added Hld] & _). rewrite Hld.
    apply elem_of_app. by left.
Qed.

(** X15: The module flags of a project come from the registered modules that
    the active modules reach, and from nothing else: the folder of the
    modules is never looked at, so a name that the registry does not hold
    adds no flag; the three lists only grow at their end, the two compile
    lists stay without duplicates, and every registered module that is
    reached has the search path of its library in the link list. *)
Theorem collect_project_module_flags_spec
    (active_modules : list string) (modules_root : string)
    (flags : list string * list string * list string) :
  let result :=
    collect_project_module_flags joinpath os_nt path_exists target abi
      active_modules all_modules modules_root flags in
  (forall root',
     collect_project_module_flags joinpath os_nt path_exists target abi
       active_modules all_modules root' flags = result) /\
  ((forall name, name ∈ active_modules -> all_modules !! name = None) ->
   result = flags) /\
  grows flags result /\
  (forall name m module,
     name ∈ active_modules -> reachable all_modules name m ->
     all_modules !! m = Some module ->
     ("-L" +:+ library_dir_for_module joinpath os_nt module target abi)
       ∈ ld_of result).
Proof.
  intros result. subst result. unfold collect_project_module_flags.
  assert (Hclosure : Forall (fun name => is_Some (all_modules !! name))
                            (closure_for_modules active_modules all_modules)).
  { apply Forall_forall. intros m (name & _ & Hreach)%closure_for_modules_elem.
    by eapply reachable_registered. }
  destruct (project_loop modules_root _ flags Hclosure) as (Hgrow & Hroot & Hin).
  split_and!; [by intros root'; rewrite <- Hroot| |done|].
  - intros Hnone.
    assert (Hempty : closure_for_modules active_modules all_modules = []).
    { destruct (closure_for_modules active_modules all_modules) as [|m rest] eqn:Heq;
        [done|].
      assert (Hm : m ∈ closure_for_modules active_modules all_modules)
        by (rewrite Heq; left).
      apply closure_for_modules_elem in Hm as (name & Hname & Hreach).
      assert (Hstart : is_Some (all_modules !! name)).
      { clear -Hreach. induction Hreach as [|m d _ IH _]; done. }
      rewrite (Hnone name Hname) in Hstart. by destruct Hstart. }
    by rewrite Hempty.
  - intros name m module Hname Hreach Hmodule. apply (Hin m module); [|done].
    apply closure_for_modules_elem. by exists name.
Qed.

End ProjectCompositionFacts.

(** ** Compiling the sources for the desktop and the web *)

Section NativeCompileFacts.
Variable World : Type.
Variable runProcess : string -> list string -> World -> Z * World.
Variable path_isfile : World -> string -> bool.
Variable path_exists : World -> string -> bool.
Variable getmtime : World -> string -> Q.
Variable createFolderTree : string -> World -> World.
Variable utc_offset : Z.
Variables (c_compiler cpp_compiler : string) (closing : list string).
Variables (folder_root out_folder : string) (cargs cppargs : list string).
Variable full_build : bool.

Local Abbreviation compile_loop :=
  (NativeBuild.compile_loop World runProcess path_isfile path_exists getmtime
     createFolderTree utc_offset c_compiler cpp_compiler closing folder_root
     out_folder cargs cppargs full_build).
Local Abbreviation sticky_flags :=
  (NativeBuild.sticky_flags c_compiler cpp_compiler closing folder_root out_folder
     cargs cppargs).
Local Abbreviation compile_args :=
  (NativeBuild.compile_args closing folder_root out_folder cargs cppargs).

Lemma compile_loop_spec (srcs : list string) (use_cpp seen : bool) (w : World)
    (log : list AndroidNative.compile_run) :
  (seen = true -> use_cpp = true) ->
  let result := compile_loop srcs use_cpp w log in
  exists new,
    snd result = log ++ new /\
    (fst (fst result) = true ->
     Forall (fun r => AndroidNative.run_exit r = 0) new) /\
    (fst (fst result) = false ->
     exists before r, new = before ++ [r] /\
       Forall (fun r => AndroidNative.run_exit r = 0) before /\
       AndroidNative.run_exit r <> 0) /\
    List.map AndroidNative.run_source new `sublist_of` srcs /\
    sticky_flags seen new /\
    (use_cpp = false -> Forall (fun src => NativeBuild.long_extension src = false) srcs ->
     Forall (fun r => AndroidNative.run_arguments r
                      = compile_args (AndroidNative.run_source r) false) new).
Proof.
  revert use_cpp seen w log.
  induction srcs as [|src rest IH]; intros use_cpp seen w log Hseen;
    cbn [NativeBuild.compile_loop].
  { exists []. rewrite app_nil_r.
    split_and!; [done|by constructor|done|done|done|by constructor]. }
  assert (Hskip : forall use_cpp' w',
    (seen = true -> use_cpp' = true) ->
    (use_cpp = false -> NativeBuild.long_extension src = false -> use_cpp' = false) ->
    let result := compile_loop rest use_cpp' w' log in
    exists new,
      snd result = log ++ new /\
      (fst (fst result) = true ->
       Forall (fun r => AndroidNative.run_exit r = 0) new) /\
      (fst (fst result) = false ->
       exists before r, new = before ++ [r] /\
         Forall (fun r => AndroidNative.run_exit r = 0) before /\
         AndroidNative.run_exit r <> 0) /\
      List.map AndroidNative.run_source new `sublist_of` src :: rest /\
      sticky_flags seen new /\
      (use_cpp = false ->
       Forall (fun src => NativeBuild.long_extension src = false) (src :: rest) ->
       Forall (fun r => AndroidNative.run_arguments r
                        = compile_args (AndroidNative.run_source r) false) new)).
  { intros use_cpp' w' Hseen' Hshort.
    destruct (IH use_cpp' seen w' log Hseen')
      as (new & Hlog & Hok & Hfail & Hsub & Hsticky & Hc).
    exists new. split_and!; [done..|by apply sublist_cons|done|].
    intros Hno [Hsrc Hrest]%Forall_cons. apply Hc; [by apply Hshort|done]. }
  destruct (path_isfile w src); cbn [negb]; [|by apply Hskip].
  cbv zeta.
  destruct (desktop_decision _ _ _ _).
  2:{ apply Hskip.
      - intros ->. by rewrite (Hseen eq_refl).
      - by intros -> ->. }
  destruct (runProcess _ _ _) as [code w'].
  set (ctype := if NativeBuild.long_extension src then cpp_compiler else c_compiler).
  set (now_cpp := use_cpp || NativeBuild.long_extension src).
  set (entry := AndroidNative.CompileRun src ctype (compile_args src now_cpp) code).
  assert (Hentry : forall rest_log,
    sticky_flags (seen || NativeBuild.long_extension src) rest_log ->
    sticky_flags seen (entry :: rest_log)).
  { intros rest_log Hrest. unfold entry. cbn [NativeBuild.sticky_flags]. cbv zeta.
    cbn [AndroidNative.run_source AndroidNative.run_compiler
         AndroidNative.run_arguments].
    split_and!; [done| |done]. exists now_cpp. split; [done|].
    unfold now_cpp. intros [->|Hlong]%orb_true_iff.
    - by rewrite (Hseen eq_refl).
    - by rewrite Hlong, orb_true_r. }
  assert (Hplain : use_cpp = false ->
    NativeBuild.long_extension src = false ->
    AndroidNative.run_arguments entry
    = compile_args (AndroidNative.run_source entry) false).
  { intros Hno Hshort. unfold entry, now_cpp.
    cbn [AndroidNative.run_source AndroidNative.run_arguments].
    by rewrite Hno, Hshort. }
  destruct (code =? 0)%Z eqn:Hcode; cbn [negb].
  - apply Z.eqb_eq in Hcode.
    destruct (IH now_cpp (seen || NativeBuild.long_extension src) w' (log ++ [entry]))
      as (new & Hlog & Hok & Hfail & Hsub & Hsticky & Hc).
    { unfold now_cpp. intros [->|Hlong]%orb_true_iff.
      - by rewrite (Hseen eq_refl).
      - by rewrite Hlong, orb_true_r. }
    exists (entry :: new). split_and!.
    + by rewrite Hlog, <- app_assoc.
    + intros Htrue. constructor; [done|by apply Hok].
    + intros Hfalse. destruct (Hfail Hfalse) as (before & r & -> & Hbefore & Hr).
      exists (entry :: before), r. split_and!; [done| |done]. by constructor.
    + cbn [List.map]. by apply sublist_skip.
    + by apply Hentry.
    + intros Hno [Hsrc Hrest]%Forall_cons. constructor; [by apply Hplain|].
      apply Hc; [|done]. unfold now_cpp. by rewrite Hno, Hsrc.
  - apply Z.eqb_neq in Hcode. exists [entry]. cbn [fst snd]. split_and!.
    + done.
    + done.
    + intros _. exists [], entry. split_and!; [done|constructor|done].
    + cbn [List.map]. apply sublist_skip, sublist_nil_l.
    + by apply Hentry.
    + intros Hno [Hsrc Hrest]%Forall_cons. constructor; [by apply Hplain|constructor].
Qed.

End NativeCompileFacts.

Section NativeFunctionsFacts.
Variable World : Type.
Variable runProcess : string -> list string -> World -> Z * World.
Variable path_isfile : World -> string -> bool.
Variable path_exists : World -> string -> bool.
Variable getmtime : World -> string -> Q.
Variable createFolderTree : string -> World -> World.
Variable utc_offset : Z.
Variable sys_platform : string.

(** X16: [desktop_compile] and [web_compile] stop at the first call that fails
    and make their calls in the order of [srcs], each with the compiler of
    its own extension. The flags are another matter: once a call has been
    made for a source with an extension of three characters or more, every
    later call has the C++ flags, a C source included; only when no source
    has such an extension does every call have the C flags. *)
Theorem native_compile_spec
    (folder_root name : string) (srcs cargs cppargs : list string)
    (emcc emcpp : string) (full_build : bool) (w : World) :
  NativeBuild.compile_outcome World "gcc" "g++" ["-fPIC"] folder_root
    (NativeBuild.desktop_out_folder sys_platform folder_root name) cargs cppargs srcs
    (NativeBuild.desktop_compile World runProcess path_isfile path_exists getmtime
       createFolderTree utc_offset sys_platform folder_root name srcs cargs cppargs
       full_build w) /\
  NativeBuild.compile_outcome World emcc emcpp [] folder_root
    (NativeBuild.web_out_folder folder_root name) cargs cppargs srcs
    (NativeBuild.web_compile World runProcess path_isfile path_exists getmtime
       createFolderTree utc_offset folder_root name srcs cargs cppargs emcc emcpp
       full_build w).
Proof.
  split.
  - unfold NativeBuild.desktop_compile, NativeBuild.compile_outcome. cbv zeta.
    match goal with
    | |- context [NativeBuild.compile_loop _ _ _ _ _ _ _ ?c ?cpp ?closing ?root ?out
                    ?cargs ?cppargs ?full ?srcs false ?w0 []] =>
        destruct (compile_loop_spec World runProcess path_isfile path_exists getmtime
                    createFolderTree utc_offset c cpp closing root out cargs cppargs
                    full srcs false false w0 [] ltac:(done))
          as (new & Hlog & Hok & Hfail & Hsub & Hsticky & Hc)
    end.
    cbn [app] in Hlog. rewrite Hlog. split_and!; [done..|]. by apply Hc.
  - unfold NativeBuild.web_compile, NativeBuild.compile_outcome. cbv zeta.
    match goal with
    | |- context [NativeBuild.compile_loop _ _ _ _ _ _ _ ?c ?cpp ?closing ?root ?out
                    ?cargs ?cppargs ?full ?srcs false ?w0 []] =>
        destruct (compile_loop_spec World runProcess path_isfile path_exists getmtime
                    createFolderTree utc_offset c cpp closing root out cargs cppargs
                    full srcs false false w0 [] ltac:(done))
          as (new & Hlog & Hok & Hfail & Hsub & Hsticky & Hc)
    end.
    cbn [app] in Hlog. rewrite Hlog. split_and!; [done..|]. by apply Hc.
Qed.

End NativeFunctionsFacts.

(** A C++ source followed by a C source: the C source goes to [gcc] with
    the C++ flags. *)
Example desktop_compile_sticky :
  snd (NativeBuild.desktop_compile unit (fun _ _ w => (0, w)) (fun _ _ => true)
         (fun _ _ => false) (fun _ _ => 0%Q) (fun _ w => w) 0 "linux"
         "/p" "m" ["/p/a.cpp"; "/p/b.c"] ["-DPLAIN_C"] ["-std=c++17"] false tt)
  = [AndroidNative.CompileRun "/p/a.cpp" "g++"
       ["-c"; "/p/a.cpp"; "-o"; "/p/obj/Linux/m/a.o"; "-std=c++17"; "-fPIC"] 0;
     AndroidNative.CompileRun "/p/b.c" "gcc"
       ["-c"; "/p/b.c"; "-o"; "/p/obj/Linux/m/b.o"; "-std=c++17"; "-fPIC"] 0].
Proof. by vm_compute. Qed.

(** ** Linking *)

(** X17: What a module build writes and what the modules that depend on it look
    for, where the two agree on the name of the system folder: the Android
    library is always the file looked for; the desktop library and the web
    library are the file looked for exactly when the module is static (a
    shared desktop library is written without the prefix [lib], and a web
    module that is not static gives a page, not an archive). *)
Theorem link_export_found
    (module : ModuleSpec.t) (abi : Z) (sys_platform : string) (os_nt : bool) :
  os_nt = Py.startswith sys_platform "windows" ->
  let folder_root := ModuleSpec.directory module in
  let name := ModuleSpec.name module in
  let build_type := if ModuleSpec.static module then 2 else 1 in
  Link.android_export folder_root name build_type abi
  = library_file_for_module posix_join os_nt module "android" abi /\
  (Link.desktop_export sys_platform folder_root name build_type
   = library_file_for_module posix_join os_nt module "desktop" abi
   <-> ModuleSpec.static module = true) /\
  (Link.web_export folder_root name (ModuleSpec.static module)
   = library_file_for_module posix_join os_nt module "web" abi
   <-> ModuleSpec.static module = true).
Proof.
  intros ->. cbv zeta.
  unfold library_file_for_module, library_dir_for_module, posix_join, abi_name,
    Link.android_export, Link.desktop_export, Link.web_export,
    Link.build_output_arm, Link.os_name.
  repeat match goal with
         | |- context [bool_decide (?a = ?b)] =>
             let v := eval vm_compute in (bool_decide (a = b)) in
             change (bool_decide (a = b)) with v
         end.
  cbv iota. rewrite !orb_false_r, orb_true_r.
  set (dir := ModuleSpec.directory module). set (name := ModuleSpec.name module).
  set (system := if Py.startswith sys_platform "windows" then "Windows" else "Linux").
  set (arm := if abi =? 1 then "arm64-v8a" else "armeabi-v7a").
  destruct (ModuleSpec.static module); cbn [Z.eqb Pos.eqb]; rewrite !append_assoc.
  - split_and!; [done|done|done].
  - split_and!; [done| |].
    + split; [|done]. intros Heq.
      do 4 apply append_inv_head in Heq.
      apply (f_equal String.length) in Heq. rewrite !length_append in Heq.
      cbn [String.length] in Heq. lia.
    + split; [|done]. intros Heq.
      apply append_inv_head in Heq. by vm_compute in Heq.
Qed.

Lemma link_export_found_witness :
  Link.android_export "/repo/modules/net" "net" 2 0
  = library_file_for_module posix_join false (linking_module "net" [] [])
                            "android" 0 /\
  Link.desktop_export "linux" "/repo/modules/net" "net" 2
  = library_file_for_module posix_join false (linking_module "net" [] [])
                            "desktop" 0.
Proof.
  destruct (link_export_found (linking_module "net" [] []) 0 "linux" false eq_refl)
    as (Handroid & Hdesktop & _).
  split; [exact Handroid|]. by apply Hdesktop.
Defined.

Section LinkFacts.
Variable World : Type.
Variable runProcess : string -> list string -> World -> Z * World.
Variable object_files : World -> string -> list string.
Variable path_exists : World -> string -> bool.
Variable getsize : World -> string -> Z.
Variable glob_last : World -> string -> option string.
Variable remove_file : string -> World -> World.
Variable createFolderTree : string -> World -> World.
Variable getcwd : string.
Variable sys_platform : string.

Local Abbreviation run := (Link.run World runProcess).
Local Abbreviation halted := (Link.halted World).
Local Abbreviation desktop_build :=
  (Link.desktop_build World runProcess object_files createFolderTree getcwd
                      sys_platform).
Local Abbreviation web_build :=
  (Link.web_build World runProcess object_files path_exists getsize remove_file
                  createFolderTree getcwd).
Local Abbreviation android_build :=
  (Link.android_build World runProcess object_files path_exists glob_last
                      createFolderTree getcwd).

Lemma halted_start (w : World) : halted (true, w, []).
Proof. split; [by constructor|done]. Qed.

Lemma halted_run (command : string) (args : list string) (s : Link.state World) :
  halted s -> halted (run command args s).
Proof.
  destruct s as [[ok w] log]. unfold Link.run, Link.halted.
  intros [Hok Hfail]. destruct ok; [|done].
  destruct (runProcess command args w) as [code w'].
  destruct (code =? 0)%Z eqn:Hcode.
  - apply Z.eqb_eq in Hcode. split; [|done]. intros _.
    apply Forall_app. split; [by apply Hok|]. by repeat constructor.
  - apply Z.eqb_neq in Hcode. split; [done|]. intros _.
    eexists log, _. split_and!; [done|by apply Hok|done].
Qed.

(** X18: The link functions stop at the first call that fails: when one of
    them has made a call and returns false, its last call failed and the
    calls before it did not. What they do without a call differs: for a
    build type it does not know [desktop_build] returns true and
    [android_build] false; [web_build] returns false when it finds no
    object, and, for an archive, also when the archive is missing or has
    at most 8 bytes after a call that succeeded. An archive is made
    without the link flags. *)
Theorem link_halts
    (folder_root name : string) (use_cpp : bool) (ldargs : list string)
    (build_type arm : Z) (android_ndk emcc emcpp emar : string) (is_static : bool)
    (w : World) :
  let desktop := desktop_build folder_root name use_cpp ldargs build_type w in
  let android := android_build folder_root name use_cpp ldargs build_type arm
                               android_ndk w in
  let web := web_build folder_root name use_cpp ldargs emcc emcpp emar is_static w in
  (halted desktop /\
   (~ (0 <= build_type <= 2) -> fst (fst desktop) = true /\ snd desktop = [])) /\
  ((0 <= build_type <= 2 -> halted android) /\
   (~ (0 <= build_type <= 2) -> fst (fst android) = false /\ snd android = [])) /\
  ((object_files (createFolderTree (folder_root +:+ "/Web/") w)
                 (folder_root +:+ "/obj/Web/" +:+ name) = [] ->
    fst (fst web) = false /\ snd web = []) /\
   (is_static = false -> snd web <> [] -> halted web) /\
   (is_static = true -> fst (fst web) = true ->
    Forall (fun r => Link.link_exit r = 0) (snd web) /\
    let export := Link.web_export folder_root name true in
    path_exists (snd (fst web)) export = true /\ 8 < getsize (snd (fst web)) export)) /\
  (forall other,
     desktop_build folder_root name use_cpp other 2 w
     = desktop_build folder_root name use_cpp ldargs 2 w /\
     android_build folder_root name use_cpp other 2 arm android_ndk w
     = android_build folder_root name use_cpp ldargs 2 arm android_ndk w /\
     web_build folder_root name use_cpp other emcc emcpp emar true w
     = web_build folder_root name use_cpp ldargs emcc emcpp emar true w).
Proof.
  cbv zeta. split_and!.
  - unfold Link.desktop_build. cbv zeta.
    repeat (destruct (_ =? _)%Z);
      repeat apply halted_run; apply halted_start.
  - intros Hout. unfold Link.desktop_build. cbv zeta.
    destruct (build_type =? 0)%Z eqn:H0; [apply Z.eqb_eq in H0; lia|].
    destruct (build_type =? 1)%Z eqn:H1; [apply Z.eqb_eq in H1; lia|].
    destruct (build_type =? 2)%Z eqn:H2; [apply Z.eqb_eq in H2; lia|]. done.
  - intros Hin. unfold Link.android_build. cbv zeta.
    destruct (build_type =? 0)%Z eqn:H0; cbn [orb];
      [repeat apply halted_run; apply halted_start|].
    destruct (build_type =? 1)%Z eqn:H1;
      [repeat apply halted_run; apply halted_start|].
    destruct (build_type =? 2)%Z eqn:H2;
      [repeat apply halted_run; apply halted_start|].
    apply Z.eqb_neq in H0, H1, H2. lia.
  - intros Hout. unfold Link.android_build. cbv zeta.
    destruct (build_type =? 0)%Z eqn:H0; [apply Z.eqb_eq in H0; lia|].
    destruct (build_type =? 1)%Z eqn:H1; [apply Z.eqb_eq in H1; lia|].
    destruct (build_type =? 2)%Z eqn:H2; [apply Z.eqb_eq in H2; lia|]. done.
  - intros Hnone. unfold Link.web_build. cbv zeta. by rewrite Hnone.
  - intros -> Hcalls. unfold Link.web_build in *. cbv zeta in *.
    destruct (object_files _ _); [done|].
    apply halted_run, halted_start.
  - intros -> Hok. unfold Link.web_build in *. cbv zeta in *.
    destruct (object_files _ _) as [|obj objs]; [done|].
    match goal with
    | H : context [run ?c ?a ?s] |- _ =>
        pose proof (halted_run c a s (halted_start _)) as Hrun;
        destruct (run c a s) as [[ok w'] log]
    end.
    destruct Hrun as [Hgood _].
    destruct ok; cbn [andb] in *.
    + destruct (path_exists w' _ && (8 <? getsize w' _)) eqn:Hcheck;
        cbn [negb fst snd] in *; [|done].
      apply andb_true_iff in Hcheck as [Hexists Hsize%Z.ltb_lt].
      split_and!; [by apply Hgood|done|done].
    + done.
  - intros other. unfold Link.desktop_build, Link.android_build, Link.web_build.
    cbv zeta. by split_and!.
Qed.

End LinkFacts.

(** ** Flags of a descriptor *)

Lemma all_lstrip (p q : ascii -> bool) (s : string) :
  Py.all p s = true -> Py.all p (Py.lstrip_by q s) = true.
Proof.
  induction s as [|c s IH]; [done|]. cbn [Py.all Py.lstrip_by].
  intros [Hc Hs]%andb_true_iff. destruct (q c); [by apply IH|].
  cbn [Py.all]. by rewrite Hc, Hs.
Qed.

Lemma all_rstrip (p q : ascii -> bool) (s : string) :
  Py.all p s = true -> Py.all p (Py.rstrip_by q s) = true.
Proof.
  induction s as [|c s IH]; [done|]. cbn [Py.all Py.rstrip_by]. cbv zeta.
  intros [Hc Hs]%andb_true_iff. destruct (_ && q c); [done|].
  cbn [Py.all]. by rewrite Hc, IH.
Qed.

Lemma all_strip (p : ascii -> bool) (s : string) :
  Py.all p s = true -> Py.all p (Py.strip s) = true.
Proof. intros Hs. by apply all_rstrip, all_lstrip. Qed.

Lemma split_parts (sep : ascii) (s : string) :
  Forall (fun part => Py.all (fun c => negb (Ascii.eqb c sep)) part = true)
         (Py.split sep s).
Proof.
  induction s as [|c s IH]; [by repeat constructor|].
  cbn [Py.split]. destruct (Ascii.eqb c sep) eqn:Hc.
  - by constructor.
  - destruct (Py.split sep s) as [|h t]; [by repeat constructor; cbn; rewrite Hc|].
    apply Forall_cons in IH as [Hh Ht]. constructor; [|done].
    cbn [Py.all]. by rewrite Hc, Hh.
Qed.

Lemma split_sep_app (sep : ascii) (t rest : string) :
  Py.all (fun c => negb (Ascii.eqb c sep)) t = true ->
  Py.split sep (t +:+ String sep rest) = t :: Py.split sep rest.
Proof.
  induction t as [|c t IH].
  - intros _. change ("" +:+ String sep rest) with (String sep rest).
    cbn [Py.split]. by rewrite Ascii.eqb_refl.
  - cbn [Py.all]. intros [Hc Ht]%andb_true_iff. apply negb_true_iff in Hc.
    rewrite append_cons. cbn [Py.split]. by rewrite Hc, IH.
Qed.

Lemma split_sep_none (sep : ascii) (t : string) :
  Py.all (fun c => negb (Ascii.eqb c sep)) t = true -> Py.split sep t = [t].
Proof.
  induction t as [|c t IH]; [done|].
  cbn [Py.all]. intros [Hc Ht]%andb_true_iff. apply negb_true_iff in Hc.
  cbn [Py.split]. by rewrite Hc, IH.
Qed.

Lemma flag_token_strip (t : string) : flag_token t -> Py.strip t = t.
Proof. intros [_ Hall]. by apply strip_by_none. Qed.

Lemma flag_token_no_space (t : string) :
  flag_token t -> Py.all (fun c => negb (Ascii.eqb c " ")) t = true.
Proof.
  intros [_ Hall]. eapply all_impl; [|exact Hall].
  intros c Hc. destruct (Ascii.eqb c " ") eqn:Heq; [|done].
  apply Ascii.eqb_eq in Heq as ->. by vm_compute in Hc.
Qed.

Lemma stripped_parts_tokens (tokens : list string) :
  Forall flag_token tokens -> stripped_parts tokens = tokens.
Proof.
  unfold stripped_parts. induction 1 as [|t tokens Ht _ IH]; [done|].
  cbn [omap list_omap]. cbv zeta. rewrite (flag_token_strip t Ht).
  destruct Ht as [Hne _]. apply truthy_nonempty in Hne. by rewrite Hne, IH.
Qed.

Lemma split_join_tokens (tokens : list string) :
  tokens <> [] -> Forall flag_token tokens ->
  Py.split " " (Py.join " " tokens) = tokens.
Proof.
  intros Hne Htokens. destruct tokens as [|t tokens]; [done|]. clear Hne.
  revert t Htokens. induction tokens as [|u tokens IH]; intros t Htokens.
  - apply Forall_cons in Htokens as [Ht _].
    by apply split_sep_none, flag_token_no_space.
  - apply Forall_cons in Htokens as [Ht Hrest]. rewrite join_cons.
    change (" " +:+ Py.join " " (u :: tokens))
      with (String " " (Py.join " " (u :: tokens))).
    rewrite split_sep_app by (by apply flag_token_no_space). by rewrite IH.
Qed.

Lemma stripped_parts_spec (parts : list string) :
  Forall (fun t => t <> "" /\ Py.strip t = t) (stripped_parts parts) /\
  (forall p : ascii -> bool,
     Forall (fun part => Py.all p part = true) parts ->
     Forall (fun t => Py.all p t = true) (stripped_parts parts)).
Proof.
  unfold stripped_parts. split.
  - apply Forall_forall. intros t (part & _ & Hkept)%list_elem_of_omap.
    cbv zeta in Hkept. destruct (Py.truthy (Py.strip part)) eqn:Htruthy; [|done].
    injection Hkept as <-. split; [by apply truthy_nonempty|apply strip_idem].
  - intros p Hparts. apply Forall_forall.
    intros t (part & Hin & Hkept)%list_elem_of_omap.
    cbv zeta in Hkept. destruct (Py.truthy (Py.strip part)); [|done].
    injection Hkept as <-. apply all_strip.
    by eapply (proj1 (Forall_forall _ _) Hparts).
Qed.

(** X19: The flags read from a descriptor: each one is not empty and has no
    white space around it, and the ones read from a text hold no space;
    reading them again as a list changes nothing; [list_text] reads a list
    as [split_flags] does; and flags without white space, written with one
    space between them, are read back as they were. *)
Theorem split_flags_spec (value : flag_value) (tokens : list string) :
  Forall (fun t => t <> "" /\ Py.strip t = t) (split_flags value) /\
  (forall text, value = FlagText text ->
     Forall (fun t => Py.all (fun c => negb (Ascii.eqb c " ")) t = true)
            (split_flags value)) /\
  split_flags (FlagList (split_flags value)) = split_flags value /\
  (forall parts, list_text (FlagList parts) = split_flags (FlagList parts)) /\
  (Forall flag_token tokens ->
   split_flags (FlagText (Py.join " " tokens)) = tokens /\
   split_flags (FlagList tokens) = tokens).
Proof.
  split_and!.
  - destruct value as [parts|text|]; cbn [split_flags];
      [apply stripped_parts_spec..|constructor].
  - intros text ->. cbn [split_flags]. apply stripped_parts_spec, split_parts.
  - assert (Hagain : forall parts,
      stripped_parts (stripped_parts parts) = stripped_parts parts).
    { intros parts. destruct (stripped_parts_spec parts) as [Hshape _].
      revert Hshape. generalize (stripped_parts parts). intros l Hl.
      unfold stripped_parts. induction Hl as [|t l [Hne Hstrip] _ IH]; [done|].
      cbn [omap list_omap]. cbv zeta. rewrite Hstrip.
      apply truthy_nonempty in Hne. by rewrite Hne, IH. }
    destruct value as [parts|text|]; cbn [split_flags]; [apply Hagain..|done].
  - done.
  - intros Htokens. cbn [split_flags]. split; [|by apply stripped_parts_tokens].
    destruct tokens as [|t tokens]; [done|].
    rewrite split_join_tokens by done. by apply stripped_parts_tokens.
Qed.

Lemma split_flags_spec_witness :
  split_flags (FlagText "-O2 -Wall -DNAME=1") = ["-O2"; "-Wall"; "-DNAME=1"].
Proof.
  apply (split_flags_spec FlagOther ["-O2"; "-Wall"; "-DNAME=1"]).
  repeat constructor; done.
Defined.

(** ** Cleaning *)

Section CleanFacts.
Variable World : Type.
Variable path_exists : World -> string -> bool.
Variable try_remove : string -> World -> bool * World.
Variable os_nt : bool.

Local Abbreviation remove_all := (Clean.remove_all World path_exists try_remove).

Lemma remove_all_from (paths : list string) (dry_run : bool) (count : nat) (w : World) :
  foldl (fun state path =>
           let '(n, w') :=
             Clean.remove_path World path_exists try_remove path dry_run (snd state) in
           ((fst state + n)%nat, w'))
        (count, w) paths
  = ((count + fst (remove_all paths dry_run w))%nat, snd (remove_all paths dry_run w)).
Proof.
  unfold Clean.remove_all. revert count w.
  induction paths as [|path paths IH]; intros count w; cbn [foldl fst snd].
  { by rewrite Nat.add_0_r. }
  destruct (Clean.remove_path _ _ _ path dry_run w) as [n w'].
  rewrite (IH (count + n)%nat), (IH (0 + n)%nat). cbn [fst snd]. f_equal. lia.
Qed.

Lemma remove_all_cons (path : string) (paths : list string) (dry_run : bool) (w : World) :
  remove_all (path :: paths) dry_run w
  = let '(n, w') :=
      Clean.remove_path World path_exists try_remove path dry_run w in
    ((n + fst (remove_all paths dry_run w'))%nat, snd (remove_all paths dry_run w')).
Proof.
  unfold Clean.remove_all at 1. cbn [foldl fst snd].
  destruct (Clean.remove_path _ _ _ path dry_run w) as [n w'].
  by rewrite remove_all_from.
Qed.

Lemma remove_all_spec (paths : list string) (dry_run : bool) (w : World) :
  (fst (remove_all paths dry_run w) <= length paths)%nat /\
  (dry_run = true ->
   remove_all paths dry_run w
   = (length (List.filter (path_exists w) paths), w)) /\
  (Forall (fun path => path_exists w path = false) paths ->
   remove_all paths dry_run w = (0%nat, w)).
Proof.
  revert w. induction paths as [|path paths IH]; intros w; [by split_and!|].
  rewrite remove_all_cons. unfold Clean.remove_path.
  destruct (path_exists w path) eqn:Hexists; cbn [negb].
  - destruct dry_run.
    + destruct (IH w) as (Hle & Hdry & _). split_and!.
      * cbn [fst length]. lia.
      * intros _. cbn [List.filter]. rewrite Hexists, (Hdry eq_refl). done.
      * intros [Hpath _]%Forall_cons. congruence.
    + destruct (try_remove path w) as [removed w'].
      destruct (IH w') as (Hle & _ & _). split_and!.
      * cbn [fst length]. destruct removed; lia.
      * done.
      * intros [Hpath _]%Forall_cons. congruence.
  - destruct (IH w) as (Hle & Hdry & Hnone). split_and!.
    + cbn [fst length]. lia.
    + intros Htrue. cbn [List.filter]. rewrite Hexists, (Hdry Htrue). done.
    + intros [_ Hrest]%Forall_cons. by rewrite (Hnone Hrest).
Qed.

(** X20: Cleaning: with [dry_run] nothing is removed and the number returned is
    the number of the paths that exist; the number never exceeds the
    number of the paths, and for an unknown target it is 0 and nothing
    changes. The paths cover what the builds write for a static module on
    each target, for a shared module on Android and for an application on
    the desktop and on Android; the shared desktop library of a module,
    which is written without the prefix [lib], is not among them. *)
Theorem clean_targets_spec
    (module : ModuleSpec.t) (root name target sys_platform : string)
    (abi_list : list Z) (dry_run : bool) (w : World) :
  let directory := ModuleSpec.directory module in
  let module_name := ModuleSpec.name module in
  let module_paths := Clean.module_paths os_nt directory module_name in
  let cleaned :=
    Clean.clean_module_target World path_exists try_remove os_nt module target
                              abi_list dry_run w in
  ((fst cleaned <= length (module_paths target abi_list))%nat /\
   (dry_run = true ->
    cleaned = (length (List.filter (path_exists w) (module_paths target abi_list)), w)) /\
   (target ∉ ["desktop"; "web"; "android"] -> cleaned = (0%nat, w))) /\
  (os_nt = Py.startswith sys_platform "windows" ->
   Link.desktop_export sys_platform directory module_name 2
     ∈ module_paths "desktop" abi_list /\
   (Link.desktop_export sys_platform directory module_name 1
      ∉ module_paths "desktop" abi_list) /\
   Link.desktop_export sys_platform root name 0
     ∈ Clean.project_paths os_nt root name "desktop" abi_list) /\
  Link.web_export directory module_name true ∈ module_paths "web" abi_list /\
  (forall abi build_type, abi ∈ abi_list ->
     Link.android_export directory module_name build_type abi
       ∈ module_paths "android" abi_list /\
     Link.android_export root name 0 abi
       ∈ Clean.project_paths os_nt root name "android" abi_list).
Proof.
  cbv zeta. split_and!.
  - apply remove_all_spec.
  - apply remove_all_spec.
  - intros Htarget. unfold Clean.clean_module_target, Clean.module_paths.
    rewrite !bool_decide_eq_false_2 by set_solver. done.
  - intros ->. unfold Clean.module_paths, Clean.project_paths, Link.desktop_export,
      Clean.os_name, Link.os_name, posix_join.
    set (system := if Py.startswith sys_platform "windows" then "Windows" else "Linux").
    cbn [bool_decide decide_rel]. 
    rewrite !(bool_decide_eq_true_2 ("desktop" = "desktop")) by done.
    cbn [Z.eqb Pos.eqb]. rewrite !append_assoc. split_and!.
    + set_solver.
    + rewrite !elem_of_cons, elem_of_nil.
      intros [Heq|[Heq|[Heq|[Heq|[]]]]].
      * apply append_inv_head in Heq. subst system.
        destruct (Py.startswith sys_platform "windows"); by vm_compute in Heq.
      * do 4 apply append_inv_head in Heq.
        apply (f_equal String.length) in Heq. rewrite !length_append in Heq.
        cbn [String.length] in Heq. lia.
      * do 4 apply append_inv_head in Heq.
        apply (f_equal String.length) in Heq. rewrite !length_append in Heq.
        cbn [String.length] in Heq. lia.
      * do 4 apply append_inv_head in Heq.
        apply (f_equal String.length) in Heq. rewrite !length_append in Heq.
        cbn [String.length] in Heq. lia.
    + set_solver.
  - unfold Clean.module_paths, Link.web_export, posix_join.
    rewrite (bool_decide_eq_false_2 ("web" = "desktop")) by done.
    rewrite (bool_decide_eq_true_2 ("web" = "web")) by done.
    cbv zeta. rewrite !append_assoc.
    rewrite !elem_of_cons. right. left. reflexivity.
  - intros abi build_type Habi.
    unfold Clean.module_paths, Clean.project_paths, Link.android_export,
      Link.build_output_arm, Clean.abi_folder, posix_join.
    rewrite !(bool_decide_eq_false_2 ("android" = "desktop")) by done.
    rewrite !(bool_decide_eq_false_2 ("android" = "web")) by done.
    rewrite !(bool_decide_eq_true_2 ("android" = "android")) by done.
    cbv zeta. cbn [Z.eqb]. split.
    + apply elem_of_cons. right. apply list_elem_of_In, in_flat_map.
      exists abi. split; [by apply list_elem_of_In|].
      rewrite !append_assoc. destruct (build_type =? 2)%Z; cbn [In]; auto.
    + apply elem_of_cons. right. apply elem_of_app. left.
      apply list_elem_of_In, in_flat_map.
      exists abi. split; [by apply list_elem_of_In|].
      rewrite !append_assoc. cbn [In]. auto.
Qed.

End CleanFacts.

Lemma clean_targets_spec_witness :
  Link.desktop_export "linux" "/repo/modules/net" "net" 2
    ∈ Clean.module_paths false "/repo/modules/net" "net" "desktop" [0] /\
  (Link.desktop_export "linux" "/repo/modules/net" "net" 1
     ∉ Clean.module_paths false "/repo/modules/net" "net" "desktop" [0]).
Proof.
  destruct (clean_targets_spec unit (fun _ _ => false) (fun _ w => (true, w)) false
              (linking_module "net" [] []) "/repo/app" "app" "desktop" "linux" [0]
              false tt) as (_ & Hdesktop & _).
  destruct (Hdesktop eq_refl) as (Hstatic & Hshared & _). by split.
Defined.

(** ** Dependencies first *)

Lemma appears_before_index (p s : list string) (x d : string) :
  NoDup (p ++ x :: s) -> appears_before (p ++ x :: s) d x -> d ∈ p.
Proof.
  intros Hnd (i & j & Hi & Hj & Hlt).
  assert (Hx : (p ++ x :: s) !! length p = Some x) by (by apply list_lookup_middle).
  assert (j = length p) as -> by (by eapply NoDup_lookup).
  rewrite lookup_app_l in Hi by done. by eapply list_elem_of_lookup_2.
Qed.

Section DependenciesFirst.
Variable all_modules : registry.
Hypothesis acyclic : forall m, ~ tc (edge all_modules) m m.

Local Abbreviation E := (edge all_modules).
Local Abbreviation sorted := (dependencies_before all_modules).

Lemma topological_modules_sorted (start : string) :
  sorted (topological_modules start all_modules).
Proof.
  destruct (topological_modules_spec all_modules start) as (_ & _ & Hbefore).
  intros m d Hm He. destruct (Hbefore m d Hm He) as [?|Hback]; [done|].
  destruct (acyclic m). eapply tc_l; [exact He|exact Hback].
Qed.

Lemma merge_sorted (l : list string) :
  NoDup l -> sorted l ->
  forall s p ordered,
    l = p ++ s -> (forall x, x ∈ p -> x ∈ ordered) -> sorted ordered ->
    sorted (foldl (fun ordered item =>
                     if bool_decide (item ∈ ordered) then ordered
                     else ordered ++ [item])
                  ordered s).
Proof.
  intros Hnd Hl. induction s as [|x s IH]; intros p ordered Hsplit Hp Hsorted;
    cbn [foldl]; [done|].
  apply (IH (p ++ [x])).
  - by rewrite <- app_assoc.
  - intros y [Hy|Hy%list_elem_of_singleton]%elem_of_app.
    + case_bool_decide; [by apply Hp|]. apply elem_of_app. left. by apply Hp.
    + subst y. case_bool_decide; [done|]. apply elem_of_app. right. left.
  - case_bool_decide as Hx; [done|].
    intros m d [Hm|Hm%list_elem_of_singleton]%elem_of_app He.
    + by apply appears_before_app, Hsorted.
    + subst m. apply appears_before_snoc, Hp.
      apply (appears_before_index p s x d); [by rewrite <- Hsplit|].
      rewrite <- Hsplit. apply Hl; [|done]. rewrite Hsplit. set_solver.
Qed.

Lemma closure_for_modules_sorted (module_names : list string) :
  sorted (closure_for_modules module_names all_modules).
Proof.
  unfold closure_for_modules.
  assert (Hgen : forall ordered, sorted ordered ->
    sorted (foldl
              (fun ordered name =>
                 foldl (fun ordered item =>
                          if bool_decide (item ∈ ordered) then ordered
                          else ordered ++ [item])
                       ordered (topological_modules name all_modules))
              ordered module_names)).
  { induction module_names as [|name names IH]; intros ordered Hsorted;
      cbn [foldl]; [done|].
    apply IH.
    destruct (topological_modules_spec all_modules name) as (Hnd & _).
    apply (merge_sorted _ Hnd (topological_modules_sorted name) _ []);
      [done| |done].
    by intros x ?%not_elem_of_nil. }
  apply Hgen. by intros m d ?%not_elem_of_nil.
Qed.

End DependenciesFirst.

(** X21: Without a cycle among the registered modules the order of a module is
    a topological order as the specification asks for it, and so is the
    closure of several modules, which is the order in which the modules of
    a project are built: every module stands after each of its registered
    dependencies. *)
Theorem dependencies_first
    (all_modules : registry) (start : string) (module_names : list string) :
  (forall m, ~ tc (edge all_modules) m m) ->
  resolver_order_claim all_modules start /\
  dependencies_before all_modules (closure_for_modules module_names all_modules).
Proof.
  intros Hacyclic. split.
  - destruct (topological_modules_spec all_modules start) as (Hnd & Hreach & _).
    split_and!; [done|by intros m ?%Hreach|].
    intros m d Hm _ He. by apply topological_modules_sorted.
  - by apply closure_for_modules_sorted.
Qed.

Lemma threads_registry_edges (m d : string) :
  edge threads_registry m d -> m = "app" /\ d <> "app".
Proof.
  intros (module & dep & Hm & Hdep & Hfollowed & _). unfold threads_registry in Hm.
  apply lookup_insert_Some in Hm as [[<- <-]|[_ Hm]].
  - split; [done|]. cbn in Hdep.
    apply elem_of_cons in Hdep as [->|Hdep]; [by vm_compute in Hfollowed; injection Hfollowed as <-|].
    apply elem_of_cons in Hdep as [->|Hdep]; [by vm_compute in Hfollowed; injection Hfollowed as <-|].
    by apply not_elem_of_nil in Hdep.
  - apply lookup_insert_Some in Hm as [[<- <-]|[_ Hm]];
      [by apply not_elem_of_nil in Hdep|].
    apply lookup_insert_Some in Hm as [[<- <-]|[_ Hm]];
      [by apply not_elem_of_nil in Hdep|done].
Qed.

Lemma dependencies_first_witness :
  let l := closure_for_modules ["app"] threads_registry in
  appears_before l "net" "app" /\ appears_before l "audio" "app".
Proof.
  assert (Hacyclic : forall m, ~ tc (edge threads_registry) m m).
  { intros m Hcycle.
    assert (Hlast : forall x y, tc (edge threads_registry) x y -> y <> "app").
    { induction 1 as [x y He|x y z He _ IH]; [|done].
      by destruct (threads_registry_edges x y He). }
    assert (Hfirst : m = "app").
    { inversion Hcycle as [x y He|x y z He _]; subst;
        by destruct (threads_registry_edges _ _ He). }
    by apply (Hlast m m). }
  destruct (dependencies_first threads_registry "app" ["app"] Hacyclic) as [_ Hsorted].
  assert (Happ : "app" ∈ closure_for_modules ["app"] threads_registry).
  { replace (closure_for_modules ["app"] threads_registry)
      with ["net"; "audio"; "app"] by (by vm_compute).
    do 2 right. left. }
  cbv zeta. split; apply Hsorted; try exact Happ.
  - exists (linking_module "app" ["net"; "audio"] []), "net".
    split_and!; [done|left|done|by eexists].
  - exists (linking_module "app" ["net"; "audio"] []), "audio".
    split_and!; [done|right; left|done|by eexists].
Defined.

(** ** Composing onto composed lists *)

Lemma extend_unique_app (items values more : list string) :
  extend_unique items (values ++ more)
  = extend_unique (extend_unique items values) more.
Proof. unfold extend_unique. apply foldl_app. Qed.

(** What is added holds no value twice. *)
Lemma extend_unique_fresh (values items : list string) :
  exists added,
    extend_unique items values = items ++ added /\ NoDup added /\
    forall v, v ∈ added -> v ∈ values /\ (v ∉ items) /\ v <> "".
Proof.
  unfold extend_unique. revert items.
  induction values as [|value values IH]; intros items; cbn [foldl].
  - exists []. split_and!; [by rewrite app_nil_r|constructor|].
    by intros v ?%not_elem_of_nil.
  - destruct (IH (append_unique items value)) as (added & -> & Hnd & Hadded).
    unfold append_unique in *.
    destruct (Py.truthy value) eqn:Ht; simpl in *.
    2:{ exists added. split_and!; [done..|]. intros v Hv.
        destruct (Hadded v Hv) as (? & ? & ?). split_and!; [by right|done..]. }
    case_bool_decide as Hin; simpl in *.
    + exists added. split_and!; [done..|]. intros v Hv.
      destruct (Hadded v Hv) as (? & ? & ?). split_and!; [by right|done..].
    + exists (value :: added). split_and!; [by rewrite <- app_assoc| |].
      * constructor; [|done]. intros Hv.
        destruct (Hadded value Hv) as (_ & Hnot & _). set_solver.
      * intros v [->|Hv]%elem_of_cons.
        -- split_and!; [left|done|by apply truthy_nonempty].
        -- destruct (Hadded v Hv) as (? & Hnot & ?).
           split_and!; [by right| |done]. set_solver.
Qed.

Lemma append_unique_added (items : list string) (value : string) :
  exists added, append_unique items value = items ++ added /\
                (added = [] \/ added = [value]).
Proof.
  unfold append_unique.
  destruct (Py.truthy value && negb (bool_decide (value ∈ items))).
  - exists [value]. split; [done|by right].
  - exists []. split; [by rewrite app_nil_r|by left].
Qed.

Section CompositionAgain.
Variable joinpath : string -> string -> string.
Variable os_nt : bool.
Variable path_exists : string -> bool.
Variables (target : string) (abi : Z).

Local Abbreviation link_flags_of :=
  (fun ld_args dep =>
     add_module_link_flags joinpath os_nt path_exists dep
       (module_platform_block dep target) target abi ld_args).
Local Abbreviation includes_of :=
  (fun dep =>
     module_include_flags joinpath os_nt dep (module_platform_block dep target) target).
Local Abbreviation block_of :=
  (module_link_block joinpath os_nt path_exists).
Local Abbreviation search_path_of := (module_search_path joinpath os_nt).

Lemma add_module_link_flags_block (dep : ModuleSpec.t) (ld_args : list string) :
  link_flags_of ld_args dep
  = append_unique ld_args (search_path_of dep target abi) ++ block_of dep target abi.
Proof.
  unfold add_module_link_flags, module_link_block, module_search_path.
  destruct (path_exists _); by rewrite <- ?app_assoc.
Qed.

(** The loop over [module.depends] is a loop over the dependencies it
    takes. *)
Lemma dependency_loop_resolved (module : ModuleSpec.t) (all_modules : registry) flags :
  foldl (add_dependency_flags joinpath os_nt path_exists module target abi all_modules)
        flags (ModuleSpec.depends module)
  = foldl (fun flags dep =>
             add_registered_module_flags joinpath os_nt path_exists dep target abi flags)
          flags (resolved_dependencies module all_modules).
Proof.
  unfold resolved_dependencies. revert flags.
  induction (ModuleSpec.depends module) as [|dep_name deps IH]; intros flags; [done|].
  cbn [foldl omap list_omap]. unfold add_dependency_flags at 2.
  destruct (followed _ dep_name) as [name|]; [|apply IH].
  destruct (all_modules !! name) as [dep|]; [|apply IH].
  cbn [foldl]. by rewrite <- IH.
Qed.

Lemma registered_loop (deps : list ModuleSpec.t) flags :
  let flags' :=
    foldl (fun flags dep =>
             add_registered_module_flags joinpath os_nt path_exists dep target abi flags)
          flags deps in
  cc_of flags' = extend_unique (cc_of flags) (flat_map includes_of deps) /\
  cpp_of flags' = extend_unique (cpp_of flags) (flat_map includes_of deps) /\
  ld_of flags' = foldl link_flags_of (ld_of flags) deps.
Proof.
  revert flags. induction deps as [|dep deps IH]; intros flags; [done|].
  cbn [foldl flat_map]. destruct (IH (add_registered_module_flags joinpath os_nt
                                       path_exists dep target abi flags))
    as (-> & -> & ->).
  rewrite !extend_unique_app.
  unfold add_registered_module_flags, add_module_include_flags, cc_of, cpp_of, ld_of.
  by cbn [fst snd].
Qed.

(** The three lists of [compose_module_flags] from the values that it
    adds: the compile lists take the include paths and the declared flags of
    the module and the include paths of its dependencies, all without
    repetition; the link list is what [add_module_link_flags] makes for the
    dependencies, and then the declared link flags without repetition. *)
Lemma compose_module_flags_lists (module : ModuleSpec.t) (all_modules : registry) flags :
  let result :=
    compose_module_flags joinpath os_nt path_exists module target abi all_modules
                         flags in
  let block := module_platform_block module target in
  let deps := resolved_dependencies module all_modules in
  cc_of result
  = extend_unique (cc_of flags)
      (includes_of module ++ ModuleSpec.main_cc_args module ++
       PlatformBlock.cc_args block ++ flat_map includes_of deps) /\
  cpp_of result
  = extend_unique (cpp_of flags)
      (includes_of module ++ ModuleSpec.main_cpp_args module ++
       PlatformBlock.cpp_args block ++ flat_map includes_of deps) /\
  ld_of result
  = extend_unique (foldl link_flags_of (ld_of flags) deps)
      (ModuleSpec.main_ld_args module ++ PlatformBlock.ld_args block).
Proof.
  intros result block deps. subst result.
  unfold compose_module_flags. fold block.
  unfold add_module_include_flags. rewrite dependency_loop_resolved. fold deps.
  match goal with
  | |- context [foldl _ ?init deps] => destruct (registered_loop deps init) as (Hcc & Hcpp & Hld)
  end.
  unfold cc_of, cpp_of, ld_of in *. cbn [fst snd] in *.
  rewrite Hcc, Hcpp, Hld. by rewrite !extend_unique_app.
Qed.

Lemma search_path_holds (dep : ModuleSpec.t) (ld_args : list string) :
  search_path_of dep target abi ∈ append_unique ld_args (search_path_of dep target abi).
Proof. by apply (extend_unique_holds [_]); [left|]. Qed.

(** The link flags of the dependencies: the list grows at its end by search
    paths and by the blocks of the dependencies; every search path is in
    it; the blocks are in it one after the other, each as often as its
    dependency is named; where the search paths are there already, the
    blocks are all that is added; and where the blocks are empty no flag is
    added twice. *)
Lemma link_loop_spec (deps : list ModuleSpec.t) (ld_args : list string) :
  let result := foldl link_flags_of ld_args deps in
  let blocks := flat_map (fun dep => block_of dep target abi) deps in
  (exists added, result = ld_args ++ added /\
     forall flag, flag ∈ added ->
       (exists dep, dep ∈ deps /\ flag = search_path_of dep target abi) \/
       flag ∈ blocks) /\
  (forall dep, dep ∈ deps -> search_path_of dep target abi ∈ result) /\
  (forall held, held `sublist_of` ld_args -> (held ++ blocks) `sublist_of` result) /\
  ((forall dep, dep ∈ deps -> search_path_of dep target abi ∈ ld_args) ->
   result = ld_args ++ blocks) /\
  (blocks = [] -> NoDup ld_args -> NoDup result).
Proof.
  revert ld_args. induction deps as [|dep deps IH]; intros ld_args; cbn [foldl flat_map].
  { split_and!.
    - exists []. split; [by rewrite app_nil_r|]. by intros flag ?%not_elem_of_nil.
    - by intros dep ?%not_elem_of_nil.
    - intros held Hheld. by rewrite app_nil_r.
    - intros _. by rewrite app_nil_r.
    - done. }
  rewrite add_module_link_flags_block.
  set (path := search_path_of dep target abi).
  set (block := block_of dep target abi).
  destruct (IH (append_unique ld_args path ++ block))
    as ((added & Hadded & Hfrom) & Hpaths & Hsub & Hsame & Hnodup).
  destruct (append_unique_added ld_args path) as (new & Hnew & Hwhich).
  split_and!.
  - exists (new ++ block ++ added). split.
    + by rewrite Hadded, Hnew, <- !app_assoc.
    + intros flag [Hin|[Hin|Hin]%elem_of_app]%elem_of_app.
      * left. exists dep. split; [left|].
        destruct Hwhich as [-> | ->]; [by apply not_elem_of_nil in Hin|].
        by apply list_elem_of_singleton in Hin.
      * right. apply elem_of_app. by left.
      * destruct (Hfrom flag Hin) as [(d & Hd & ->)|Hblock].
        -- left. exists d. split; [by right|done].
        -- right. apply elem_of_app. by right.
  - intros d [->|Hd]%elem_of_cons; [|by apply Hpaths].
    rewrite Hadded. apply elem_of_app. left. apply elem_of_app. left.
    apply search_path_holds.
  - intros held Hheld. rewrite app_assoc. apply Hsub.
    apply sublist_app; [|done]. rewrite Hnew. by apply sublist_inserts_r.
  - intros Hthere. rewrite append_unique_present in * by (right; apply Hthere; left).
    rewrite Hsame; [by rewrite <- app_assoc|].
    intros d Hd. apply elem_of_app. left. apply Hthere. by right.
  - intros [Hblock Hrest]%app_eq_nil Hnd. apply Hnodup; [done|].
    fold block in Hblock. rewrite Hblock, app_nil_r. by apply append_unique_NoDup.
Qed.
End CompositionAgain.
(** Composing onto a list that holds the values already adds nothing. *)
Lemma extend_unique_again (items values : list string) :
  extend_unique (extend_unique items values) values = extend_unique items values.
Proof.
  apply extend_unique_present. intros v Hv.
  destruct (decide (v = "")) as [->|Hne]; [by left|right].
  by apply extend_unique_holds.
Qed.

(** C5 (amended): the C and the C++ list are duplicate free. The link list
    is made of two parts. The first comes from the dependencies that the
    loop takes: their search paths, each added when it is not there yet,
    and after each search path the block of its module (the library, when
    its file exists, and the declared link flags), appended as it is, so
    that the blocks are in the list one after the other, as often as the
    dependencies are named. The second part holds the declared link flags
    of the module itself that the first part lacks, each once. The link
    list is therefore duplicate free when the module has no dependency, or
    when the blocks of its dependencies are empty. Running the statements
    of the composition a second time, over the lists that the first run
    gave, leaves the two compile lists as they are and appends the blocks
    of the dependencies to the link list once more: the link list does not
    grow exactly when those blocks are empty. *)
Theorem collect_module_build_flags_unique
    (joinpath : string -> string -> string) (os_nt : bool)
    (path_exists : string -> bool)
    (module : ModuleSpec.t) (target : string) (abi : Z) (all_modules : registry) :
  let flags :=
    collect_module_build_flags joinpath os_nt path_exists module target abi all_modules in
  let again :=
    compose_module_flags joinpath os_nt path_exists module target abi all_modules
                         flags in
  let deps := resolved_dependencies module all_modules in
  let blocks :=
    flat_map (fun dep => module_link_block joinpath os_nt path_exists dep target abi)
             deps in
  let declared :=
    ModuleSpec.main_ld_args module
    ++ PlatformBlock.ld_args (module_platform_block module target) in
  NoDup (cc_of flags) /\ NoDup (cpp_of flags) /\
  (ModuleSpec.depends module = [] -> NoDup (ld_of flags)) /\
  (blocks = [] -> NoDup (ld_of flags)) /\
  (exists dep_part own_part,
     ld_of flags = dep_part ++ own_part /\
     NoDup own_part /\
     (forall flag, flag ∈ own_part <->
        flag ∈ declared /\ flag <> "" /\ (flag ∉ dep_part)) /\
     (forall dep, dep ∈ deps ->
        module_search_path joinpath os_nt dep target abi ∈ dep_part) /\
     blocks `sublist_of` dep_part /\
     (forall flag, flag ∈ dep_part ->
        (exists dep, dep ∈ deps /\
                     flag = module_search_path joinpath os_nt dep target abi) \/
        flag ∈ blocks)) /\
  cc_of again = cc_of flags /\
  cpp_of again = cpp_of flags /\
  ld_of again = ld_of flags ++ blocks /\
  (ld_of again = ld_of flags <-> blocks = []).
Proof.
  intros flags again deps blocks declared.
  destruct (compose_module_flags_lists joinpath os_nt path_exists target abi
              module all_modules ([], [], [])) as (Hcc & Hcpp & Hld).
  destruct (compose_module_flags_lists joinpath os_nt path_exists target abi
              module all_modules flags) as (Hcc2 & Hcpp2 & Hld2).
  fold again deps declared in Hcc2, Hcpp2, Hld2.
  change (compose_module_flags joinpath os_nt path_exists module target abi
            all_modules ([], [], [])) with flags in Hcc, Hcpp, Hld.
  fold deps declared in Hcc, Hcpp, Hld.
  change (cc_of ([], [], [])) with (@nil string) in Hcc.
  change (cpp_of ([], [], [])) with (@nil string) in Hcpp.
  change (ld_of ([], [], [])) with (@nil string) in Hld.
  destruct (link_loop_spec joinpath os_nt path_exists target abi deps [])
    as ((dep_part & Hpart & Hfrom) & Hpaths & Hsub & _ & Hnodup).
  cbn [app] in Hpart. fold blocks in Hfrom, Hsub, Hnodup.
  rewrite Hpart in *.
  destruct (extend_unique_fresh declared dep_part) as (own_part & Hown & Hnd & Hadded).
  assert (Hblocks : blocks = [] -> NoDup (ld_of flags)).
  { intros Hempty. rewrite Hld. apply extend_unique_NoDup, Hnodup; [done|constructor]. }
  assert (Hgrown : ld_of again = ld_of flags ++ blocks).
  { rewrite Hld2.
    destruct (link_loop_spec joinpath os_nt path_exists target abi deps (ld_of flags))
      as (_ & _ & _ & Hsame & _).
    fold blocks in Hsame. rewrite Hsame.
    - apply extend_unique_present. intros v Hv.
      destruct (decide (v = "")) as [->|Hne]; [by left|right].
      apply elem_of_app. left. rewrite Hld. by apply extend_unique_holds.
    - intros dep Hdep. rewrite Hld, Hown. apply elem_of_app. left. by apply Hpaths. }
  split_and!.
  - rewrite Hcc. apply extend_unique_NoDup. constructor.
  - rewrite Hcpp. apply extend_unique_NoDup. constructor.
  - intros Hnone. apply Hblocks. subst blocks deps.
    unfold resolved_dependencies. by rewrite Hnone.
  - done.
  - exists dep_part, own_part. split_and!; [by rewrite Hld|done| |done| |done].
    + intros flag. split; [intros Hin; by destruct (Hadded flag Hin) as (? & ? & ?)|].
      intros (Hdeclared & Hne & Hnot).
      assert (Hin : flag ∈ extend_unique dep_part declared)
        by (by apply extend_unique_holds).
      rewrite Hown in Hin. apply elem_of_app in Hin as [Hin|Hin]; done.
    + by apply (Hsub []).
  - rewrite Hcc2, Hcc. apply extend_unique_again.
  - rewrite Hcpp2, Hcpp. apply extend_unique_again.
  - done.
  - rewrite Hgrown. split; [|intros ->; by rewrite app_nil_r].
    intros Heq. apply (app_inv_head (ld_of flags)). by rewrite app_nil_r.
Qed.

(** The link list of the application over two libraries, composed once
    more over itself: the declared flags of the libraries are appended
    again. *)
Example threads_link_flags_again :
  let flags :=
    collect_module_build_flags posix_join false (fun _ => false)
      (linking_module "app" ["net"; "audio"] []) "desktop" 0 threads_registry in
  ld_of (compose_module_flags posix_join false (fun _ => false)
           (linking_module "app" ["net"; "audio"] []) "desktop" 0 threads_registry
           flags)
  = ld_of flags ++ ["-lpthread"; "-lpthread"].
Proof. vm_compute. reflexivity. Qed.
